(** * kernel/kexec.c: the EFI application loader and its boot-service hooks

    A shallow embedding of the PE loading path of [kexec_load]
    ([KEXEC_RUN_PE]): the relocation walker, the segment loader, the GUID
    registry with protocol dispatch, and the memory-map ledger behind the
    AllocatePages / AllocatePool / FreePages / GetMemoryMap hooks.

    Machine integers are [Z] with the wrap-around of their C type written
    out; memory is a byte store indexed by 64-bit addresses. *)

From Stdlib Require Import String Ascii.
From Stdlib Require Import ZArith List Bool Lia.
Import ListNotations.
Local Open Scope Z_scope.

(* ================================================================= *)
(** ** Machine words and byte-addressed memory *)

Module Mem.

Definition wrap64 (z : Z) : Z := z mod 2 ^ 64.
Definition wrap32 (z : Z) : Z := z mod 2 ^ 32.

(** Value of a 32-bit pattern read as [int] (two's complement). *)
Definition sint32 (z : Z) : Z :=
  if wrap32 z <? 2 ^ 31 then wrap32 z else wrap32 z - 2 ^ 32.

(** One byte per address; addresses live in [0, 2^64). *)
Definition t := Z -> Z.

Definition load8 (m : t) (a : Z) : Z := m (wrap64 a) mod 256.

Definition store8 (m : t) (a v : Z) : t :=
  fun x => if x =? wrap64 a then v mod 256 else m x.

(** Little-endian access of [n] bytes, as on the arm64 / x86-64 targets. *)
Fixpoint load_le (n : nat) (m : t) (a : Z) : Z :=
  match n with
  | O => 0
  | S k => load8 m a + 256 * load_le k m (a + 1)
  end.

Fixpoint store_le (n : nat) (m : t) (a v : Z) : t :=
  match n with
  | O => m
  | S k => store_le k (store8 m a v) (a + 1) (v / 256)
  end.

(** The [n] addresses touched by an access at [a]. *)
Definition in_window (a : Z) (n : nat) (x : Z) : Prop :=
  exists j, 0 <= j < Z.of_nat n /\ x = wrap64 (a + j).

(** A memory given by a finite list of (address, byte) cells over zeroes. *)
Fixpoint of_cells (cells : list (Z * Z)) : t :=
  match cells with
  | [] => fun _ => 0
  | (a, v) :: rest => store8 (of_cells rest) a v
  end.

(** Cells holding the [n]-byte little-endian encoding of [v] at [a]. *)
Fixpoint cells_le (n : nat) (a v : Z) : list (Z * Z) :=
  match n with
  | O => []
  | S k => (a, v mod 256) :: cells_le k (a + 1) (v / 256)
  end.

End Mem.

(* ================================================================= *)
(** ** The kexec image and its segments *)

Record kexec_segment := {
  buf   : Z;   (* user pointer to the source bytes *)
  bufsz : Z;
  mem   : Z;   (* address of the segment in the EFI image *)
  memsz : Z
}.

Record kimage := {
  start              : Z;
  segment            : list kexec_segment;
  raw_image          : Z;
  raw_image_mem_base : Z;
  raw_image_start    : Z
}.

(* ================================================================= *)
(** ** PE base relocations: [parse_chunk_relocations], [parse_reloc_table] *)

Module Reloc.
Import Mem.

Definition SEGMENTS_OFFSET_FROM_ZERO : Z := 0x1000000.
Definition IMAGE_BASE : Z := 0x10000000.
Definition IMAGE_REL_BASED_DIR64 : Z := 10.

(** [sizeof(relocation_chunk_header_t)] and [sizeof(relocation_entry_t)]. *)
Definition sizeof_header : Z := 8.
Definition sizeof_entry : Z := 2.

(** [relocation_chunk_header_t]: [va_offset] then [total_size], both u32. *)
Definition va_offset (m : Mem.t) (chunk : Z) : Z := load_le 4 m chunk.
Definition total_size (m : Mem.t) (chunk : Z) : Z := load_le 4 m (chunk + 4).

(** [relocation_entry_t]: a 16-bit unit, [offset] in the low 12 bits and
    [type] in the high 4. *)
Definition entry_offset (e : Z) : Z := Z.land e 0xFFF.
Definition entry_type (e : Z) : Z := Z.shiftr e 12.

(** [num_relocs]: the subtraction and division are done in [size_t]
    (64 bits), the result is truncated to [uint32_t]. *)
Definition num_relocs (m : Mem.t) (chunk : Z) : Z :=
  wrap32 (wrap64 (total_size m chunk - sizeof_header) / sizeof_entry).

Definition absolute_image_start (image : kimage) : Z :=
  wrap64 (start image - SEGMENTS_OFFSET_FROM_ZERO).

Definition raw_image_vs_PE_bias (image : kimage) : Z :=
  wrap64 (raw_image_start image - absolute_image_start image).

(** Address of [relocs[i]]: [i] is an [int], compared as unsigned with
    [num_relocs]; [k] is its unsigned value. *)
Definition entry_addr (chunk k : Z) : Z :=
  wrap64 (chunk + sizeof_header + sizeof_entry * sint32 k).

Definition entry_at (m : Mem.t) (chunk k : Z) : Z :=
  load_le 2 m (entry_addr chunk k).

(** [address_in_image]: the bit-field promotes to [int], [va_offset] is
    [uint32_t], so the sum is computed in 32 bits. *)
Definition address_in_image (m : Mem.t) (chunk k : Z) : Z :=
  wrap32 (entry_offset (entry_at m chunk k) + va_offset m chunk).

Definition raw_image_content (image : kimage) (m : Mem.t) (chunk k : Z) : Z :=
  wrap64 (raw_image_vs_PE_bias image + address_in_image m chunk k).

Definition correct_value (image : kimage) (m : Mem.t) (chunk k : Z) : Z :=
  wrap64 (load_le 8 m (raw_image_content image m chunk k)
          - IMAGE_BASE + raw_image_vs_PE_bias image).

Definition should_patch (m : Mem.t) (chunk k : Z) : bool :=
  entry_type (entry_at m chunk k) =? IMAGE_REL_BASED_DIR64.

(** One iteration of the [for] loop. *)
Definition patch_entry (image : kimage) (chunk : Z) (m : Mem.t) (k : Z)
  : Mem.t :=
  if should_patch m chunk k
  then store_le 8 m (raw_image_content image m chunk k)
                (correct_value image m chunk k)
  else m.

(** [n] iterations starting at index [k]. *)
Fixpoint patch_entries (image : kimage) (chunk : Z) (n : nat) (k : Z)
                       (m : Mem.t) : Mem.t :=
  match n with
  | O => m
  | S n' => patch_entries image chunk n' (k + 1) (patch_entry image chunk m k)
  end.

Definition parse_chunk_relocations (chunk : Z) (image : kimage) (m : Mem.t)
  : Mem.t :=
  patch_entries image chunk (Z.to_nat (num_relocs m chunk)) 0 m.

(** The [while] loop of [parse_reloc_table].  The result lists the chunks
    handed to [parse_chunk_relocations], the cursor on exit and the final
    memory; [None] when [fuel] iterations were not enough. *)
Fixpoint chunk_walk (fuel : nat) (segment_end : Z) (image : kimage)
                    (chunk : Z) (m : Mem.t)
  : option (list Z * Z * Mem.t) :=
  match fuel with
  | O => None
  | S fuel' =>
      if chunk <? segment_end then
        if total_size m chunk =? 0 then Some ([], chunk, m)
        else
          let m' := parse_chunk_relocations chunk image m in
          let chunk' := wrap64 (chunk + total_size m' chunk) in
          match chunk_walk fuel' segment_end image chunk' m' with
          | Some (visited, c, mf) => Some (chunk :: visited, c, mf)
          | None => None
          end
      else Some ([], chunk, m)
  end.

Definition segment_end (seg : kexec_segment) : Z :=
  wrap64 (buf seg + bufsz seg).

Definition parse_reloc_table (fuel : nat) (seg : kexec_segment)
                             (image : kimage) (m : Mem.t)
  : option (list Z * Z * Mem.t) :=
  chunk_walk fuel (segment_end seg) image (buf seg) m.

(** The chunk walk as the specification words it: stop at the segment's
    end, stop at a zero-sized chunk, otherwise process the chunk and
    advance by its [total_size]. *)
Inductive walk_spec (send : Z) (image : kimage)
  : Z -> Mem.t -> list Z -> Z -> Mem.t -> Prop :=
| walk_end : forall c m,
    send <= c -> walk_spec send image c m [] c m
| walk_zero : forall c m,
    c < send -> total_size m c = 0 -> walk_spec send image c m [] c m
| walk_next : forall c m visited c' m',
    c < send -> total_size m c <> 0 ->
    walk_spec send image
              (wrap64 (c + total_size (parse_chunk_relocations c image m) c))
              (parse_chunk_relocations c image m) visited c' m' ->
    walk_spec send image c m (c :: visited) c' m'.


End Reloc.

(* ================================================================= *)
(** ** The memory-map ledger behind the boot-service hooks *)

Module Ledger.
Import Mem.

(** Modelled from the spec: [PAGE_SIZE] is defined by the architecture
    headers, which are not part of this file.  A relocation chunk covers
    one page-sized range addressed by a 12-bit offset, so a page is
    [2^12] bytes. *)
Definition PAGE_SIZE : Z := 4096.

(** The [efi_status_t] values the hooks return. *)
Inductive efi_status_t :=
| EFI_SUCCESS
| EFI_INVALID_PARAMETER
| EFI_UNSUPPORTED
| EFI_BUFFER_TOO_SMALL
| EFI_OUT_OF_RESOURCES
| EFI_NOT_FOUND.

(** [EFI_MEMORY_TYPE], by enumerator value. *)
Definition EfiReservedMemoryType : Z := 0.
Definition EfiLoaderCode         : Z := 1.
Definition EfiLoaderData         : Z := 2.
Definition EfiBootServicesCode   : Z := 3.
Definition EfiBootServicesData   : Z := 4.
Definition EfiConventionalMemory : Z := 7.

(** [EFI_ALLOCATE_TYPE], by enumerator value. *)
Definition AllocateAnyPages   : Z := 0.
Definition AllocateMaxAddress : Z := 1.
Definition AllocateAddress    : Z := 2.

(** [EFI_MEMORY_UC | EFI_MEMORY_WC | EFI_MEMORY_WT | EFI_MEMORY_WB]. *)
Definition EFI_DEFAULT_MEM_ATTRIBUTES : Z := 0xF.

Record EFI_MEMORY_DESCRIPTOR := {
  type      : Z;   (* u32 *)
  pad       : Z;   (* u32 *)
  phys_addr : Z;   (* u64 *)
  virt_addr : Z;   (* u64 *)
  num_pages : Z;   (* u64 *)
  attribute : Z;   (* u64 *)
  pad2      : Z    (* u64 *)
}.

Definition set_type (d : EFI_MEMORY_DESCRIPTOR) (t : Z) :=
  {| type := t; pad := pad d; phys_addr := phys_addr d;
     virt_addr := virt_addr d; num_pages := num_pages d;
     attribute := attribute d; pad2 := pad2 d |}.

(** Process-wide state: the [efi_memory_mappings] list, in list order,
    and [efi_mem_map_epoch]. *)
Record efi_state := {
  efi_memory_mappings : list EFI_MEMORY_DESCRIPTOR;
  efi_mem_map_epoch   : Z
}.

Definition initial_state : efi_state :=
  {| efi_memory_mappings := []; efi_mem_map_epoch := 0 |}.

Definition with_mappings (s : efi_state) (l : list EFI_MEMORY_DESCRIPTOR) :=
  {| efi_memory_mappings := l; efi_mem_map_epoch := efi_mem_map_epoch s |}.

(** What the host kernel answers during one hook call.  An allocation is
    represented by [virt_to_phys] of the pointer returned.
    - [kmalloc_phys]: the pool [kmalloc]; [None] is a [NULL] return;
    - [remap_phys]: [virt_to_phys] of what [memremap] returned;
    - [node_ok]: whether the [kmalloc] of the list node succeeded. *)
Record host := {
  kmalloc_phys : option Z;
  remap_phys   : Z;
  node_ok      : bool
}.

Definition efi_register_mem_allocation
    (MemoryType NumberOfPages allocation_phys : Z) (node : bool)
    (l : list EFI_MEMORY_DESCRIPTOR) : list EFI_MEMORY_DESCRIPTOR :=
  if node then
    l ++ [ {| type      := wrap32 MemoryType;
              pad       := 0;
              phys_addr := wrap64 allocation_phys;
              virt_addr := 0;
              num_pages := wrap64 NumberOfPages;
              attribute := EFI_DEFAULT_MEM_ATTRIBUTES;
              pad2      := 0 |} ]
  else l.

(** [end_of_region], computed in 64 bits. *)
Definition end_of_region (d : EFI_MEMORY_DESCRIPTOR) : Z :=
  wrap64 (phys_addr d + num_pages d * PAGE_SIZE).

(** The scan's test that [PhysicalAddress] falls into the mapping. *)
Definition located (d : EFI_MEMORY_DESCRIPTOR) (PhysicalAddress : Z) : bool :=
  negb ((PhysicalAddress <? phys_addr d) || (end_of_region d <=? PhysicalAddress)).

Definition offset_in_mapping (d : EFI_MEMORY_DESCRIPTOR) (PhysicalAddress : Z) : Z :=
  wrap64 (PhysicalAddress - phys_addr d).

Fixpoint efi_unregister_allocation
    (l : list EFI_MEMORY_DESCRIPTOR) (PhysicalAddress NumberOfPages : Z)
  : efi_status_t * list EFI_MEMORY_DESCRIPTOR :=
  match l with
  | [] => (EFI_INVALID_PARAMETER, [])
  | d :: rest =>
      if located d PhysicalAddress then
        if negb (offset_in_mapping d PhysicalAddress =? 0)
           || negb (num_pages d =? NumberOfPages)
        then (EFI_INVALID_PARAMETER, d :: rest)
        else (EFI_SUCCESS, set_type d EfiConventionalMemory :: rest)
      else
        let (st, rest') :=
          efi_unregister_allocation rest PhysicalAddress NumberOfPages in
        (st, d :: rest')
  end.

Definition efi_hook_FreePages (s : efi_state) (PhysicalAddress NumberOfPages : Z)
  : efi_status_t * efi_state :=
  let (st, l) := efi_unregister_allocation (efi_memory_mappings s)
                   PhysicalAddress NumberOfPages in
  (st, with_mappings s l).

(** [sizeof(EFI_MEMORY_DESCRIPTOR)]. *)
Definition sizeof_descriptor : Z := 48.

(** [efi_get_mem_map_size]: the entry counter is a [u32]. *)
Definition efi_get_mem_map_size (s : efi_state) : Z :=
  wrap64 (wrap32 (Z.of_nat (length (efi_memory_mappings s))) * sizeof_descriptor).

(** The [n] little-endian bytes of [v]. *)
Fixpoint le_bytes (n : nat) (v : Z) : list Z :=
  match n with
  | O => []
  | S k => v mod 256 :: le_bytes k (v / 256)
  end.

(** The object representation copied by [memcpy]. *)
Definition descriptor_bytes (d : EFI_MEMORY_DESCRIPTOR) : list Z :=
  le_bytes 4 (type d) ++ le_bytes 4 (pad d) ++ le_bytes 8 (phys_addr d)
  ++ le_bytes 8 (virt_addr d) ++ le_bytes 8 (num_pages d)
  ++ le_bytes 8 (attribute d) ++ le_bytes 8 (pad2 d).

(** [memcpy] of [bytes] to offset [off] of a buffer given by its bytes. *)
Definition memcpy (buffer : list Z) (off : Z) (bytes : list Z) : list Z :=
  firstn (Z.to_nat off) buffer ++ bytes
  ++ skipn (Z.to_nat off + length bytes) buffer.

(** The copy loop: returns [current_offset] and the buffer. *)
Fixpoint copy_descriptors (l : list EFI_MEMORY_DESCRIPTOR)
                          (current_offset : Z) (buffer : list Z)
  : Z * list Z :=
  match l with
  | [] => (current_offset, buffer)
  | d :: rest =>
      copy_descriptors rest (current_offset + sizeof_descriptor)
                       (memcpy buffer current_offset (descriptor_bytes d))
  end.

(** Everything [efi_hook_GetMemoryMap] leaves behind: its status and the
    objects its pointer arguments designate. *)
Record memory_map_result := {
  status            : efi_status_t;
  MemoryMapSize     : Z;
  MemoryMap         : list Z;
  MapKey            : Z;
  DescriptorSize    : Z;
  DescriptorVersion : Z
}.

Definition efi_hook_GetMemoryMap (s : efi_state)
    (MemoryMapSize_in : Z) (MemoryMap_in : list Z) (MapKey_in : Z)
  : memory_map_result :=
  let current_mapping_size := efi_get_mem_map_size s in
  if MemoryMapSize_in <? current_mapping_size then
    {| status := EFI_BUFFER_TOO_SMALL;
       MemoryMapSize := current_mapping_size;
       MemoryMap := MemoryMap_in;
       MapKey := MapKey_in;
       DescriptorSize := sizeof_descriptor;
       DescriptorVersion := 1 |}
  else
    let (current_offset, buffer) :=
      copy_descriptors (efi_memory_mappings s) 0 MemoryMap_in in
    {| status := EFI_SUCCESS;
       MemoryMapSize := wrap64 current_offset;
       MemoryMap := buffer;
       MapKey := efi_mem_map_epoch s;
       DescriptorSize := sizeof_descriptor;
       DescriptorVersion := 1 |}.

(** [NUM_PAGES(size)], in [unsigned long]. *)
Definition NUM_PAGES (size : Z) : Z :=
  wrap64 (wrap64 (size - 1) / PAGE_SIZE + 1).

(** Returns the status, the value left in [*buffer] and the state, for a
    call that returns.  Between the allocation and its registration the
    source calls [efi_setup_11_mapping], which writes nothing that is
    modelled here and either returns or stops the kernel; [Mapping] has
    the hook with that step. *)
Definition efi_hook_AllocatePool (s : efi_state) (pool_type size : Z)
    (buffer_in : Z) (h : host) : efi_status_t * Z * efi_state :=
  match kmalloc_phys h with
  | None => (EFI_OUT_OF_RESOURCES, buffer_in, s)
  | Some allocation =>
      (EFI_SUCCESS, wrap64 allocation,
       with_mappings s
         (efi_register_mem_allocation pool_type (NUM_PAGES size) allocation
            (node_ok h) (efi_memory_mappings s)))
  end.

(** Returns the status, the value left in [*Memory] and the state, for a
    call that returns (see [efi_hook_AllocatePool]). *)
Definition efi_hook_AllocatePages (s : efi_state)
    (Type_ MemoryType NumberOfPages Memory : Z) (h : host)
  : efi_status_t * Z * efi_state :=
  if negb (MemoryType =? EfiLoaderData)
     && negb (MemoryType =? EfiConventionalMemory)
     && negb (MemoryType =? EfiLoaderCode)
  then (EFI_UNSUPPORTED, Memory, s)
  else if Type_ =? AllocateAddress then
    (EFI_SUCCESS, Memory,
     with_mappings s
       (efi_register_mem_allocation MemoryType NumberOfPages (remap_phys h)
          (node_ok h) (efi_memory_mappings s)))
  else if Type_ =? AllocateAnyPages then
    let '(st, phys_allocation, s') :=
      efi_hook_AllocatePool s MemoryType (wrap64 (NumberOfPages * PAGE_SIZE))
                            0 h in
    (st, phys_allocation, s')
  else (EFI_UNSUPPORTED, Memory, s).

Definition efi_hook_FreePool (s : efi_state) (buff : Z)
  : efi_status_t * efi_state := (EFI_SUCCESS, s).

(** Modelled from the spec: [memremap] and [virt_to_phys] are kernel
    helpers outside this file.  The fixed-address mode re-maps
    already-backing memory at the requested physical address, so the
    physical address of the mapping is the requested one. *)
Definition remap_at (Memory : Z) : host :=
  {| kmalloc_phys := None; remap_phys := Memory; node_ok := true |}.

(** One boot-service call of the guest, with the host's answers. *)
Inductive efi_call :=
| CallAllocatePages (Type_ MemoryType NumberOfPages Memory : Z) (h : host)
| CallAllocatePool (pool_type size : Z) (h : host)
| CallFreePages (PhysicalAddress NumberOfPages : Z)
| CallFreePool (buff : Z)
| CallGetMemoryMap (MemoryMapSize_in : Z) (MemoryMap_in : list Z) (MapKey_in : Z).

Definition step (s : efi_state) (c : efi_call) : efi_state :=
  match c with
  | CallAllocatePages t mt n a h => snd (efi_hook_AllocatePages s t mt n a h)
  | CallAllocatePool pt sz h => snd (efi_hook_AllocatePool s pt sz 0 h)
  | CallFreePages a n => snd (efi_hook_FreePages s a n)
  | CallFreePool b => snd (efi_hook_FreePool s b)
  | CallGetMemoryMap _ _ _ => s
  end.

Definition run (s : efi_state) (calls : list efi_call) : efi_state :=
  fold_left step calls s.

(** *** Ranges of descriptors *)

(** The physical range [[phys_addr, phys_addr + num_pages * PAGE_SIZE)]. *)
Definition in_range (d : EFI_MEMORY_DESCRIPTOR) (a : Z) : Prop :=
  phys_addr d <= a < phys_addr d + num_pages d * PAGE_SIZE.

Definition active (d : EFI_MEMORY_DESCRIPTOR) : Prop :=
  type d <> EfiConventionalMemory.

Definition disjoint (d1 d2 : EFI_MEMORY_DESCRIPTOR) : Prop :=
  forall a, ~ (in_range d1 a /\ in_range d2 a).

(** Active descriptors at distinct list positions have disjoint ranges. *)
Definition active_disjoint (l : list EFI_MEMORY_DESCRIPTOR) : Prop :=
  ForallOrdPairs (fun d1 d2 => active d1 -> active d2 -> disjoint d1 d2) l.

(** A descriptor is either kept or re-tagged as free. *)
Definition retagged (d' d : EFI_MEMORY_DESCRIPTOR) : Prop :=
  d' = d \/ d' = set_type d EfiConventionalMemory.

(** The descriptor a call registers, if it registers one. *)
Definition registered (s : efi_state) (c : efi_call)
  : option EFI_MEMORY_DESCRIPTOR :=
  let l := efi_memory_mappings s in
  let l' := efi_memory_mappings (step s c) in
  if (length l <? length l')%nat then nth_error l' (length l) else None.

(** Every allocation in [calls] registers a range that meets no range
    active at that moment. *)
Fixpoint allocations_fresh (s : efi_state) (calls : list efi_call) : Prop :=
  match calls with
  | [] => True
  | c :: rest =>
      (forall d, registered s c = Some d -> active d ->
                 Forall (fun d0 => active d0 -> disjoint d0 d)
                        (efi_memory_mappings s))
      /\ allocations_fresh (step s c) rest
  end.

(** The descriptor's range lies inside the 64-bit address space. *)
Definition fits (d : EFI_MEMORY_DESCRIPTOR) : Prop :=
  0 <= phys_addr d /\ 0 <= num_pages d /\
  phys_addr d + num_pages d * PAGE_SIZE < 2 ^ 64.

End Ledger.

(* ================================================================= *)
(** ** The GUID registry and protocol dispatch *)

Module Guid.
Import Mem.

Record EFI_GUID := {
  Data1 : Z;        (* uint32_t *)
  Data2 : Z;        (* uint16_t *)
  Data3 : Z;        (* uint16_t *)
  Data4 : list Z    (* uint8_t [8] *)
}.

Record EFI_GUID_NAME := {
  Guid : EFI_GUID;
  Name : string
}.

Definition G (d1 d2 d3 : Z) (d4 : list Z) (name : string) : EFI_GUID_NAME :=
  {| Guid := {| Data1 := d1; Data2 := d2; Data3 := d3; Data4 := d4 |};
     Name := name |}.

Definition NUM_GUID_MAPPINGS : nat := 441.

Definition GuidMappings : list EFI_GUID_NAME := [
  G 0x1BA0062E 0xC779 0x4582 [0x85; 0x66; 0x33; 0x6A; 0xE8; 0xF7; 0x8F; 0x09] "ResetVector";
  G 0xdf1ccef6 0xf301 0x4a63 [0x96; 0x61; 0xfc; 0x60; 0x30; 0xdc; 0xc8; 0x80] "SecMain";
  G 0x52C05B14 0x0B98 0x496c [0xBC; 0x3B; 0x04; 0xB5; 0x02; 0x11; 0xD6; 0x80] "PeiCore";
  G 0x9B3ADA4F 0xAE56 0x4c24 [0x8D; 0xEA; 0xF0; 0x3B; 0x75; 0x58; 0xAE; 0x50] "PcdPeim";
  G 0xA3610442 0xE69F 0x4DF3 [0x82; 0xCA; 0x23; 0x60; 0xC4; 0x03; 0x1A; 0x23] "ReportStatusCodeRouterPei";
  G 0x9D225237 0xFA01 0x464C [0xA9; 0x49; 0xBA; 0xAB; 0xC0; 0x2D; 0x31; 0xD0] "StatusCodeHandlerPei";
  G 0x86D70125 0xBAA3 0x4296 [0xA6; 0x2F; 0x60; 0x2B; 0xEB; 0xBB; 0x90; 0x81] "DxeIpl";
  G 0x222c386d 0x5abc 0x4fb4 [0xb1; 0x24; 0xfb; 0xb8; 0x24; 0x88; 0xac; 0xf4] "PlatformPei";
  G 0x89E549B0 0x7CFE 0x449d [0x9B; 0xA3; 0x10; 0xD8; 0xB2; 0x31; 0x2D; 0x71] "S3Resume2Pei";
  G 0xEDADEB9D 0xDDBA 0x48BD [0x9D; 0x22; 0xC1; 0xC1; 0x69; 0xC8; 0xC5; 0xC6] "CpuMpPei";
  G 0xB1517C78 0xF518 0x42E5 [0xB2; 0x70; 0xF4; 0xB1; 0xF4; 0x02; 0xE5; 0x3C] "PvUefiPei";
  G 0x7d9fe32e 0xa6a9 0x4cdf [0xab; 0xff; 0x10; 0xcc; 0x7f; 0x22; 0xe1; 0xc9] "TpmCommLib";
  G 0xEBC43A46 0x34AC 0x4F07 [0xA7; 0xF5; 0xA5; 0x39; 0x46; 0x19; 0x36; 0x1C] "DxeTcgPhysicalPresenceLib";
  G 0xC595047C 0x70B3 0x4731 [0x99; 0xCC; 0xA0; 0x14; 0xE9; 0x56; 0xD7; 0xA7] "Tpm12CommandLib";
  G 0xBC2B7672 0xA48B 0x4d58 [0xB3; 0x9E; 0xAE; 0xE3; 0x70; 0x7B; 0x5A; 0x23] "Tpm12DeviceLibDTpm";
  G 0x4D8B77D9 0xE923 0x48f8 [0xB0; 0x70; 0x40; 0x53; 0xD7; 0x8B; 0x7E; 0x56] "Tpm12DeviceLibTcg";
  G 0x778CE4F4 0x36BD 0x4ae7 [0xB8; 0xF0; 0x10; 0xB4; 0x20; 0xB0; 0xD1; 0x74] "DxeTpm2MeasureBootLib";
  G 0x601ECB06 0x7874 0x489e [0xA2; 0x80; 0x80; 0x57; 0x80; 0xF6; 0xC8; 0x61] "DxeTrEEPhysicalPresenceLib";
  G 0x158DC712 0xF15A 0x44dc [0x93; 0xBB; 0x16; 0x75; 0x04; 0x5B; 0xE0; 0x66] "HashLibBaseCryptoRouterDxe";
  G 0xDDCBCFBA 0x8EEB 0x488a [0x96; 0xD6; 0x09; 0x78; 0x31; 0xA6; 0xE5; 0x0B] "HashLibBaseCryptoRouterPei";
  G 0x2F572F32 0x8BE5 0x4868 [0xBD; 0x1D; 0x74; 0x38; 0xAD; 0x97; 0xDC; 0x27] "Tpm2CommandLib";
  G 0xBBCB6F85 0x303C 0x4eb9 [0x81; 0x82; 0xAF; 0x98; 0xD4; 0xB3; 0x02; 0x0C] "Tpm2DeviceLibTrEE";
  G 0xE54A3327 0xA345 0x4068 [0x88; 0x42; 0x70; 0xAC; 0x0D; 0x51; 0x98; 0x55] "Tpm2DeviceLibDTpm";
  G 0x286BF25A 0xC2C3 0x408c [0xB3; 0xB4; 0x25; 0xE6; 0x75; 0x8B; 0x73; 0x17] "Tpm2InstanceLibDTpm";
  G 0xC3D69D87 0x5200 0x4aab [0xA6; 0xDB; 0x25; 0x69; 0xBA; 0x1A; 0x92; 0xFC] "Tpm2DeviceLibRouterDxe";
  G 0x97CDCF04 0x4C8E 0x42fe [0x80; 0x15; 0x11; 0xCC; 0x8A; 0x6E; 0x9D; 0x81] "Tpm2DeviceLibRouterPei";
  G 0x1317F0D5 0x7842 0x475c [0xB1; 0xCA; 0x6E; 0xDC; 0x20; 0xDC; 0xBE; 0x7D] "HashLibTpm2";
  G 0x0AD6C423 0x4732 0x4cf3 [0x9C; 0xE3; 0x0A; 0x54; 0x16; 0xD6; 0x34; 0xA5] "DxeRsa2048Sha256GuidedSectionExtractLib";
  G 0xFD5F2C91 0x4878 0x4007 [0xBB; 0xA1; 0x1B; 0x91; 0xDD; 0x32; 0x54; 0x38] "PeiRsa2048Sha256GuidedSectionExtractLib";
  G 0x9A7A6AB4 0x9DA6 0x4aa4 [0x90; 0xCB; 0x6D; 0x4B; 0x79; 0xED; 0xA7; 0xB9] "HashInstanceLibSha1";
  G 0x5810798A 0xED30 0x4080 [0x8D; 0xD7; 0xB9; 0x66; 0x7A; 0x74; 0x8C; 0x02] "HashInstanceLibSha256";
  G 0xA5C1EF72 0x9379 0x4370 [0xB4; 0xC7; 0x0F; 0x51; 0x26; 0xCA; 0xC3; 0x8E] "TrEEConfigPei";
  G 0xCA5A1928 0x6523 0x409d [0xA9; 0xFE; 0x5D; 0xCC; 0x87; 0x38; 0x72; 0x22] "TrEEPei";
  G 0x2A7946E3 0x1AB2 0x49a9 [0xAC; 0xCB; 0xC6; 0x27; 0x51; 0x39; 0xC1; 0xA5] "TrEEDxe";
  G 0x3141FD4D 0xEA02 0x4a70 [0x9B; 0xCE; 0x97; 0xEE; 0x83; 0x73; 0x19; 0xAC] "TrEEConfigDxe";
  G 0x162E53E0 0x6597 0x40D9 [0x96; 0xD1; 0x8D; 0x13; 0xF0; 0xF6; 0x56; 0xE4] "TrEEAcpi";
  G 0xD6A2CB7F 0x6A18 0x4e2f [0xB4; 0x3B; 0x99; 0x20; 0xA7; 0x33; 0x70; 0x0A] "DxeCore";
  G 0xD93CE3D8 0xA7EB 0x4730 [0x8C; 0x8E; 0xCC; 0x46; 0x6A; 0x9E; 0xCC; 0x3C] "ReportStatusCodeRouterRuntimeDxe";
  G 0x6C2004EF 0x4E0E 0x4BE4 [0xB1; 0x4C; 0x34; 0x0E; 0xB4; 0xAA; 0x58; 0x91] "StatusCodeHandlerRuntimeDxe";
  G 0x80CF7257 0x87AB 0x47f9 [0xA3; 0xFE; 0xD5; 0x0B; 0x76; 0xD8; 0x95; 0x41] "PcdDxe";
  G 0xB601F8C4 0x43B7 0x4784 [0x95; 0xB1; 0xF4; 0x22; 0x6C; 0xB4; 0x0C; 0xEE] "RuntimeDxe";
  G 0xF80697E9 0x7FD6 0x4665 [0x86; 0x46; 0x88; 0xE3; 0x3E; 0xF7; 0x1D; 0xFC] "SecurityStubDxe";
  G 0x13AC6DD0 0x73D0 0x11D4 [0xB0; 0x6B; 0x00; 0xAA; 0x00; 0xBD; 0x6D; 0xE7] "EbcDxe";
  G 0x79CA4208 0xBBA1 0x4a9a [0x84; 0x56; 0xE1; 0xE6; 0x6A; 0x81; 0x48; 0x4E] "Legacy8259";
  G 0xA19B1FE7 0xC1BC 0x49F8 [0x87; 0x5F; 0x54; 0xA5; 0xD5; 0x42; 0x44; 0x3F] "CpuIo2Dxe";
  G 0x1A1E4886 0x9517 0x440e [0x9F; 0xDE; 0x3B; 0xE4; 0x4C; 0xEE; 0x21; 0x36] "CpuDxe";
  G 0xf2765dec 0x6b41 0x11d5 [0x8e; 0x71; 0x00; 0x90; 0x27; 0x07; 0xb3; 0x5e] "Timer";
  G 0xF6697AC4 0xA776 0x4EE1 [0xB6; 0x43; 0x1F; 0xEF; 0xF2; 0xB6; 0x15; 0xBB] "IncompatiblePciDeviceSupportDxe";
  G 0x11A6EDF6 0xA9BE 0x426D [0xA6; 0xCC; 0xB2; 0x2F; 0xE5; 0x1D; 0x92; 0x24] "PciHotPlugInitDxe";
  G 0x128FB770 0x5E79 0x4176 [0x9E; 0x51; 0x9B; 0xB2; 0x68; 0xA1; 0x7D; 0xD1] "PciHostBridgeDxe";
  G 0x93B80004 0x9FB3 0x11d4 [0x9A; 0x3A; 0x00; 0x90; 0x27; 0x3F; 0xC1; 0x4D] "PciBusDxe";
  G 0x4B28E4C7 0xFF36 0x4e10 [0x93; 0xCF; 0xA8; 0x21; 0x59; 0xE7; 0x77; 0xC5] "ResetSystemRuntimeDxe";
  G 0xC8339973 0xA563 0x4561 [0xB8; 0x58; 0xD8; 0x47; 0x6F; 0x9D; 0xEF; 0xC4] "Metronome";
  G 0x378D7B65 0x8DA9 0x4773 [0xB6; 0xE4; 0xA4; 0x78; 0x26; 0xA8; 0x33; 0xE1] "PcRtc";
  G 0xEBF8ED7C 0x0DD1 0x4787 [0x84; 0xF1; 0xF4; 0x8D; 0x53; 0x7D; 0xCA; 0xCF] "DriverHealthManagerDxe";
  G 0x6D33944A 0xEC75 0x4855 [0xA5; 0x4D; 0x80; 0x9C; 0x75; 0x24; 0x1F; 0x6C] "BdsDxe";
  G 0xF74D20EE 0x37E7 0x48FC [0x97; 0xF7; 0x9B; 0x10; 0x47; 0x74; 0x9C; 0x69] "LogoDxe";
  G 0x462CAA21 0x7614 0x4503 [0x83; 0x6E; 0x8A; 0xB6; 0xF4; 0x66; 0x23; 0x31] "UiApp";
  G 0x33cb97af 0x6c33 0x4c42 [0x98; 0x6b; 0x07; 0x58; 0x1f; 0xa3; 0x66; 0xd4] "BlockMmioToBlockIoDxe";
  G 0x83dd3b39 0x7caf 0x4fac [0xa5; 0x42; 0xe0; 0x50; 0xb7; 0x67; 0xe3; 0xa7] "VirtioPciDeviceDxe";
  G 0x0170F60C 0x1D40 0x4651 [0x95; 0x6D; 0xF0; 0xBD; 0x98; 0x79; 0xD5; 0x27] "Virtio10";
  G 0x11D92DFB 0x3CA9 0x4F93 [0xBA; 0x2E; 0x47; 0x80; 0xED; 0x3E; 0x03; 0xB5] "VirtioBlkDxe";
  G 0xFAB5D4F4 0x83C0 0x4AAF [0x84; 0x80; 0x44; 0x2D; 0x11; 0xDF; 0x6C; 0xEA] "VirtioScsiDxe";
  G 0x58E26F0D 0xCBAC 0x4BBA [0xB7; 0x0F; 0x18; 0x22; 0x14; 0x15; 0x66; 0x5A] "VirtioRngDxe";
  G 0xcf569f50 0xde44 0x4f54 [0xb4; 0xd7; 0xf4; 0xae; 0x25; 0xcd; 0xa5; 0x99] "XenIoPciDxe";
  G 0x565ec8ba 0xa484 0x11e3 [0x80; 0x2b; 0xb8; 0xac; 0x6f; 0x7d; 0x65; 0xe6] "XenBusDxe";
  G 0x8c2487ea 0x9af3 0x11e3 [0xb9; 0x66; 0xb8; 0xac; 0x6f; 0x7d; 0x65; 0xe6] "XenPvBlkDxe";
  G 0xF099D67F 0x71AE 0x4c36 [0xB2; 0xA3; 0xDC; 0xEB; 0x0E; 0xB2; 0xB7; 0xD8] "WatchdogTimer";
  G 0xAD608272 0xD07F 0x4964 [0x80; 0x1E; 0x7B; 0xD3; 0xB7; 0x88; 0x86; 0x52] "MonotonicCounterRuntimeDxe";
  G 0x42857F0A 0x13F2 0x4B21 [0x8A; 0x23; 0x53; 0xD3; 0xF7; 0x14; 0xB8; 0x40] "CapsuleRuntimeDxe";
  G 0x51ccf399 0x4fdf 0x4e55 [0xa4; 0x5b; 0xe1; 0x23; 0xf8; 0x4d; 0x45; 0x6a] "ConPlatformDxe";
  G 0x408edcec 0xcf6d 0x477c [0xa5; 0xa8; 0xb4; 0x84; 0x4e; 0x3d; 0xe2; 0x81] "ConSplitterDxe";
  G 0xCCCB0C28 0x4B24 0x11d5 [0x9A; 0x5A; 0x00; 0x90; 0x27; 0x3F; 0xC1; 0x4D] "GraphicsConsoleDxe";
  G 0x9E863906 0xA40F 0x4875 [0x97; 0x7F; 0x5B; 0x93; 0xFF; 0x23; 0x7F; 0xC6] "TerminalDxe";
  G 0x9B680FCE 0xAD6B 0x4F3A [0xB6; 0x0B; 0xF5; 0x98; 0x99; 0x00; 0x34; 0x43] "DevicePathDxe";
  G 0x79E4A61C 0xED73 0x4312 [0x94; 0xFE; 0xE3; 0xE7; 0x56; 0x33; 0x62; 0xA9] "PrintDxe";
  G 0x6B38F7B4 0xAD98 0x40e9 [0x90; 0x93; 0xAC; 0xA2; 0xB5; 0xA2; 0x53; 0xC4] "DiskIoDxe";
  G 0x1FA1F39E 0xFEFF 0x4aae [0xBD; 0x7B; 0x38; 0xA0; 0x70; 0xA3; 0xB6; 0x09] "PartitionDxe";
  G 0x28A03FF4 0x12B3 0x4305 [0xA4; 0x17; 0xBB; 0x1A; 0x4F; 0x94; 0x08; 0x1E] "RamDiskDxe";
  G 0xCD3BAFB6 0x50FB 0x4fe8 [0x8E; 0x4E; 0xAB; 0x74; 0xD2; 0xC1; 0xA6; 0x00] "EnglishDxe";
  G 0x961578FE 0xB6B7 0x44c3 [0xAF; 0x35; 0x6B; 0xC7; 0x05; 0xCD; 0x2B; 0x1F] "Fat";
  G 0x0167CCC4 0xD0F7 0x4f21 [0xA3; 0xEF; 0x9E; 0x64; 0xB7; 0xCD; 0xCE; 0x8B] "ScsiBus";
  G 0x0A66E322 0x3740 0x4cce [0xAD; 0x62; 0xBD; 0x17; 0x2C; 0xEC; 0xCA; 0x35] "ScsiDisk";
  G 0x021722D8 0x522B 0x4079 [0x85; 0x2A; 0xFE; 0x44; 0xC2; 0xC1; 0x3F; 0x49] "SataController";
  G 0x5E523CB4 0xD397 0x4986 [0x87; 0xBD; 0xA6; 0xDD; 0x8B; 0x22; 0xF4; 0x55] "AtaAtapiPassThruDxe";
  G 0x19DF145A 0xB1D4 0x453f [0x85; 0x07; 0x38; 0x81; 0x66; 0x76; 0xD7; 0xF6] "AtaBusDxe";
  G 0x5BE3BDF4 0x53CF 0x46a3 [0xA6; 0xA9; 0x73; 0xC3; 0x4A; 0x6E; 0x5E; 0xE3] "NvmExpressDxe";
  G 0x348C4D62 0xBFBD 0x4882 [0x9E; 0xCE; 0xC8; 0x0B; 0xB1; 0xC4; 0x78; 0x3B] "HiiDatabase";
  G 0xEBf342FE 0xB1D3 0x4EF8 [0x95; 0x7C; 0x80; 0x48; 0x60; 0x6F; 0xF6; 0x71] "SetupBrowser";
  G 0xE660EA85 0x058E 0x4b55 [0xA5; 0x4B; 0xF0; 0x2F; 0x83; 0xA2; 0x47; 0x07] "DisplayEngine";
  G 0x96B5C032 0xDF4C 0x4b6e [0x82; 0x32; 0x43; 0x8D; 0xCF; 0x44; 0x8D; 0x0E] "NullMemoryTestDxe";
  G 0xe3752948 0xb9a1 0x4770 [0x90; 0xc4; 0xdf; 0x41; 0xc3; 0x89; 0x86; 0xbe] "QemuVideoDxe";
  G 0xD6099B94 0xCD97 0x4CC5 [0x87; 0x14; 0x7F; 0x63; 0x12; 0x70; 0x1A; 0x8A] "VirtioGpuDxe";
  G 0x4CF92BEA 0x7BC3 0x4537 [0xAF; 0x26; 0x16; 0xC5; 0xD6; 0xAC; 0x71; 0xBB] "PvUefiRuntimeDxe";
  G 0x38A0EC22 0xFBE7 0x4911 [0x8B; 0xC1; 0x17; 0x6E; 0x0D; 0x6C; 0x1D; 0xBD] "IsaAcpi";
  G 0x240612B5 0xA063 0x11d4 [0x9A; 0x3A; 0x00; 0x90; 0x27; 0x3F; 0xC1; 0x4D] "IsaBusDxe";
  G 0x93B80003 0x9FB3 0x11d4 [0x9A; 0x3A; 0x00; 0x90; 0x27; 0x3F; 0xC1; 0x4D] "IsaSerialDxe";
  G 0x3DC82376 0x637B 0x40a6 [0xA8; 0xFC; 0xA5; 0x65; 0x41; 0x7F; 0x2C; 0x38] "Ps2KeyboardDxe";
  G 0x0abd8284 0x6da3 0x4616 [0x97; 0x1a; 0x83; 0xa5; 0x14; 0x80; 0x67; 0xba] "IsaFloppyDxe";
  G 0xF9D88642 0x0737 0x49bc [0x81; 0xB5; 0x68; 0x89; 0xCD; 0x57; 0xD9; 0xEA] "SmbiosDxe";
  G 0x4110465d 0x5ff3 0x4f4b [0xb5; 0x80; 0x24; 0xed; 0x0d; 0x06; 0x74; 0x7a] "SmbiosPlatformDxe";
  G 0x9622E42C 0x8E38 0x4a08 [0x9E; 0x8F; 0x54; 0xF7; 0x84; 0x65; 0x2F; 0x6B] "AcpiTableDxe";
  G 0x49970331 0xE3FA 0x4637 [0x9A; 0xBC; 0x3B; 0x78; 0x68; 0x67; 0x69; 0x70] "AcpiPlatform";
  G 0x7E374E25 0x8E01 0x4FEE [0x87; 0xF2; 0x39; 0x0C; 0x23; 0xC6; 0x06; 0xCD] "PlatformAcpiTables";
  G 0xBDCE85BB 0xFBAA 0x4f4e [0x92; 0x64; 0x50; 0x1A; 0x2C; 0x24; 0x95; 0x81] "S3SaveStateDxe";
  G 0xFA20568B 0x548B 0x4b2b [0x81; 0xEF; 0x1B; 0xA0; 0x8D; 0x4A; 0x3C; 0xEC] "BootScriptExecutorDxe";
  G 0xB8E62775 0xBB0A 0x43f0 [0xA8; 0x43; 0x5B; 0xE8; 0xB1; 0x4F; 0x8C; 0xCD] "BootGraphicsResourceTableDxe";
  G 0xA2f436EA 0xA127 0x4EF8 [0x95; 0x7C; 0x80; 0x48; 0x60; 0x6F; 0xF6; 0x70] "SnpDxe";
  G 0xA210F973 0x229D 0x4f4d [0xAA; 0x37; 0x98; 0x95; 0xE6; 0xC9; 0xEA; 0xBA] "DpcDxe";
  G 0x025BBFC7 0xE6A9 0x4b8b [0x82; 0xAD; 0x68; 0x15; 0xA1; 0xAE; 0xAF; 0x4A] "MnpDxe";
  G 0xE4F61863 0xFE2C 0x4b56 [0xA8; 0xF4; 0x08; 0x51; 0x9B; 0xC4; 0x39; 0xDF] "VlanConfigDxe";
  G 0x529D3F93 0xE8E9 0x4e73 [0xB1; 0xE1; 0xBD; 0xF6; 0xA9; 0xD5; 0x01; 0x13] "ArpDxe";
  G 0x94734718 0x0BBC 0x47fb [0x96; 0xA5; 0xEE; 0x7A; 0x5A; 0xE6; 0xA2; 0xAD] "Dhcp4Dxe";
  G 0x9FB1A1F3 0x3B71 0x4324 [0xB3; 0x9A; 0x74; 0x5C; 0xBB; 0x01; 0x5F; 0xFF] "Ip4Dxe";
  G 0xDC3641B8 0x2FA8 0x4ed3 [0xBC; 0x1F; 0xF9; 0x96; 0x2A; 0x03; 0x45; 0x4B] "Mtftp4Dxe";
  G 0x6d6963ab 0x906d 0x4a65 [0xa7; 0xca; 0xbd; 0x40; 0xe5; 0xd6; 0xaf; 0x2b] "Udp4Dxe";
  G 0x6d6963ab 0x906d 0x4a65 [0xa7; 0xca; 0xbd; 0x40; 0xe5; 0xd6; 0xaf; 0x4d] "Tcp4Dxe";
  G 0x3B1DEAB5 0xC75D 0x442e [0x92; 0x38; 0x8E; 0x2F; 0xFB; 0x62; 0xB0; 0xBB] "UefiPxe4BcDxe";
  G 0x4579B72D 0x7EC4 0x4dd4 [0x84; 0x86; 0x08; 0x3C; 0x86; 0xB1; 0x82; 0xA7] "IScsi4Dxe";
  G 0xA92CDB4B 0x82F1 0x4E0B [0xA5; 0x16; 0x8A; 0x65; 0x5D; 0x37; 0x15; 0x24] "VirtioNetDxe";
  G 0x2FB92EFA 0x2EE0 0x4bae [0x9E; 0xB6; 0x74; 0x64; 0x12; 0x5E; 0x1E; 0xF7] "UhciDxe";
  G 0xBDFE430E 0x8F2A 0x4db0 [0x99; 0x91; 0x6F; 0x85; 0x65; 0x94; 0x77; 0x7E] "EhciDxe";
  G 0xB7F50E91 0xA759 0x412c [0xAD; 0xE4; 0xDC; 0xD0; 0x3E; 0x7F; 0x7C; 0x28] "XhciDxe";
  G 0x240612B7 0xA063 0x11d4 [0x9A; 0x3A; 0x00; 0x90; 0x27; 0x3F; 0xC1; 0x4D] "UsbBusDxe";
  G 0x2D2E62CF 0x9ECF 0x43b7 [0x82; 0x19; 0x94; 0xE7; 0xFC; 0x71; 0x3D; 0xFE] "UsbKbDxe";
  G 0x9FB4B4A7 0x42C0 0x4bcd [0x85; 0x40; 0x9B; 0xCC; 0x67; 0x11; 0xF8; 0x3E] "UsbMassStorageDxe";
  G 0x0B04B2ED 0x861C 0x42cd [0xA2; 0x2F; 0xC3; 0xAA; 0xFA; 0xCC; 0xB8; 0x96] "BiosVideoDxe";
  G 0xF122A15C 0xC10B 0x4d54 [0x8F; 0x48; 0x60; 0xF4; 0xF0; 0x6D; 0xD1; 0xAD] "LegacyBiosDxe";
  G 0x1547B4F3 0x3E8A 0x4FEF [0x81; 0xC8; 0x32; 0x8E; 0xD6; 0x47; 0xAB; 0x1A] "Csm16";
  G 0x7C04A583 0x9E3E 0x4f1c [0xAD; 0x65; 0xE0; 0x52; 0x68; 0xD0; 0xB4; 0xD1] "Shell";
  G 0xD9DCC5DF 0x4007 0x435E [0x90; 0x98; 0x89; 0x70; 0x93; 0x55; 0x04; 0xB2] "PlatformDxe";
  G 0x733cbac2 0xb23f 0x4b92 [0xbc; 0x8e; 0xfb; 0x01; 0xce; 0x59; 0x07; 0xb7] "FvbServicesRuntimeDxe";
  G 0x22dc2b60 0xfe40 0x42ac [0xb0; 0x1f; 0x3a; 0xb1; 0xfa; 0xd9; 0xaa; 0xd8] "EmuVariableFvbRuntimeDxe";
  G 0xFE5CEA76 0x4F72 0x49e8 [0x98; 0x6F; 0x2C; 0xD8; 0x99; 0xDF; 0xFE; 0x5D] "FaultTolerantWriteDxe";
  G 0x40a7a3be 0x1e67 0x4b86 [0x92; 0xc4; 0x72; 0xe3; 0xd3; 0x2a; 0x20; 0x7a] "GSetup";
  G 0xD3B46F3B 0xD441 0x1244 [0x9A; 0x12; 0x00; 0x12; 0x27; 0x3F; 0xC1; 0x4D] "gEfiXenInfoGuid";
  G 0x3E745226 0x9818 0x45B6 [0xA2; 0xAC; 0xD7; 0xCD; 0x0E; 0x8B; 0xA2; 0xBC] "gEfiUsb2HcProtocolGuid";
  G 0xEA7CA24B 0xDED5 0x4DAD [0xA3; 0x89; 0xBF; 0x82; 0x7E; 0x8F; 0x9B; 0x38] "gEfiPeiFirmwareVolumeInfo2PpiGuid";
  G 0x0AE8CE5D 0xE448 0x4437 [0xA8; 0xD7; 0xEB; 0xF5; 0xF1; 0x94; 0xF7; 0x31] "gEfiDxeIplPpiGuid";
  G 0x0C0F3B43 0x44DE 0x4907 [0xB4; 0x78; 0x22; 0x5F; 0x6F; 0x62; 0x89; 0xDC] "gUsbKeyboardLayoutPackageGuid";
  G 0x1B45CC0A 0x156A 0x428A [0xAF; 0x62; 0x49; 0x86; 0x4D; 0xA0; 0xE6; 0xE6] "gPeiAprioriFileNameGuid";
  G 0x783658A3 0x4172 0x4421 [0xA2; 0x99; 0xE0; 0x09; 0x07; 0x9C; 0x0C; 0xB4] "gEfiLegacyBiosPlatformProtocolGuid";
  G 0xDBE23AA9 0xA345 0x4B97 [0x85; 0xB6; 0xB2; 0x26; 0xF1; 0x61; 0x73; 0x89] "gEfiTemporaryRamSupportPpiGuid";
  G 0x0379BE4E 0xD706 0x437D [0xB0; 0x37; 0xED; 0xB8; 0x2F; 0xB7; 0x72; 0xA4] "gEfiDevicePathUtilitiesProtocolGuid";
  G 0x93039971 0x8545 0x4B04 [0xB4; 0x5E; 0x32; 0xEB; 0x83; 0x26; 0x04; 0x0E] "gEfiHiiPlatformSetupFormsetGuid";
  G 0x964E5B21 0x6459 0x11D2 [0x8E; 0x39; 0x00; 0xA0; 0xC9; 0x69; 0x72; 0x3B] "gEfiBlockIoProtocolGuid";
  G 0xEF398D58 0x9DFD 0x4103 [0xBF; 0x94; 0x78; 0xC6; 0xF4; 0xFE; 0x71; 0x2F] "gEfiPeiResetPpiGuid";
  G 0x309DE7F1 0x7F5E 0x4ACE [0xB4; 0x9C; 0x53; 0x1B; 0xE5; 0xAA; 0x95; 0xEF] "gEfiGenericMemTestProtocolGuid";
  G 0x09576E93 0x6D3F 0x11D2 [0x8E; 0x39; 0x00; 0xA0; 0xC9; 0x69; 0x72; 0x3B] "gEfiFileSystemInfoGuid";
  G 0xAD61F191 0xAE5F 0x4C0E [0xB9; 0xFA; 0xE8; 0x69; 0xD2; 0x88; 0xC6; 0x4F] "gEfiCpuIo2ProtocolGuid";
  G 0xF36FF770 0xA7E1 0x42CF [0x9E; 0xD2; 0x56; 0xF0; 0xF2; 0x71; 0xF4; 0x4C] "gEfiManagedNetworkServiceBindingProtocolGuid";
  G 0xF894643D 0xC449 0x42D1 [0x8E; 0xA8; 0x85; 0xBD; 0xD8; 0xC6; 0x5B; 0xDE] "gEfiPeiMemoryDiscoveredPpiGuid";
  G 0x8A219718 0x4EF5 0x4761 [0x91; 0xC8; 0xC0; 0xF0; 0x4B; 0xDA; 0x9E; 0x56] "gEfiDhcp4ProtocolGuid";
  G 0x5B1B31A1 0x9562 0x11D2 [0x8E; 0x3F; 0x00; 0xA0; 0xC9; 0x69; 0x72; 0x3B] "gEfiLoadedImageProtocolGuid";
  G 0x03C4E603 0xAC28 0x11D3 [0x9A; 0x2D; 0x00; 0x90; 0x27; 0x3F; 0xC1; 0x4D] "gEfiPxeBaseCodeProtocolGuid";
  G 0xF2FD1544 0x9794 0x4A2C [0x99; 0x2E; 0xE5; 0xBB; 0xCF; 0x20; 0xE3; 0x94] "gEfiSmbios3TableGuid";
  G 0xDB9A1E3D 0x45CB 0x4ABB [0x85; 0x3B; 0xE5; 0x38; 0x7F; 0xDB; 0x2E; 0x2D] "gEfiLegacyBiosProtocolGuid";
  G 0x5B446ED1 0xE30B 0x4FAA [0x87; 0x1A; 0x36; 0x54; 0xEC; 0xA3; 0x60; 0x80] "gEfiIp4Config2ProtocolGuid";
  G 0x8F644FA9 0xE850 0x4DB1 [0x9C; 0xE2; 0x0B; 0x44; 0x69; 0x8E; 0x8D; 0xA4] "gEfiFirmwareVolumeBlock2ProtocolGuid";
  G 0xB7DFB4E1 0x052F 0x449F [0x87; 0xBE; 0x98; 0x18; 0xFC; 0x91; 0xB7; 0x33] "gEfiRuntimeArchProtocolGuid";
  G 0xA59E8FCF 0xBDA0 0x43BB [0x90; 0xB1; 0xD3; 0x73; 0x2E; 0xCA; 0xA8; 0x77] "gEfiScsiPassThruProtocolGuid";
  G 0xC54B425F 0xAA79 0x48B4 [0x98; 0x1F; 0x99; 0x8B; 0x3C; 0x4B; 0x64; 0x1C] "gTrEEConfigFormSetGuid";
  G 0xFA920010 0x6785 0x4941 [0xB6; 0xEC; 0x49; 0x8C; 0x57; 0x9F; 0x16; 0x0A] "gVirtioDeviceProtocolGuid";
  G 0x9BBE29E9 0xFDA1 0x41EC [0xAD; 0x52; 0x45; 0x22; 0x13; 0x74; 0x2D; 0x2E] "gEdkiiFormDisplayEngineProtocolGuid";
  G 0x7235C51C 0x0C80 0x4CAB [0x87; 0xAC; 0x3B; 0x08; 0x4A; 0x63; 0x04; 0xB1] "gOvmfPlatformConfigGuid";
  G 0x2B2F68D6 0x0CD2 0x44CF [0x8E; 0x8B; 0xBB; 0xA2; 0x0B; 0x1B; 0x5B; 0x75] "gEfiUsbIoProtocolGuid";
  G 0x8868E871 0xE4F1 0x11D3 [0xBC; 0x22; 0x00; 0x80; 0xC7; 0x3C; 0x88; 0x81] "gEfiAcpiTableGuid";
  G 0x158DEF5A 0xF656 0x419C [0xB0; 0x27; 0x7A; 0x31; 0x92; 0xC0; 0x79; 0xD2] "gShellVariableGuid";
  G 0xEB9D2D30 0x2D88 0x11D3 [0x9A; 0x16; 0x00; 0x90; 0x27; 0x3F; 0xC1; 0x4D] "gEfiAcpi10TableGuid";
  G 0x49EDB1C1 0xBF21 0x4761 [0xBB; 0x12; 0xEB; 0x00; 0x31; 0xAA; 0xBB; 0x39] "gEfiPeiFirmwareVolumeInfoPpiGuid";
  G 0x6CC45765 0xCCE4 0x42FD [0xBC; 0x56; 0x01; 0x1A; 0xAA; 0xC6; 0xC9; 0xA8] "gEfiPeiReset2PpiGuid";
  G 0x0053D9D6 0x2659 0x4599 [0xA2; 0x6B; 0xEF; 0x45; 0x36; 0xE6; 0x31; 0xA9] "gShellAliasGuid";
  G 0x7081E22F 0xCAC6 0x4053 [0x94; 0x68; 0x67; 0x57; 0x82; 0xCF; 0x88; 0xE5] "gEfiEventDxeDispatchGuid";
  G 0x24A2D66F 0xEEDD 0x4086 [0x90; 0x42; 0xF2; 0x6E; 0x47; 0x97; 0xEE; 0x69] "gRootBridgesConnectedEventGroupGuid";
  G 0x3BD2F4EC 0xE524 0x46E4 [0xA9; 0xD8; 0x51; 0x01; 0x17; 0x42; 0x55; 0x62] "gEfiHiiStandardFormGuid";
  G 0x02CE967A 0xDD7E 0x4FFC [0x9E; 0xE7; 0x81; 0x0C; 0xF0; 0x47; 0x08; 0x80] "gEfiEndOfDxeEventGroupGuid";
  G 0xCF8034BE 0x6768 0x4D8B [0xB7; 0x39; 0x7C; 0xCE; 0x68; 0x3A; 0x9F; 0xBE] "gEfiPciHostBridgeResourceAllocationProtocolGuid";
  G 0x107A772C 0xD5E1 0x11D4 [0x9A; 0x46; 0x00; 0x90; 0x27; 0x3F; 0xC1; 0x4D] "gEfiComponentNameProtocolGuid";
  G 0xA77B2472 0xE282 0x4E9F [0xA2; 0x45; 0xC2; 0xC0; 0xE2; 0x7B; 0xBC; 0xC1] "gEfiBlockIo2ProtocolGuid";
  G 0x5C198761 0x16A8 0x4E69 [0x97; 0x2C; 0x89; 0xD6; 0x79; 0x54; 0xF8; 0x1D] "gEfiDriverSupportedEfiVersionProtocolGuid";
  G 0x2FE800BE 0x8F01 0x4AA6 [0x94; 0x6B; 0xD7; 0x13; 0x88; 0xE1; 0x83; 0x3F] "gEfiMtftp4ServiceBindingProtocolGuid";
  G 0x8B01E5B6 0x4F19 0x46E8 [0xAB; 0x93; 0x1C; 0x53; 0x67; 0x1B; 0x90; 0xCC] "gEfiTpmDeviceInstanceTpm12Guid";
  G 0xCEAB683C 0xEC56 0x4A2D [0xA9; 0x06; 0x40; 0x53; 0xFA; 0x4E; 0x9C; 0x16] "gEfiTemporaryRamDonePpiGuid";
  G 0x286BF25A 0xC2C3 0x408C [0xB3; 0xB4; 0x25; 0xE6; 0x75; 0x8B; 0x73; 0x17] "gEfiTpmDeviceInstanceTpm20DtpmGuid";
  G 0xD432A67F 0x14DC 0x484B [0xB3; 0xBB; 0x3F; 0x02; 0x91; 0x84; 0x93; 0x27] "gEfiDiskInfoProtocolGuid";
  G 0x1A1241E6 0x8F19 0x41A9 [0xBC; 0x0E; 0xE8; 0xEF; 0x39; 0xE0; 0x65; 0x46] "gEfiHiiImageExProtocolGuid";
  G 0x6DCBD5ED 0xE82D 0x4C44 [0xBD; 0xA1; 0x71; 0x94; 0x19; 0x9A; 0xD9; 0x2A] "gEfiFmpCapsuleGuid";
  G 0x1E5668E2 0x8481 0x11D4 [0xBC; 0xF1; 0x00; 0x80; 0xC7; 0x3C; 0x88; 0x81] "gEfiVariableArchProtocolGuid";
  G 0x0EF98D3A 0x3E33 0x497A [0xA4; 0x01; 0x77; 0xBE; 0x3E; 0xB7; 0x4F; 0x38] "gEfiAcpiS3ContextGuid";
  G 0x6441F818 0x6362 0x4E44 [0xB5; 0x70; 0x7D; 0xBA; 0x31; 0xDD; 0x24; 0x53] "gEfiVariableWriteArchProtocolGuid";
  G 0xB9D4C360 0xBCFB 0x4F9B [0x92; 0x98; 0x53; 0xC1; 0x36; 0x98; 0x22; 0x58] "gEfiFormBrowser2ProtocolGuid";
  G 0x7AB33A91 0xACE5 0x4326 [0xB5; 0x72; 0xE7; 0xEE; 0x33; 0xD3; 0x9F; 0x16] "gEfiManagedNetworkProtocolGuid";
  G 0x2CA88B53 0xD296 0x4080 [0xA4; 0xA5; 0xCA; 0xD9; 0xBA; 0xE2; 0x4B; 0x09] "gLoadFixedAddressConfigurationTableGuid";
  G 0x78BEE926 0x692F 0x48FD [0x9E; 0xDB; 0x01; 0x42; 0x2E; 0xF0; 0xD7; 0xAB] "gEfiEventMemoryMapChangeGuid";
  G 0x0FD96974 0x23AA 0x4CDC [0xB9; 0xCB; 0x98; 0xD1; 0x77; 0x50; 0x32; 0x2A] "gEfiHiiStringProtocolGuid";
  G 0x7EE2BD44 0x3DA0 0x11D4 [0x9A; 0x38; 0x00; 0x90; 0x27; 0x3F; 0xC1; 0x4D] "gEfiIsaIoProtocolGuid";
  G 0x605EA650 0xC65C 0x42E1 [0xBA; 0x80; 0x91; 0xA5; 0x2A; 0xB6; 0x18; 0xC6] "gEfiEndOfPeiSignalPpiGuid";
  G 0x5CB5C776 0x60D5 0x45EE [0x88; 0x3C; 0x45; 0x27; 0x08; 0xCD; 0x74; 0x3F] "gEfiLoadPeImageProtocolGuid";
  G 0xF541796D 0xA62E 0x4954 [0xA7; 0x75; 0x95; 0x84; 0xF6; 0x1B; 0x9C; 0xDD] "gEfiTcgProtocolGuid";
  G 0xC88B0B6D 0x0DFC 0x49A7 [0x9C; 0xB4; 0x49; 0x07; 0x4B; 0x4C; 0x3A; 0x78] "gEfiStorageSecurityCommandProtocolGuid";
  G 0x3C7D193C 0x682C 0x4C14 [0xA6; 0x8F; 0x55; 0x2D; 0xEA; 0x4F; 0x43; 0x7E] "gPcdDataBaseSignatureGuid";
  G 0x59324945 0xEC44 0x4C0D [0xB1; 0xCD; 0x9D; 0xB1; 0x39; 0xDF; 0x07; 0x0C] "gEfiIScsiInitiatorNameProtocolGuid";
  G 0x78E4D245 0xCD4D 0x4A05 [0xA2; 0xBA; 0x47; 0x43; 0xE8; 0x6C; 0xFC; 0xAB] "gEfiSecurityPolicyProtocolGuid";
  G 0x00720665 0x67EB 0x4A99 [0xBA; 0xF7; 0xD3; 0xC3; 0x3A; 0x1C; 0x7C; 0xC9] "gEfiTcp4ServiceBindingProtocolGuid";
  G 0xA60C6B59 0xE459 0x425D [0x9C; 0x69; 0x0B; 0xCC; 0x9C; 0xB2; 0x7D; 0x81] "gEfiGetPcdInfoPpiGuid";
  G 0x1F73B18D 0x4630 0x43C1 [0xA1; 0xDE; 0x6F; 0x80; 0x85; 0x5D; 0x7D; 0xA4] "gEdkiiFormBrowserExProtocolGuid";
  G 0xAAEACCFD 0xF27B 0x4C17 [0xB6; 0x10; 0x75; 0xCA; 0x1F; 0x2D; 0xFB; 0x52] "gEfiEbcVmTestProtocolGuid";
  G 0xD719B2CB 0x3D3A 0x4596 [0xA3; 0xBC; 0xDA; 0xD0; 0x0E; 0x67; 0x65; 0x6F] "gEfiImageSecurityDatabaseGuid";
  G 0xBC62157E 0x3E33 0x4FEC [0x99; 0x20; 0x2D; 0x3B; 0x36; 0xD7; 0x50; 0xDF] "gEfiLoadedImageDevicePathProtocolGuid";
  G 0x151C8EAE 0x7F2C 0x472C [0x9E; 0x54; 0x98; 0x28; 0x19; 0x4F; 0x6A; 0x88] "gEfiDiskIo2ProtocolGuid";
  G 0x6EFAC84F 0x0AB0 0x4747 [0x81; 0xBE; 0x85; 0x55; 0x62; 0x59; 0x04; 0x49] "gXenIoProtocolGuid";
  G 0x0A8BADD5 0x03B8 0x4D19 [0xB1; 0x28; 0x7B; 0x8F; 0x0E; 0xDA; 0xA5; 0x96] "gEfiConfigKeywordHandlerProtocolGuid";
  G 0x65530BC7 0xA359 0x410F [0xB0; 0x10; 0x5A; 0xAD; 0xC7; 0xEC; 0x2B; 0x62] "gEfiTcp4ProtocolGuid";
  G 0x914AEBE7 0x4635 0x459B [0xAA; 0x1C; 0x11; 0xE2; 0x19; 0xB0; 0x3A; 0x10] "gEfiMdePkgTokenSpaceGuid";
  G 0x9042A9DE 0x23DC 0x4A38 [0x96; 0xFB; 0x7A; 0xDE; 0xD0; 0x80; 0x51; 0x6A] "gEfiGraphicsOutputProtocolGuid";
  G 0x05AD34BA 0x6F02 0x4214 [0x95; 0x2E; 0x4D; 0xA0; 0x39; 0x8E; 0x2B; 0xB9] "gEfiDxeServicesTableGuid";
  G 0x26BACCB3 0x6F42 0x11D4 [0xBC; 0xE7; 0x00; 0x80; 0xC7; 0x3C; 0x88; 0x81] "gEfiTimerArchProtocolGuid";
  G 0x6E056FF9 0xC695 0x4364 [0x9E; 0x2C; 0x61; 0x26; 0xF5; 0xCE; 0xEA; 0xAE] "gEfiPeiFirmwareVolumeInfoMeasurementExcludedPpiGuid";
  G 0x3152BCA5 0xEADE 0x433D [0x86; 0x2E; 0xC0; 0x1C; 0xDC; 0x29; 0x1F; 0x44] "gEfiRngProtocolGuid";
  G 0x03583FF6 0xCB36 0x4940 [0x94; 0x7E; 0xB9; 0xB3; 0x9F; 0x4A; 0xFA; 0xF7] "gEfiSmbiosProtocolGuid";
  G 0x88C9D306 0x0900 0x4EB5 [0x82; 0x60; 0x3E; 0x2D; 0xBE; 0xDA; 0x1F; 0x89] "gPeiPostScriptTablePpiGuid";
  G 0xEE16160A 0xE8BE 0x47A6 [0x82; 0x0A; 0xC6; 0x90; 0x0D; 0xB0; 0x25; 0x0A] "gEfiPeiMpServicesPpiGuid";
  G 0xE701458C 0x4900 0x4CA5 [0xB7; 0x72; 0x3D; 0x37; 0x94; 0x9F; 0x79; 0x27] "gStatusCodeCallbackGuid";
  G 0xBD445D79 0xB7AD 0x4F04 [0x9A; 0xD8; 0x29; 0xBD; 0x20; 0x40; 0xEB; 0x3C] "gEfiLockBoxProtocolGuid";
  G 0x13AC6DD1 0x73D0 0x11D4 [0xB0; 0x6B; 0x00; 0xAA; 0x00; 0xBD; 0x6D; 0xE7] "gEfiEbcProtocolGuid";
  G 0x143B7632 0xB81B 0x4CB7 [0xAB; 0xD3; 0xB6; 0x25; 0xA5; 0xB9; 0xBF; 0xFE] "gEfiExtScsiPassThruProtocolGuid";
  G 0x786EC0AC 0x65AE 0x4D1B [0xB1; 0x37; 0x0D; 0x11; 0x0A; 0x48; 0x37; 0x97] "gIScsiCHAPAuthInfoGuid";
  G 0x9B942747 0x154E 0x4D29 [0xA4; 0x36; 0xBF; 0x71; 0x00; 0xC8; 0xB5; 0x3B] "gIp4Config2NvDataGuid";
  G 0x15853D7C 0x3DDF 0x43E0 [0xA1; 0xCB; 0xEB; 0xF8; 0x5B; 0x8F; 0x87; 0x2C] "gEfiDeferredImageLoadProtocolGuid";
  G 0x79CB58C4 0xAC51 0x442F [0xAF; 0xD7; 0x98; 0xE4; 0x7D; 0x2E; 0x99; 0x08] "gEfiBootScriptExecutorContextGuid";
  G 0x31A6406A 0x6BDF 0x4E46 [0xB2; 0xA2; 0xEB; 0xAA; 0x89; 0xC4; 0x09; 0x20] "gEfiHiiImageProtocolGuid";
  G 0x8BE4DF61 0x93CA 0x11D2 [0xAA; 0x0D; 0x00; 0xE0; 0x98; 0x03; 0x2B; 0x8C] "gEfiGlobalVariableGuid";
  G 0x5BE40F57 0xFA68 0x4610 [0xBB; 0xBF; 0xE9; 0xC5; 0xFC; 0xDA; 0xD3; 0x65] "gGetPcdInfoProtocolGuid";
  G 0x9D9A39D8 0xBD42 0x4A73 [0xA4; 0xD5; 0x8E; 0xE9; 0x4B; 0xE1; 0x13; 0x80] "gEfiDhcp4ServiceBindingProtocolGuid";
  G 0xFB6D9542 0x612D 0x4F45 [0x87; 0x2F; 0x5C; 0xFF; 0x52; 0xE9; 0x3D; 0xCF] "gEfiPeiRecoveryModulePpiGuid";
  G 0x13FA7698 0xC831 0x49C7 [0x87; 0xEA; 0x8F; 0x43; 0xFC; 0xC2; 0x51; 0x96] "gEfiEventVirtualAddressChangeGuid";
  G 0xEA296D92 0x0B69 0x423C [0x8C; 0x28; 0x33; 0xB4; 0xE0; 0xA9; 0x12; 0x68] "gPcdDataBaseHobGuid";
  G 0xB9E0ABFE 0x5979 0x4914 [0x97; 0x7F; 0x6D; 0xEE; 0x78; 0xC2; 0x78; 0xA6] "gEfiPeiLoadFilePpiGuid";
  G 0x9E9F374B 0x8F16 0x4230 [0x98; 0x24; 0x58; 0x46; 0xEE; 0x76; 0x6A; 0x97] "gEfiSecPlatformInformation2PpiGuid";
  G 0x4C19049F 0x4137 0x4DD3 [0x9C; 0x10; 0x8B; 0x97; 0xA8; 0x3F; 0xFD; 0xFA] "gEfiMemoryTypeInformationGuid";
  G 0x83F01464 0x99BD 0x45E5 [0xB3; 0x83; 0xAF; 0x63; 0x05; 0xD8; 0xE9; 0xE6] "gEfiUdp4ServiceBindingProtocolGuid";
  G 0xB5B35764 0x460C 0x4A06 [0x99; 0xFC; 0x77; 0xA1; 0x7C; 0x1B; 0x5C; 0xEB] "gEfiPciOverrideProtocolGuid";
  G 0xA030D115 0x54DD 0x447B [0x90; 0x64; 0xF2; 0x06; 0x88; 0x3D; 0x7C; 0xCC] "gPeiTpmInitializationDonePpiGuid";
  G 0x60FF8964 0xE906 0x41D0 [0xAF; 0xED; 0xF2; 0x41; 0xE9; 0x74; 0xE0; 0x8E] "gEfiDxeSmmReadyToLockProtocolGuid";
  G 0x1DA97072 0xBDDC 0x4B30 [0x99; 0xF1; 0x72; 0xA0; 0xB5; 0x6F; 0xFF; 0x2A] "gEfiMonotonicCounterArchProtocolGuid";
  G 0xD79DF6B0 0xEF44 0x43BD [0x97; 0x97; 0x43; 0xE9; 0x3B; 0xCF; 0x5F; 0xA8] "gVlanConfigFormSetGuid";
  G 0xF4CCBFB7 0xF6E0 0x47FD [0x9D; 0xD4; 0x10; 0xA8; 0xF1; 0x50; 0xC1; 0x91] "gEfiSmmBase2ProtocolGuid";
  G 0x6F8C2B35 0xFEF4 0x448D [0x82; 0x56; 0xE1; 0x1B; 0x19; 0xD6; 0x10; 0x77] "gEfiSecPlatformInformationPpiGuid";
  G 0x9E66F251 0x727C 0x418C [0xBF; 0xD6; 0xC2; 0xB4; 0x25; 0x28; 0x18; 0xEA] "gEfiHiiImageDecoderProtocolGuid";
  G 0x3FDDA605 0xA76E 0x4F46 [0xAD; 0x29; 0x12; 0xF4; 0x53; 0x1B; 0x3D; 0x08] "gEfiMpServiceProtocolGuid";
  G 0x01F34D25 0x4DE2 0x23AD [0x3F; 0xF3; 0x36; 0x35; 0x3F; 0xF3; 0x23; 0xF1] "gEfiPeiPcdPpiGuid";
  G 0x711C703F 0xC285 0x4B10 [0xA3; 0xB0; 0x36; 0xEC; 0xBD; 0x3C; 0x8B; 0xE2] "gEfiCapsuleVendorGuid";
  G 0x171E9188 0x31D3 0x40F5 [0xB1; 0x0C; 0x53; 0x9B; 0x2D; 0xB9; 0x40; 0xCD] "gEfiShellPkgTokenSpaceGuid";
  G 0x1D85CD7F 0xF43D 0x11D2 [0x9A; 0x0C; 0x00; 0x90; 0x27; 0x3F; 0xC1; 0x4D] "gEfiUnicodeCollationProtocolGuid";
  G 0x3AD9DF29 0x4501 0x478D [0xB1; 0xF8; 0x7F; 0x7F; 0xE7; 0x0E; 0x50; 0xF3] "gEfiUdp4ProtocolGuid";
  G 0xB3F79D9A 0x436C 0xDC11 [0xB0; 0x52; 0xCD; 0x85; 0xDF; 0x52; 0x4C; 0xE6] "gEfiRegularExpressionProtocolGuid";
  G 0x2F707EBB 0x4A1A 0x11D4 [0x9A; 0x38; 0x00; 0x90; 0x27; 0x3F; 0xC1; 0x4D] "gEfiPciRootBridgeIoProtocolGuid";
  G 0x607F766C 0x7455 0x42BE [0x93; 0x0B; 0xE4; 0xD7; 0x6D; 0xB2; 0x72; 0x0F] "gEfiTrEEProtocolGuid";
  G 0xF6EE6DBB 0xD67F 0x4EA0 [0x8B; 0x96; 0x6A; 0x71; 0xB1; 0x9D; 0x84; 0xAD] "gEdkiiStatusCodeDataTypeVariableGuid";
  G 0x00000000 0x0000 0x0000 [0x00; 0x00; 0x00; 0x00; 0x00; 0x00; 0x00; 0x00] "gZeroGuid";
  G 0x268F33A9 0xCCCD 0x48BE [0x88; 0x17; 0x86; 0x05; 0x3A; 0xC3; 0x2E; 0xD6] "gPeiSmmAccessPpiGuid";
  G 0xD8117CFE 0x94A6 0x11D4 [0x9A; 0x3A; 0x00; 0x90; 0x27; 0x3F; 0xC1; 0x4D] "gEfiDecompressProtocolGuid";
  G 0x387477C1 0x69C7 0x11D2 [0x8E; 0x39; 0x00; 0xA0; 0xC9; 0x69; 0x72; 0x3B] "gEfiSimpleTextInProtocolGuid";
  G 0x7BAEC70B 0x57E0 0x4C76 [0x8E; 0x87; 0x2F; 0x9E; 0x28; 0x08; 0x83; 0x43] "gEfiVT100PlusGuid";
  G 0xE9CA4775 0x8657 0x47FC [0x97; 0xE7; 0x7E; 0xD6; 0x5A; 0x08; 0x43; 0x24] "gEfiHiiFontProtocolGuid";
  G 0x215FDD18 0xBD50 0x4FEB [0x89; 0x0B; 0x58; 0xCA; 0x0B; 0x47; 0x39; 0xE9] "gEfiSioProtocolGuid";
  G 0x0065D394 0x9951 0x4144 [0x82; 0xA3; 0x0A; 0xFC; 0x85; 0x79; 0xC2; 0x51] "gEfiPeiRscHandlerPpiGuid";
  G 0xDCD0BE23 0x9586 0x40F4 [0xB6; 0x43; 0x06; 0x52; 0x2C; 0xED; 0x4E; 0xDE] "gEfiPeiSecurity2PpiGuid";
  G 0x56EC3091 0x954C 0x11D2 [0x8E; 0x3F; 0x00; 0xA0; 0xC9; 0x69; 0x72; 0x3B] "gEfiLoadFileProtocolGuid";
  G 0xE20939BE 0x32D4 0x41BE [0xA1; 0x50; 0x89; 0x7F; 0x85; 0xD4; 0x98; 0x29] "gEfiMemoryOverwriteControlDataGuid";
  G 0xF24643C2 0xC622 0x494E [0x8A; 0x0D; 0x46; 0x32; 0x57; 0x9C; 0x2D; 0x5B] "gEfiTrEEPhysicalPresenceGuid";
  G 0x5E948FE3 0x26D3 0x42B5 [0xAF; 0x17; 0x61; 0x02; 0x87; 0x18; 0x8D; 0xEC] "gEfiDiskInfoIdeInterfaceGuid";
  G 0xF22FC20C 0x8CF4 0x45EB [0x8E; 0x06; 0xAD; 0x4E; 0x50; 0xB9; 0x5D; 0xD3] "gEfiHiiDriverHealthFormsetGuid";
  G 0x607F766C 0x7455 0x42BE [0x93; 0x0B; 0xE4; 0xD7; 0x6D; 0xB2; 0x72; 0x0F] "gEfiTcg2ProtocolGuid";
  G 0x8868E871 0xE4F1 0x11D3 [0xBC; 0x22; 0x00; 0x80; 0xC7; 0x3C; 0x88; 0x81] "gEfiAcpi20TableGuid";
  G 0x326AE723 0xAE32 0x4589 [0x98; 0xB8; 0xCA; 0xC2; 0x3C; 0xDC; 0xC1; 0xB1] "gPcAtChipsetPkgTokenSpaceGuid";
  G 0x6FD5B00C 0xD426 0x4283 [0x98; 0x87; 0x6C; 0xF5; 0xCF; 0x1C; 0xB1; 0xFE] "gEfiUserManagerProtocolGuid";
  G 0x2A72D11E 0x7376 0x40F6 [0x9C; 0x68; 0x23; 0xFA; 0x2F; 0xE3; 0x63; 0xF1] "gEfiEbcSimpleDebuggerProtocolGuid";
  G 0xA4C751FC 0x23AE 0x4C3E [0x92; 0xE9; 0x49; 0x64; 0xCF; 0x63; 0xF3; 0x49] "gEfiUnicodeCollation2ProtocolGuid";
  G 0x78247C57 0x63DB 0x4708 [0x99; 0xC2; 0xA8; 0xB4; 0xA9; 0xA6; 0x1F; 0x6B] "gEfiMtftp4ProtocolGuid";
  G 0x48ECB431 0xFB72 0x45C0 [0xA9; 0x22; 0xF4; 0x58; 0xFE; 0x04; 0x0B; 0xD5] "gEfiEdidOverrideProtocolGuid";
  G 0xEF598499 0xB25E 0x473A [0xBF; 0xAF; 0xE7; 0xE5; 0x7D; 0xCE; 0x82; 0xC4] "gTpmErrorHobGuid";
  G 0xE58809F8 0xFBC1 0x48E2 [0x88; 0x3A; 0xA3; 0x0F; 0xDC; 0x4B; 0x44; 0x1E] "gEfiIfrFrontPageGuid";
  G 0xA3979E64 0xACE8 0x4DDC [0xBC; 0x07; 0x4D; 0x66; 0xB8; 0xFD; 0x09; 0x77] "gEfiIpSec2ProtocolGuid";
  G 0x26BACCB2 0x6F42 0x11D4 [0xBC; 0xE7; 0x00; 0x80; 0xC7; 0x3C; 0x88; 0x81] "gEfiMetronomeArchProtocolGuid";
  G 0xF44C00EE 0x1F2C 0x4A00 [0xAA; 0x09; 0x1C; 0x9F; 0x3E; 0x08; 0x00; 0xA3] "gEfiArpServiceBindingProtocolGuid";
  G 0xC12A7328 0xF81F 0x11D2 [0xBA; 0x4B; 0x00; 0xA0; 0xC9; 0x3E; 0xC9; 0x3B] "gEfiPartTypeSystemPartGuid";
  G 0x7F4158D3 0x074D 0x456D [0x8C; 0xB2; 0x01; 0xF9; 0xC8; 0xF7; 0x9D; 0xAA] "gEfiTpmDeviceSelectedGuid";
  G 0x05C99A21 0xC70F 0x4AD2 [0x8A; 0x5F; 0x35; 0xDF; 0x33; 0x43; 0xF5; 0x1E] "gEfiDevicePathFromTextProtocolGuid";
  G 0xAD15A0D6 0x8BEC 0x4ACF [0xA0; 0x73; 0xD0; 0x1D; 0xE7; 0x7E; 0x2D; 0x88] "gEfiVTUTF8Guid";
  G 0x86212936 0x0E76 0x41C8 [0xA0; 0x3A; 0x2A; 0xF2; 0xFC; 0x1C; 0x39; 0xE2] "gEfiRscHandlerProtocolGuid";
  G 0x26BACCB1 0x6F42 0x11D4 [0xBC; 0xE7; 0x00; 0x80; 0xC7; 0x3C; 0x88; 0x81] "gEfiCpuArchProtocolGuid";
  G 0xA7717414 0xC616 0x4977 [0x94; 0x20; 0x84; 0x47; 0x12; 0xA7; 0x35; 0xBF] "gEfiCertTypeRsa2048Sha256Guid";
  G 0x4B3029CC 0x6B98 0x47FB [0xBC; 0x96; 0x76; 0xDC; 0xB8; 0x04; 0x41; 0xF0] "gEfiDiskInfoUfsInterfaceGuid";
  G 0x587E72D7 0xCC50 0x4F79 [0x82; 0x09; 0xCA; 0x29; 0x1F; 0xC1; 0xA1; 0x0F] "gEfiHiiConfigRoutingProtocolGuid";
  G 0x665E3FF5 0x46CC 0x11D4 [0x9A; 0x38; 0x00; 0x90; 0x27; 0x3F; 0xC1; 0x4D] "gEfiWatchdogTimerArchProtocolGuid";
  G 0x27CFAC87 0x46CC 0x11D4 [0x9A; 0x38; 0x00; 0x90; 0x27; 0x3F; 0xC1; 0x4D] "gEfiRealTimeClockArchProtocolGuid";
  G 0x06E81C58 0x4AD7 0x44BC [0x83; 0x90; 0xF1; 0x02; 0x65; 0xF7; 0x24; 0x80] "gPcdPpiGuid";
  G 0xEB23F55A 0x7863 0x4AC2 [0x8D; 0x3D; 0x95; 0x65; 0x35; 0xDE; 0x03; 0x75] "gEfiIncompatiblePciDeviceSupportProtocolGuid";
  G 0xDD9E7534 0x7762 0x4698 [0x8C; 0x14; 0xF5; 0x85; 0x17; 0xA6; 0x25; 0xAA] "gEfiSimpleTextInputExProtocolGuid";
  G 0xD3B36F2C 0xD551 0x11D4 [0x9A; 0x46; 0x00; 0x90; 0x27; 0x3F; 0xC1; 0x4D] "gEfiConsoleOutDeviceGuid";
  G 0xCD3D0A05 0x9E24 0x437C [0xA8; 0x91; 0x1E; 0xE0; 0x53; 0xDB; 0x76; 0x38] "gEdkiiVariableLockProtocolGuid";
  G 0x1259F60D 0xB754 0x468E [0xA7; 0x89; 0x4D; 0xB8; 0x5D; 0x55; 0xE8; 0x7E] "gEfiSwapAddressRangeProtocolGuid";
  G 0x880AACA3 0x4ADC 0x4A04 [0x90; 0x79; 0xB7; 0x47; 0x34; 0x08; 0x25; 0xE5] "gEfiPropertiesTableGuid";
  G 0xF8E21975 0x0899 0x4F58 [0xA4; 0xBE; 0x55; 0x25; 0xA9; 0xC6; 0xD7; 0x7A] "gEfiHobMemoryAllocModuleGuid";
  G 0x6456ED61 0x3579 0x41C9 [0x8A; 0x26; 0x0A; 0x0B; 0xD6; 0x2B; 0x78; 0xFC] "gIp4IScsiConfigGuid";
  G 0x09576E92 0x6D3F 0x11D2 [0x8E; 0x39; 0x00; 0xA0; 0xC9; 0x69; 0x72; 0x3B] "gEfiFileInfoGuid";
  G 0x4D8B155B 0xC059 0x4C8F [0x89; 0x26; 0x06; 0xFD; 0x43; 0x31; 0xDB; 0x8A] "gGetPcdInfoPpiGuid";
  G 0xFC510EE7 0xFFDC 0x11D4 [0xBD; 0x41; 0x00; 0x80; 0xC7; 0x3C; 0x88; 0x81] "gAprioriGuid";
  G 0x4006C0C1 0xFCB3 0x403E [0x99; 0x6D; 0x4A; 0x6C; 0x87; 0x24; 0xE0; 0x6D] "gEfiLoadFile2ProtocolGuid";
  G 0xAF060190 0x5E3A 0x4025 [0xAF; 0xBD; 0xE1; 0xF9; 0x05; 0xBF; 0xAA; 0x4C] "gEfiHiiImageDecoderNamePngGuid";
  G 0xAC05BF33 0x995A 0x4ED4 [0xAA; 0xB8; 0xEF; 0x7A; 0xE8; 0x0F; 0x5C; 0xB0] "gUefiCpuPkgTokenSpaceGuid";
  G 0x4DF19259 0xDC71 0x4D46 [0xBE; 0xF1; 0x35; 0x7B; 0xB5; 0x78; 0xC4; 0x18] "gEfiPs2PolicyProtocolGuid";
  G 0xE0C14753 0xF9BE 0x11D2 [0x9A; 0x0C; 0x00; 0x90; 0x27; 0x3F; 0xC1; 0x4D] "gEfiPcAnsiGuid";
  G 0x76B6BDFA 0x2ACD 0x4462 [0x9E; 0x3F; 0xCB; 0x58; 0xC9; 0x69; 0xD9; 0x37] "gPerformanceProtocolGuid";
  G 0xCE345171 0xBA0B 0x11D2 [0x8E; 0x4F; 0x00; 0xA0; 0xC9; 0x69; 0x72; 0x3B] "gEfiDiskIoProtocolGuid";
  G 0x2755590C 0x6F3C 0x42FA [0x9E; 0xA4; 0xA3; 0xBA; 0x54; 0x3C; 0xDA; 0x25] "gEfiDebugSupportProtocolGuid";
  G 0x752F3136 0x4E16 0x4FDC [0xA2; 0x2A; 0xE5; 0xF4; 0x68; 0x12; 0xF4; 0xCA] "gEfiShellParametersProtocolGuid";
  G 0xD2B2B828 0x0826 0x48A7 [0xB3; 0xDF; 0x98; 0x3C; 0x00; 0x60; 0x24; 0xF0] "gEfiStatusCodeRuntimeProtocolGuid";
  G 0x996EC11C 0x5397 0x4E73 [0xB5; 0x8F; 0x82; 0x7E; 0x52; 0x90; 0x6D; 0xEF] "gEfiVectorHandoffTableGuid";
  G 0x7CE88FB3 0x4BD7 0x4679 [0x87; 0xA8; 0xA8; 0xD8; 0xDE; 0xE5; 0x0D; 0x2B] "gEfiEventReadyToBootGuid";
  G 0x0F0B1735 0x87A0 0x4193 [0xB2; 0x66; 0x53; 0x8C; 0x38; 0xAF; 0x48; 0xCE] "gEfiIfrTianoGuid";
  G 0xAB38A0DF 0x6873 0x44A9 [0x87; 0xE6; 0xD4; 0xEB; 0x56; 0x14; 0x84; 0x49] "gEfiRamDiskProtocolGuid";
  G 0x7D916D80 0x5BB1 0x458C [0xA4; 0x8F; 0xE2; 0x5F; 0xDD; 0x51; 0xEF; 0x94] "gEfiTtyTermGuid";
  G 0x51AA59DE 0xFDF2 0x4EA3 [0xBC; 0x63; 0x87; 0x5F; 0xB7; 0x84; 0x2E; 0xE9] "gEfiHashAlgorithmSha256Guid";
  G 0xEF9FC172 0xA1B2 0x4693 [0xB3; 0x27; 0x6D; 0x32; 0xFC; 0x41; 0x60; 0x42] "gEfiHiiDatabaseProtocolGuid";
  G 0x31878C87 0x0B75 0x11D5 [0x9A; 0x4F; 0x00; 0x90; 0x27; 0x3F; 0xC1; 0x4D] "gEfiSimplePointerProtocolGuid";
  G 0x19CB87AB 0x2CB9 0x4665 [0x83; 0x60; 0xDD; 0xCF; 0x60; 0x54; 0xF7; 0x9D] "gEfiPciHotPlugRequestProtocolGuid";
  G 0x49152E77 0x1ADA 0x4764 [0xB7; 0xA2; 0x7A; 0xFE; 0xFE; 0xD9; 0x5E; 0x8B] "gEfiDebugImageInfoTableGuid";
  G 0x7408D748 0xFC8C 0x4EE6 [0x92; 0x88; 0xC4; 0xBE; 0xC0; 0x92; 0xA4; 0x10] "gEfiPeiMasterBootModePpiGuid";
  G 0x3A4D7A7C 0x018A 0x4B42 [0x81; 0xB3; 0xDC; 0x10; 0xE3; 0xB5; 0x91; 0xBD] "gUsbKeyboardLayoutKeyGuid";
  G 0xDFA66065 0xB419 0x11D3 [0x9A; 0x2D; 0x00; 0x90; 0x27; 0x3F; 0xC1; 0x4D] "gEfiVT100Guid";
  G 0x2B9FFB52 0x1B13 0x416F [0xA8; 0x7B; 0xBC; 0x93; 0x0D; 0xEF; 0x92; 0xA8] "gTcgEventEntryHobGuid";
  G 0xC51711E7 0xB4BF 0x404A [0xBF; 0xB8; 0x0A; 0x04; 0x8E; 0xF1; 0xFF; 0xE4] "gEfiIp4ServiceBindingProtocolGuid";
  G 0x37499A9D 0x542F 0x4C89 [0xA0; 0x26; 0x35; 0xDA; 0x14; 0x20; 0x94; 0xE4] "gEfiUartDevicePathGuid";
  G 0x387477C2 0x69C7 0x11D2 [0x8E; 0x39; 0x00; 0xA0; 0xC9; 0x69; 0x72; 0x3B] "gEfiSimpleTextOutProtocolGuid";
  G 0x27CFAC88 0x46CC 0x11D4 [0x9A; 0x38; 0x00; 0x90; 0x27; 0x3F; 0xC1; 0x4D] "gEfiResetArchProtocolGuid";
  G 0x964E5B22 0x6459 0x11D2 [0x8E; 0x39; 0x00; 0xA0; 0xC9; 0x69; 0x72; 0x3B] "gEfiSimpleFileSystemProtocolGuid";
  G 0x982C298B 0xF4FA 0x41CB [0xB8; 0x38; 0x77; 0xAA; 0x68; 0x8F; 0xB8; 0x39] "gEfiUgaDrawProtocolGuid";
  G 0x229832D3 0x7A30 0x4B36 [0xB8; 0x27; 0xF4; 0x0C; 0xB7; 0xD4; 0x54; 0x36] "gEfiPeiStatusCodePpiGuid";
  G 0x52C78312 0x8EDC 0x4233 [0x98; 0xF2; 0x1A; 0x1A; 0xA5; 0xE3; 0x88; 0xA5] "gEfiNvmExpressPassThruProtocolGuid";
  G 0x3EBD9E82 0x2C78 0x4DE6 [0x97; 0x86; 0x8D; 0x4B; 0xFC; 0xB7; 0xC8; 0x81] "gEfiFaultTolerantWriteProtocolGuid";
  G 0x821C9A09 0x541A 0x40F6 [0x9F; 0x43; 0x0A; 0xD1; 0x93; 0xA1; 0x2C; 0xFE] "gEdkiiMemoryProfileGuid";
  G 0x665E3FF6 0x46CC 0x11D4 [0x9A; 0x38; 0x00; 0x90; 0x27; 0x3F; 0xC1; 0x4D] "gEfiBdsArchProtocolGuid";
  G 0x8F644FA9 0xE850 0x4DB1 [0x9C; 0xE2; 0x0B; 0x44; 0x69; 0x8E; 0x8D; 0xA4] "gEfiFirmwareVolumeBlockProtocolGuid";
  G 0xCDEA2BD3 0xFC25 0x4C1C [0xB9; 0x7C; 0xB3; 0x11; 0x86; 0x06; 0x49; 0x90] "gEfiBootLogoProtocolGuid";
  G 0x0D3FB176 0x9569 0x4D51 [0xA3; 0xEF; 0x7D; 0x61; 0xC6; 0x4F; 0xEA; 0xBA] "gEfiSecurityPkgTokenSpaceGuid";
  G 0xA1E37052 0x80D9 0x4E65 [0xA3; 0x17; 0x3E; 0x9A; 0x55; 0xC4; 0x3E; 0xC9] "gEfiIdeControllerInitProtocolGuid";
  G 0x31CA5D1A 0xD511 0x4931 [0xB7; 0x82; 0xAE; 0x6B; 0x2B; 0x17; 0x8C; 0xD7] "gEfiIfrFrameworkGuid";
  G 0x2A46715F 0x3581 0x4A55 [0x8E; 0x73; 0x2B; 0x76; 0x9A; 0xAA; 0x30; 0xC5] "gRamDiskFormSetGuid";
  G 0x77AB535A 0x45FC 0x624B [0x55; 0x60; 0xF7; 0xB2; 0x81; 0xD1; 0xF9; 0x6E] "gEfiVirtualDiskGuid";
  G 0xB2360B42 0x7173 0x420A [0x86; 0x96; 0x46; 0xCA; 0x6B; 0xAB; 0x10; 0x60] "gMeasuredFvHobGuid";
  G 0x6A7A5CFF 0xE8D9 0x4F70 [0xBA; 0xDA; 0x75; 0xAB; 0x30; 0x25; 0xCE; 0x14] "gEfiComponentName2ProtocolGuid";
  G 0xE9DB0D58 0xD48D 0x47F6 [0x9C; 0x6E; 0x6F; 0x40; 0xE8; 0x6C; 0x7B; 0x41] "gPeiTpmInitializedPpiGuid";
  G 0xEFEFD093 0x0D9B 0x46EB [0xA8; 0x56; 0x48; 0x35; 0x07; 0x00; 0xC9; 0x08] "gEfiHiiImageDecoderNameJpegGuid";
  G 0x245DCA21 0xFB7B 0x11D3 [0x8F; 0x01; 0x00; 0xA0; 0xC9; 0x69; 0x72; 0x3B] "gEfiPxeBaseCodeCallbackProtocolGuid";
  G 0x3C8D294C 0x5FC3 0x4451 [0xBB; 0x31; 0xC4; 0xC0; 0x32; 0x29; 0x5E; 0x6C] "gIdleLoopEventGuid";
  G 0x00000000 0x0000 0x0000 [0x00; 0x00; 0x00; 0x00; 0x00; 0x00; 0x00; 0x00] "gEfiTpmDeviceInstanceNoneGuid";
  G 0x220E73B6 0x6BDB 0x4413 [0x84; 0x05; 0xB9; 0x74; 0xB1; 0x08; 0x61; 0x9A] "gEfiFirmwareVolume2ProtocolGuid";
  G 0x480F8AE9 0x0C46 0x4AA9 [0xBC; 0x89; 0xDB; 0x9F; 0xBA; 0x61; 0x98; 0x06] "gEfiDpcProtocolGuid";
  G 0xEB97088E 0xCFDF 0x49C6 [0xBE; 0x4B; 0xD9; 0x06; 0xA5; 0xB2; 0x0E; 0x86] "gEfiAcpiSdtProtocolGuid";
  G 0xDB47D7D3 0xFE81 0x11D3 [0x9A; 0x35; 0x00; 0x90; 0x27; 0x3F; 0xC1; 0x4D] "gEfiFileSystemVolumeLabelInfoIdGuid";
  G 0xDCFA911D 0x26EB 0x469F [0xA2; 0x20; 0x38; 0xB7; 0xDC; 0x46; 0x12; 0x20] "gEfiMemoryAttributesTableGuid";
  G 0x14982A4F 0xB0ED 0x45B8 [0xA8; 0x11; 0x5A; 0x7A; 0x9B; 0xC2; 0x32; 0xDF] "gEfiHiiKeyBoardLayoutGuid";
  G 0x09576E91 0x6D3F 0x11D2 [0x8E; 0x39; 0x00; 0xA0; 0xC9; 0x69; 0x72; 0x3B] "gEfiDevicePathProtocolGuid";
  G 0x3BC1B285 0x8A15 0x4A82 [0xAA; 0xBF; 0x4D; 0x7D; 0x13; 0xFB; 0x32; 0x65] "gEfiBusSpecificDriverOverrideProtocolGuid";
  G 0x060CC026 0x4C0D 0x4DDA [0x8F; 0x41; 0x59; 0x5F; 0xEF; 0x00; 0xA5; 0x02] "gMemoryStatusCodeRecordGuid";
  G 0x1D3DE7F0 0x0807 0x424F [0xAA; 0x69; 0x11; 0xA5; 0x4E; 0x19; 0xA4; 0x6F] "gEfiAtaPassThruProtocolGuid";
  G 0x27ABF055 0xB1B8 0x4C26 [0x80; 0x48; 0x74; 0x8F; 0x37; 0xBA; 0xA2; 0xDF] "gEfiEventExitBootServicesGuid";
  G 0xFFE06BDD 0x6107 0x46A6 [0x7B; 0xB2; 0x5A; 0x9C; 0x7E; 0xC5; 0x27; 0x5C] "gEfiAcpiTableProtocolGuid";
  G 0x41D94CD2 0x35B6 0x455A [0x82; 0x58; 0xD4; 0xE5; 0x13; 0x34; 0xAA; 0xDD] "gEfiIp4ProtocolGuid";
  G 0x93BB96AF 0xB9F2 0x4EB8 [0x94; 0x62; 0xE0; 0xBA; 0x74; 0x56; 0x42; 0x36] "gUefiOvmfPkgTokenSpaceGuid";
  G 0x0CC252D2 0xC106 0x4661 [0xB5; 0xBD; 0x31; 0x47; 0xA4; 0xF8; 0x1F; 0x92] "gEfiPrint2SProtocolGuid";
  G 0x2AB86EF5 0xECB5 0x4134 [0xB5; 0x56; 0x38; 0x54; 0xCA; 0x1F; 0xE1; 0xB4] "gEfiPeiReadOnlyVariable2PpiGuid";
  G 0x0F6499B1 0xE9AD 0x493D [0xB9; 0xC2; 0x2F; 0x90; 0x81; 0x5C; 0x6C; 0xBC] "gEfiPhysicalPresenceGuid";
  G 0x9E23D768 0xD2F3 0x4366 [0x9F; 0xC3; 0x3A; 0x7A; 0xBA; 0x86; 0x43; 0x74] "gEfiVlanConfigProtocolGuid";
  G 0x38321DBA 0x4FE0 0x4E17 [0x8A; 0xEC; 0x41; 0x30; 0x55; 0xEA; 0xED; 0xC1] "gEfiLegacy8259ProtocolGuid";
  G 0x6B558CE3 0x69E5 0x4C67 [0xA6; 0x34; 0xF7; 0xFE; 0x72; 0xAD; 0xBE; 0x84] "gBlockMmioProtocolGuid";
  G 0x6D582DBC 0xDB85 0x4514 [0x8F; 0xCC; 0x5A; 0xDF; 0x62; 0x27; 0xB1; 0x47] "gEfiPeiS3Resume2PpiGuid";
  G 0x6A1EE763 0xD47A 0x43B4 [0xAA; 0xBE; 0xEF; 0x1D; 0xE2; 0xAB; 0x56; 0xFC] "gEfiHiiPackageListProtocolGuid";
  G 0x2E3044AC 0x879F 0x490F [0x97; 0x60; 0xBB; 0xDF; 0xAF; 0x69; 0x5F; 0x50] "gEfiLegacyBiosGuid";
  G 0x30CFE3E7 0x3DE1 0x4586 [0xBE; 0x20; 0xDE; 0xAB; 0xA1; 0xB3; 0xB7; 0x93] "gEfiPciEnumerationCompleteProtocolGuid";
  G 0x3D3CA290 0xB9A5 0x11E3 [0xB7; 0x5D; 0xB8; 0xAC; 0x6F; 0x7D; 0x65; 0xE6] "gXenBusProtocolGuid";
  G 0x8D59D32B 0xC655 0x4AE9 [0x9B; 0x15; 0xF2; 0x59; 0x04; 0x99; 0x2A; 0x43] "gEfiAbsolutePointerProtocolGuid";
  G 0x1A36E4E7 0xFAB6 0x476A [0x8E; 0x75; 0x69; 0x5A; 0x05; 0x76; 0xFD; 0xD7] "gEfiPeiDecompressPpiGuid";
  G 0xF5089266 0x1AA0 0x4953 [0x97; 0xD8; 0x56; 0x2F; 0x8A; 0x73; 0xB5; 0x19] "gEfiUsbHcProtocolGuid";
  G 0x11B34006 0xD85B 0x4D0A [0xA2; 0x90; 0xD5; 0xA5; 0x71; 0x31; 0x0E; 0xF7] "gPcdProtocolGuid";
  G 0x1ACED566 0x76ED 0x4218 [0xBC; 0x81; 0x76; 0x7F; 0x1F; 0x97; 0x7A; 0x89] "gEfiNetworkInterfaceIdentifierProtocolGuid_31";
  G 0x8B843E20 0x8132 0x4852 [0x90; 0xCC; 0x55; 0x1A; 0x4E; 0x4A; 0x7F; 0x1C] "gEfiDevicePathToTextProtocolGuid";
  G 0x4F6C5507 0x232F 0x4787 [0xB9; 0x5E; 0x72; 0xF8; 0x62; 0x49; 0x0C; 0xB1] "gEventExitBootServicesFailedGuid";
  G 0xBD8C1056 0x9F36 0x44EC [0x92; 0xA8; 0xA6; 0x33; 0x7F; 0x81; 0x79; 0x86] "gEfiEdidActiveProtocolGuid";
  G 0x00000000 0x0000 0x0000 [0x00; 0x00; 0x00; 0x00; 0x00; 0x00; 0x00; 0x00] "gEfiPartTypeUnusedGuid";
  G 0xD3B36F2D 0xD551 0x11D4 [0x9A; 0x46; 0x00; 0x90; 0x27; 0x3F; 0xC1; 0x4D] "gEfiStandardErrorDeviceGuid";
  G 0x9E498932 0x4ABC 0x45AF [0xA3; 0x4D; 0x02; 0x47; 0x78; 0x7B; 0xE7; 0xC6] "gEfiDiskInfoAhciInterfaceGuid";
  G 0x92D11080 0x496F 0x4D95 [0xBE; 0x7E; 0x03; 0x74; 0x88; 0x38; 0x2B; 0x0A] "gEfiStatusCodeDataTypeStringGuid";
  G 0x1C0C34F6 0xD380 0x41FA [0xA0; 0x49; 0x8A; 0xD0; 0x6C; 0x1A; 0x66; 0xAA] "gEfiEdidDiscoveredProtocolGuid";
  G 0x9E58292B 0x7C68 0x497D [0xA0; 0xCE; 0x65; 0x00; 0xFD; 0x9F; 0x1B; 0x95] "gEdkiiWorkingBlockSignatureGuid";
  G 0xA19832B9 0xAC25 0x11D3 [0x9A; 0x2D; 0x00; 0x90; 0x27; 0x3F; 0xC1; 0x4D] "gEfiSimpleNetworkProtocolGuid";
  G 0x53CD299F 0x2BC1 0x40C0 [0x8C; 0x07; 0x23; 0xF6; 0x4F; 0xDB; 0x30; 0xE0] "gEdkiiPlatformLogoProtocolGuid";
  G 0xAF9FFD67 0xEC10 0x488A [0x9D; 0xFC; 0x6C; 0xBF; 0x5E; 0xE2; 0x2C; 0x2E] "gEfiAcpiVariableGuid";
  G 0x1E43298F 0x3478 0x41A7 [0xB5; 0x77; 0x86; 0x06; 0x46; 0x35; 0xC7; 0x28] "gOptionRomPkgTokenSpaceGuid";
  G 0x07D75280 0x27D4 0x4D69 [0x90; 0xD0; 0x56; 0x43; 0xE2; 0x38; 0xB3; 0x41] "gEfiPciPlatformProtocolGuid";
  G 0xDB4E8151 0x57ED 0x4BED [0x88; 0x33; 0x67; 0x51; 0xB5; 0xD1; 0xA8; 0xD7] "gConnectConInEventGuid";
  G 0xE43176D7 0xB6E8 0x4827 [0xB7; 0x84; 0x7F; 0xFD; 0xC4; 0xB6; 0x85; 0x61] "gEfiRngAlgorithmRaw";
  G 0x95A9A93E 0xA86E 0x4926 [0xAA; 0xEF; 0x99; 0x18; 0xE7; 0x72; 0xD9; 0x87] "gEfiEraseBlockProtocolGuid";
  G 0x8C8CE578 0x8A3D 0x4F1C [0x99; 0x35; 0x89; 0x61; 0x85; 0xC3; 0x2D; 0xD3] "gEfiFirmwareFileSystem2Guid";
  G 0xF4B427BB 0xBA21 0x4F16 [0xBC; 0x4E; 0x43; 0xE4; 0x16; 0xAB; 0x61; 0x9C] "gEfiArpProtocolGuid";
  G 0x4CF5B200 0x68B8 0x4CA5 [0x9E; 0xEC; 0xB2; 0x3E; 0x3F; 0x50; 0x02; 0x9A] "gEfiPciIoProtocolGuid";
  G 0x5473C07A 0x3DCB 0x4DCA [0xBD; 0x6F; 0x1E; 0x96; 0x89; 0xE7; 0x34; 0x9A] "gEfiFirmwareFileSystem3Guid";
  G 0x6302D008 0x7F9B 0x4F30 [0x87; 0xAC; 0x60; 0xC9; 0xFE; 0xF5; 0xDA; 0x4E] "gEfiShellProtocolGuid";
  G 0x3CD652B4 0x6D33 0x4DCE [0x89; 0xDB; 0x83; 0xDF; 0x97; 0x66; 0xFC; 0xCA] "gEfiVectorHandoffInfoPpiGuid";
  G 0x7739F24C 0x93D7 0x11D4 [0x9A; 0x3A; 0x00; 0x90; 0x27; 0x3F; 0xC1; 0x4D] "gEfiHobListGuid";
  G 0x932F47E6 0x2362 0x4002 [0x80; 0x3E; 0x3C; 0xD5; 0x4B; 0x13; 0x8F; 0x85] "gEfiScsiIoProtocolGuid";
  G 0x08F74BAA 0xEA36 0x41D9 [0x95; 0x21; 0x21; 0xA7; 0x0F; 0x87; 0x80; 0xBC] "gEfiDiskInfoScsiInterfaceGuid";
  G 0x64A892DC 0x5561 0x4536 [0x92; 0xC7; 0x79; 0x9B; 0xFC; 0x18; 0x33; 0x55] "gEfiIsaAcpiProtocolGuid";
  G 0xEB9D2D31 0x2D88 0x11D3 [0x9A; 0x16; 0x00; 0x90; 0x27; 0x3F; 0xC1; 0x4D] "gEfiSmbiosTableGuid";
  G 0xBB25CF6F 0xF1D4 0x11D2 [0x9A; 0x0C; 0x00; 0x90; 0x27; 0x3F; 0xC1; 0xFD] "gEfiSerialIoProtocolGuid";
  G 0xAA0E8BC1 0xDABC 0x46B0 [0xA8; 0x44; 0x37; 0xB8; 0x16; 0x9B; 0x2B; 0xEA] "gEfiPciHotPlugInitProtocolGuid";
  G 0xD3B36F2B 0xD551 0x11D4 [0x9A; 0x46; 0x00; 0x90; 0x27; 0x3F; 0xC1; 0x4D] "gEfiConsoleInDeviceGuid";
  G 0xA770C357 0xB693 0x4E6D [0xA6; 0xCF; 0xD2; 0x1C; 0x72; 0x8E; 0x55; 0x0B] "gEdkiiFormBrowserEx2ProtocolGuid";
  G 0x3079818C 0x46D4 0x4A73 [0xAE; 0xF3; 0xE3; 0xE4; 0x6C; 0xF1; 0xEE; 0xDB] "gEfiBootScriptExecutorVariableGuid";
  G 0x6B30C738 0xA391 0x11D4 [0x9A; 0x3B; 0x00; 0x90; 0x27; 0x3F; 0xC1; 0x4D] "gEfiPlatformDriverOverrideProtocolGuid";
  G 0xFD0F4478 0x0EFD 0x461D [0xBA; 0x2D; 0xE5; 0x8C; 0x45; 0xFD; 0x5F; 0x5E] "gEfiGetPcdInfoProtocolGuid";
  G 0x31CE593D 0x108A 0x485D [0xAD; 0xB2; 0x78; 0xF2; 0x1F; 0x29; 0x66; 0xBE] "gEfiLegacyInterruptProtocolGuid";
  G 0xEB704011 0x1402 0x11D3 [0x8E; 0x77; 0x00; 0xA0; 0xC9; 0x69; 0x72; 0x3B] "gMtcVendorGuid";
  G 0x18A031AB 0xB443 0x4D1A [0xA5; 0xC0; 0x0C; 0x09; 0x26; 0x1E; 0x9F; 0x71] "gEfiDriverBindingProtocolGuid";
  G 0xA1AFF049 0xFDEB 0x442A [0xB3; 0x20; 0x13; 0xAB; 0x4C; 0xB7; 0x2B; 0xBC] "gEfiMdeModulePkgTokenSpaceGuid";
  G 0x13A3F0F6 0x264A 0x3EF0 [0xF2; 0xE0; 0xDE; 0xC5; 0x12; 0x34; 0x2F; 0x34] "gEfiPcdProtocolGuid";
  G 0xF05976EF 0x83F1 0x4F3D [0x86; 0x19; 0xF7; 0x59; 0x5D; 0x41; 0xE5; 0x38] "gEfiPrint2ProtocolGuid";
  G 0x94AB2F58 0x1438 0x4EF1 [0x91; 0x52; 0x18; 0x94; 0x1A; 0x3A; 0x0E; 0x68] "gEfiSecurity2ArchProtocolGuid";
  G 0xD3705011 0xBC19 0x4AF7 [0xBE; 0x16; 0xF6; 0x80; 0x30; 0x37; 0x8C; 0x15] "gEfiIntelFrameworkModulePkgTokenSpaceGuid";
  G 0xE857CAF6 0xC046 0x45DC [0xBE; 0x3F; 0xEE; 0x07; 0x65; 0xFB; 0xA8; 0x87] "gEfiS3SaveStateProtocolGuid";
  G 0x70101EAF 0x0085 0x440C [0xB3; 0x56; 0x8E; 0xE3; 0x6F; 0xEF; 0x24; 0xF0] "gEfiLegacyRegion2ProtocolGuid";
  G 0xC7735A2F 0x88F5 0x4882 [0xAE; 0x63; 0xFA; 0xAC; 0x8C; 0x8B; 0x86; 0xB3] "gEfiVgaMiniPortProtocolGuid";
  G 0x5053697E 0x2CBC 0x4819 [0x90; 0xD9; 0x05; 0x80; 0xDE; 0xEE; 0x57; 0x54] "gEfiCapsuleArchProtocolGuid";
  G 0xB1EE129E 0xDA36 0x4181 [0x91; 0xF8; 0x04; 0xA4; 0x92; 0x37; 0x66; 0xA7] "gEfiDriverFamilyOverrideProtocolGuid";
  G 0xA46423E3 0x4617 0x49F1 [0xB9; 0xFF; 0xD1; 0xBF; 0xA9; 0x11; 0x58; 0x39] "gEfiSecurityArchProtocolGuid";
  G 0x330D4706 0xF2A0 0x4E4F [0xA3; 0x69; 0xB6; 0x6F; 0xA8; 0xD5; 0x43; 0x85] "gEfiHiiConfigAccessProtocolGuid";
  G 0xFC1BCDB0 0x7D31 0x49AA [0x93; 0x6A; 0xA4; 0x60; 0x0D; 0x9D; 0xD0; 0x83] "CRC32";
  G 0xA31280AD 0x481E 0x41B6 [0x95; 0xE8; 0x12; 0x7F; 0x4C; 0x98; 0x47; 0x79] "TIANO_COMPRESS";
  G 0xEE4E5898 0x3914 0x4259 [0x9D; 0x6E; 0xDC; 0x7B; 0xD7; 0x94; 0x03; 0xCF] "LZMA_COMPRESS"
].

(** Every field holds a value of its C type. *)
Definition guid_ok (g : EFI_GUID) : Prop :=
  0 <= Data1 g < 2 ^ 32 /\ 0 <= Data2 g < 2 ^ 16 /\ 0 <= Data3 g < 2 ^ 16 /\
  List.length (Data4 g) = 8%nat /\ Forall (fun b => 0 <= b < 256) (Data4 g).

Definition guid_okb (g : EFI_GUID) : bool :=
  (0 <=? Data1 g) && (Data1 g <? 2 ^ 32) &&
  (0 <=? Data2 g) && (Data2 g <? 2 ^ 16) &&
  (0 <=? Data3 g) && (Data3 g <? 2 ^ 16) &&
  (List.length (Data4 g) =? 8)%nat &&
  forallb (fun b => (0 <=? b) && (b <? 256)) (Data4 g).

Definition byte4 (g : EFI_GUID) (i : nat) : Z := nth i (Data4 g) 0.

(** The object read as [int32_t[4]] (little-endian layout). *)
Definition word (g : EFI_GUID) (i : nat) : Z :=
  match i with
  | 0%nat => sint32 (Data1 g)
  | 1%nat => sint32 (Data2 g + 2 ^ 16 * Data3 g)
  | 2%nat => sint32 (byte4 g 0 + 2 ^ 8 * byte4 g 1
                     + 2 ^ 16 * byte4 g 2 + 2 ^ 24 * byte4 g 3)
  | _ => sint32 (byte4 g 4 + 2 ^ 8 * byte4 g 5
                 + 2 ^ 16 * byte4 g 6 + 2 ^ 24 * byte4 g 7)
  end.

(** [int32_t] subtraction, wrapping. *)
Definition sub32 (a b : Z) : Z := sint32 (a - b).

Definition CompareGuid (Guid1 Guid2 : EFI_GUID) : Z :=
  let r := sub32 (word Guid1 0) (word Guid2 0) in
  let r := Z.lor r (sub32 (word Guid1 1) (word Guid2 1)) in
  let r := Z.lor r (sub32 (word Guid1 2) (word Guid2 2)) in
  let r := Z.lor r (sub32 (word Guid1 3) (word Guid2 3)) in
  r.

(** The [for] loop of [GetGuidName] from index [i], with [remaining]
    iterations left.  The result is the string returned and the number
    of table entries compared; [None] stands for a read outside the
    array. *)
Fixpoint scan (Protocol : EFI_GUID) (remaining i : nat)
  : option (string * nat) :=
  match remaining with
  | O => Some ("<Unknown>"%string, i)
  | S remaining' =>
      match nth_error GuidMappings i with
      | None => None
      | Some e =>
          if CompareGuid Protocol (Guid e) =? 0 then Some (Name e, S i)
          else scan Protocol remaining' (S i)
      end
  end.

(** [Protocol = None] is the [NULL] pointer. *)
Definition GetGuidName (Protocol : option EFI_GUID) : option (string * nat) :=
  match Protocol with
  | None => Some ("<NULL protocol pointer>"%string, 0%nat)
  | Some g => scan g NUM_GUID_MAPPINGS 0
  end.

(** Values stored through [void** interface]. *)
Inductive pointer :=
| NULL
| windows_loaded_image       (* &windows_loaded_image *)
| windows_boot_device_path   (* windows_boot_device_path *)
| address (a : Z).

Definition BOOT_DEVICE_HANDLE : Z := 0xDEADBEEF.

Import Ledger.

(** The handlers, by the status they return and the value they leave in
    [*interface]. *)
Definition efi_handle_protocol_LoadedImage (handle : Z) (interface : pointer)
  : efi_status_t * pointer := (EFI_SUCCESS, windows_loaded_image).

Definition efi_handle_protocol_DevicePath (handle : Z) (interface : pointer)
  : efi_status_t * pointer :=
  if negb (handle =? BOOT_DEVICE_HANDLE) then (EFI_UNSUPPORTED, interface)
  else (EFI_SUCCESS, windows_boot_device_path).

(** [get_GUID_str] reads every field of [*guid] and formats them into
    [temp_GUID_buff], a buffer that only the log line reads.  [None] is
    the read through a [NULL] pointer: the call does not return. *)
Definition get_GUID_str (guid : option EFI_GUID) : option unit :=
  match guid with
  | None => None
  | Some _ => Some tt
  end.

(** [None]: the call does not return a status.  The log line at the head
    of the function formats the GUID with [get_GUID_str] after
    [GetGuidName] has named it. *)
Definition efi_hook_HandleProtocol (handle : Z) (guid : option EFI_GUID)
    (interface : pointer) : option (efi_status_t * pointer) :=
  match GetGuidName guid with
  | None => None
  | Some (protocolName, _) =>
      match get_GUID_str guid with
      | None => None
      | Some _ =>
          if String.eqb protocolName "gEfiLoadedImageProtocolGuid"
          then Some (efi_handle_protocol_LoadedImage handle interface)
          else if String.eqb protocolName "gEfiDevicePathProtocolGuid"
          then Some (efi_handle_protocol_DevicePath handle interface)
          else Some (EFI_UNSUPPORTED, interface)
      end
  end.

Definition LoadedImageProtocolGuid : EFI_GUID :=
  {| Data1 := 0x5B1B31A1; Data2 := 0x9562; Data3 := 0x11D2;
     Data4 := [0x8E; 0x3F; 0x00; 0xA0; 0xC9; 0x69; 0x72; 0x3B] |}.

Definition DevicePathProtocolGuid : EFI_GUID :=
  {| Data1 := 0x09576E91; Data2 := 0x6D3F; Data3 := 0x11D2;
     Data4 := [0x8E; 0x39; 0x00; 0xA0; 0xC9; 0x69; 0x72; 0x3B] |}.

(** Field-wise equality test. *)
Fixpoint bytes_eqb (l1 l2 : list Z) : bool :=
  match l1, l2 with
  | [], [] => true
  | a :: r1, b :: r2 => (a =? b) && bytes_eqb r1 r2
  | _, _ => false
  end.

Definition guid_eqb (g1 g2 : EFI_GUID) : bool :=
  (Data1 g1 =? Data1 g2) && (Data2 g1 =? Data2 g2)
  && (Data3 g1 =? Data3 g2) && bytes_eqb (Data4 g1) (Data4 g2).

(** Every entry called [name] carries the GUID [g]. *)
Definition name_belongs_to (name : string) (g : EFI_GUID) : bool :=
  forallb (fun e => if String.eqb (Name e) name then guid_eqb (Guid e) g
                    else true) GuidMappings.

(** [g] occurs in the registry, and [i] is its first position. *)
Definition first_at (g : EFI_GUID) (i : nat) (e : EFI_GUID_NAME) : Prop :=
  nth_error GuidMappings i = Some e /\ Guid e = g /\
  forall j e', (j < i)%nat -> nth_error GuidMappings j = Some e' -> Guid e' <> g.

Definition absent (g : EFI_GUID) : Prop :=
  forall e, In e GuidMappings -> Guid e <> g.

End Guid.

(* ================================================================= *)
(** ** The PE segment loader: [kimage_load_pe_segment], [kimage_load_pe] *)

Module Loader.
Import Mem.

Definition EFAULT : Z := 14.
Definition PAGE_SIZE : Z := Ledger.PAGE_SIZE.

(** [memset(to, 0, n)]. *)
Fixpoint zero_fill (n : nat) (m : Mem.t) (to : Z) : Mem.t :=
  match n with
  | O => m
  | S k => zero_fill k (store8 m to 0) (to + 1)
  end.

(** Modelled from the spec: [copy_from_user] is a kernel helper outside
    this file; a copy of a chunk either completes or fails.  [readable]
    tells which user addresses can be read.  The copy stops at the first
    unreadable source byte, pads the destination with zero bytes and
    returns the number of bytes it did not copy; [0] is success. *)
Fixpoint copy_from_user (readable : Z -> bool) (n : nat) (m : Mem.t)
                        (to from : Z) : Z * Mem.t :=
  match n with
  | O => (0, m)
  | S k =>
      if readable (wrap64 from)
      then copy_from_user readable k (store8 m to (load8 m from))
                          (to + 1) (from + 1)
      else (Z.of_nat n, zero_fill n m to)
  end.

(** The [while (mbytes)] loop; [None] when [fuel] iterations were not
    enough. *)
Fixpoint load_chunks (fuel : nat) (readable : Z -> bool)
    (ubytes mbytes maddr buf_ raw_image_offset : Z) (m : Mem.t)
  : option (Z * Mem.t) :=
  match fuel with
  | O => None
  | S fuel' =>
      if mbytes =? 0 then Some (0, m)
      else
        let mchunk := Z.min mbytes (PAGE_SIZE - Z.land maddr (PAGE_SIZE - 1)) in
        let uchunk := Z.min ubytes mchunk in
        let (result, m') :=
          copy_from_user readable (Z.to_nat uchunk) m raw_image_offset buf_ in
        if negb (result =? 0) then Some (- EFAULT, m')
        else load_chunks fuel' readable
               (wrap64 (ubytes - uchunk)) (wrap64 (mbytes - mchunk))
               (wrap64 (maddr + mchunk)) (wrap64 (buf_ + mchunk))
               (wrap64 (raw_image_offset + uchunk)) m'
  end.

(** [DumpBuffer] prints [buff[0]] to [buff[size - 1]], reading each byte
    through the pointer it was given; the text goes to the log only.
    [false] is a read of an address that cannot be read: the call does not
    return. *)
Definition DumpBuffer (readable : Z -> bool) (buff : Z) (size : nat) : bool :=
  forallb (fun i => readable (wrap64 (buff + Z.of_nat i))) (seq 0 size).

(** [None]: the call does not return, the dump of the first 32 source
    bytes having read an address that cannot be read.  The fuel handed to
    the loop is always enough. *)
Definition kimage_load_pe_segment (readable : Z -> bool) (image : kimage)
    (seg : kexec_segment) (m : Mem.t) : option (Z * Mem.t) :=
  let offset_relative_to_image := wrap64 (mem seg - raw_image_mem_base image) in
  let raw_image_offset := wrap64 (raw_image image + offset_relative_to_image) in
  if DumpBuffer readable (buf seg) 32 then
    load_chunks (S (Z.to_nat (memsz seg))) readable
                (bufsz seg) (memsz seg) (mem seg) (buf seg) raw_image_offset m
  else None.

(** The second [for] loop of [kimage_load_pe]: the value returned by
    [kimage_load_pe_segment] is not looked at. *)
Fixpoint load_segments (readable : Z -> bool) (image : kimage)
    (segs : list kexec_segment) (m : Mem.t) : option Mem.t :=
  match segs with
  | [] => Some m
  | seg :: rest =>
      match kimage_load_pe_segment readable image seg m with
      | None => None
      | Some (_, m') => load_segments readable image rest m'
      end
  end.

Definition image_size (segs : list kexec_segment) : Z :=
  fold_left (fun acc seg => wrap64 (acc + memsz seg)) segs 0.

(** What [kimage_load_pe] leaves behind: the image fields it sets, the
    [ImageBase] and [ImageSize] it stores in [windows_loaded_image], the
    chunks its relocation pass processed, and memory. *)
Record loaded := {
  image     : kimage;
  ImageBase : Z;
  ImageSize : Z;
  relocated : list Z;
  memory    : Mem.t
}.

(** [vmalloc_exec] is the address the host returned for the raw image;
    the segment count is the length of the segment list.  [None]: a
    segment's load did not return, the segment list is empty, or [fuel]
    was not enough for the relocation walk. *)
Definition kimage_load_pe (readable : Z -> bool) (vmalloc_exec : Z)
    (fuel : nat) (img : kimage) (m : Mem.t) : option loaded :=
  let segs := segment img in
  let img1 :=
    {| start := start img; segment := segs;
       raw_image := vmalloc_exec;
       raw_image_mem_base := mem (nth 0 segs (Build_kexec_segment 0 0 0 0));
       raw_image_start :=
         wrap64 (vmalloc_exec
                 + wrap64 (start img
                           - mem (nth 0 segs (Build_kexec_segment 0 0 0 0)))) |} in
  match load_segments readable img1 segs m with
  | None => None
  | Some m1 =>
      match nth_error segs (List.length segs - 1) with
      | None => None
      | Some last_segment =>
          match Reloc.parse_reloc_table fuel last_segment img1 m1 with
          | None => None
          | Some (visited, _, m2) =>
              Some {| image := img1; ImageBase := vmalloc_exec;
                      ImageSize := image_size segs;
                      relocated := visited; memory := m2 |}
          end
      end
  end.

End Loader.

(* ================================================================= *)
(** ** Well-formed relocation chunks *)

Module RelocSpec.
Import Mem Reloc.

(** Entry [k] of the chunk at [chunk] is an absolute-64 entry. *)
Definition patched (m : Mem.t) (chunk k : Z) : Prop :=
  0 <= k < num_relocs m chunk
  /\ entry_type (entry_at m chunk k) = IMAGE_REL_BASED_DIR64.

(** The bytes the loop reads from the chunk: its header and its entries. *)
Definition table_byte (m : Mem.t) (chunk x : Z) : Prop :=
  in_window chunk 8 x
  \/ exists k, 0 <= k < num_relocs m chunk /\ in_window (entry_addr chunk k) 2 x.

(** The fields of the absolute-64 entries lie outside the chunk itself and
    do not overlap each other. *)
Definition well_separated (image : kimage) (m : Mem.t) (chunk : Z) : Prop :=
  (forall k x, patched m chunk k ->
               in_window (raw_image_content image m chunk k) 8 x ->
               ~ table_byte m chunk x)
  /\ (forall k k' x, k <> k' -> patched m chunk k -> patched m chunk k' ->
                     in_window (raw_image_content image m chunk k) 8 x ->
                     ~ in_window (raw_image_content image m chunk k') 8 x).

End RelocSpec.

(* ================================================================= *)
(** ** Well-typed ledger values *)

Module LedgerSpec.
Import Mem Ledger.

(** The memory types [efi_hook_AllocatePages] lets through. *)
Definition accepted (MemoryType : Z) : Prop :=
  MemoryType = EfiLoaderData \/ MemoryType = EfiConventionalMemory
  \/ MemoryType = EfiLoaderCode.

(** Every field holds a value of its C type. *)
Definition descriptor_ok (d : EFI_MEMORY_DESCRIPTOR) : Prop :=
  0 <= type d < 2 ^ 32 /\ 0 <= pad d < 2 ^ 32
  /\ 0 <= phys_addr d < 2 ^ 64 /\ 0 <= virt_addr d < 2 ^ 64
  /\ 0 <= num_pages d < 2 ^ 64 /\ 0 <= attribute d < 2 ^ 64
  /\ 0 <= pad2 d < 2 ^ 64.

(** The descriptor [efi_register_mem_allocation] builds. *)
Definition descriptor (MemoryType phys pages : Z) : EFI_MEMORY_DESCRIPTOR :=
  {| type := MemoryType; pad := 0; phys_addr := phys; virt_addr := 0;
     num_pages := pages; attribute := EFI_DEFAULT_MEM_ATTRIBUTES; pad2 := 0 |}.

(** The value of [n] little-endian bytes. *)
Fixpoint le_value (bytes : list Z) : Z :=
  match bytes with
  | [] => 0
  | b :: rest => b + 256 * le_value rest
  end.

End LedgerSpec.

(* ================================================================= *)
(** ** The 1:1 mapping step: [efi_setup_11_mapping] *)

(** The hooks of [Ledger] give the status, [*Memory] and the ledger of an
    allocation call that returns.  Between the allocation and its
    registration the source calls [efi_setup_11_mapping], which either
    returns or stops the kernel; this module has that step and the two
    allocation hooks with it. *)
Module Mapping.
Import Mem Ledger.

(** The fields of [struct vm_area_struct] that are read.  [pfn_remapped]
    is the truth value of
    [vm_flags & (VM_IO | VM_PFNMAP | VM_DONTEXPAND | VM_DONTDUMP)]. *)
Record vm_area_struct := {
  vm_start     : Z;
  vm_end       : Z;
  pfn_remapped : bool
}.

(** What [find_vma(mm, start)] answers during one call: [vma_found] on
    entry, [vma_mapped] after [do_mmap].  [None] is [NULL]. *)
Record mm_answers := {
  vma_found  : option vm_area_struct;
  vma_mapped : option vm_area_struct
}.

(** Modelled from the spec: [ALIGN] and [ALIGN_DOWN] are macros of the
    kernel headers, outside this file.  They give the next and the
    previous multiple of [a], a power of two, in [unsigned long]. *)
Definition ALIGN (x a : Z) : Z :=
  Z.land (wrap64 (x + (a - 1))) (Z.lnot (a - 1)).

Definition ALIGN_DOWN (x a : Z) : Z :=
  ALIGN (wrap64 (x - (a - 1))) a.

(** [phys] is [virt_to_phys(addr)].  The result tells whether the call
    returns: the log lines read [vma->vm_start] through the pointer
    [find_vma] gave, [NULL] or not, and each [BUG_ON] stops the kernel.
    [do_mmap] and [remap_pfn_range] change the address space of the
    process, which this file reads through [find_vma] only; what they
    return is not looked at. *)
Definition efi_setup_11_mapping (k : mm_answers) (phys size : Z) : bool :=
  let start := ALIGN_DOWN phys PAGE_SIZE in
  let end_ := ALIGN (wrap64 (phys + size)) PAGE_SIZE in
  match vma_found k with
  | None => false
  | Some vma =>
      if vm_start vma <=? start then
        let memory_is_pfn_remapped := pfn_remapped vma in
        if negb memory_is_pfn_remapped then false
        else if vm_end vma <? end_ then false
        else true
      else
        match vma_mapped k with
        | None => false
        | Some _ => true
        end
  end.

(** [None]: the call does not return. *)
Definition efi_hook_AllocatePool (s : efi_state) (pool_type size : Z)
    (buffer_in : Z) (h : host) (k : mm_answers)
  : option (efi_status_t * Z * efi_state) :=
  match kmalloc_phys h with
  | None => Some (EFI_OUT_OF_RESOURCES, buffer_in, s)
  | Some allocation =>
      if efi_setup_11_mapping k allocation size then
        Some (EFI_SUCCESS, wrap64 allocation,
              with_mappings s
                (efi_register_mem_allocation pool_type (NUM_PAGES size)
                   allocation (node_ok h) (efi_memory_mappings s)))
      else None
  end.

Definition efi_hook_AllocatePages (s : efi_state)
    (Type_ MemoryType NumberOfPages Memory : Z) (h : host) (k : mm_answers)
  : option (efi_status_t * Z * efi_state) :=
  if negb (MemoryType =? EfiLoaderData)
     && negb (MemoryType =? EfiConventionalMemory)
     && negb (MemoryType =? EfiLoaderCode)
  then Some (EFI_UNSUPPORTED, Memory, s)
  else if Type_ =? AllocateAddress then
    if efi_setup_11_mapping k (remap_phys h)
         (wrap64 (NumberOfPages * PAGE_SIZE))
    then
      Some (EFI_SUCCESS, Memory,
            with_mappings s
              (efi_register_mem_allocation MemoryType NumberOfPages
                 (remap_phys h) (node_ok h) (efi_memory_mappings s)))
    else None
  else if Type_ =? AllocateAnyPages then
    match efi_hook_AllocatePool s MemoryType
            (wrap64 (NumberOfPages * PAGE_SIZE)) 0 h k with
    | None => None
    | Some (st, phys_allocation, s') => Some (st, phys_allocation, s')
    end
  else Some (EFI_UNSUPPORTED, Memory, s).

End Mapping.

(* ================================================================= *)
(** ** The console-input protocol: [efi_hook_OpenProtocol] *)

Module Console.
Import Guid Ledger.

Definition CON_IN_HANDLE : Z := 0xdeadbeefcafebab1.

(** [con_in] is the address of the global [con_in]. *)
Definition efi_handle_protocol_SimpleTextInputExProtocol
    (con_in handle : Z) (interface : pointer) : efi_status_t * pointer :=
  if negb (handle =? CON_IN_HANDLE) then (EFI_UNSUPPORTED, interface)
  else (EFI_SUCCESS, address con_in).

(** [None]: the call does not return a status; as in
    [efi_hook_HandleProtocol] the log line formats [*Protocol]. *)
Definition efi_hook_OpenProtocol (con_in : Z) (UserHandle : Z)
    (Protocol : option EFI_GUID) (Interface : pointer)
    (ImageHandle ControllerHandle Attributes : Z)
  : option (efi_status_t * pointer) :=
  match GetGuidName Protocol with
  | None => None
  | Some (protocolName, _) =>
      match get_GUID_str Protocol with
      | None => None
      | Some _ =>
          if String.eqb protocolName "gEfiSimpleTextInputExProtocolGuid"
          then Some (efi_handle_protocol_SimpleTextInputExProtocol
                       con_in UserHandle Interface)
          else Some (EFI_UNSUPPORTED, Interface)
      end
  end.

Definition SimpleTextInputExProtocolGuid : EFI_GUID :=
  {| Data1 := 0xDD9E7534; Data2 := 0x7762; Data3 := 0x4698;
     Data4 := [0x8C; 0x14; 0xF5; 0x85; 0x17; 0xA6; 0x25; 0xAA] |}.

End Console.

(* ================================================================= *)
(** ** Wide strings: [efi_set_wstring_from_ascii], [wchar_to_ascii] *)

Module WString.
Import Mem.

(** The [for] loop of [efi_set_wstring_from_ascii] from index [i]: [i] is
    an [int], [i*2] is compared as [size_t]; [src[i]] is read again after
    the two stores.  [None] when [fuel] iterations were not enough. *)
Fixpoint set_wstring_loop (fuel : nat) (m : Mem.t)
    (dst src max_dst_size_bytes i : Z) : option Mem.t :=
  match fuel with
  | O => None
  | S fuel' =>
      if wrap64 (sint32 (i * 2)) <? max_dst_size_bytes then
        let m1 := store8 m (dst + sint32 (i * 2)) (load8 m (src + i)) in
        let m2 := store8 m1 (dst + sint32 (i * 2 + 1)) 0 in
        if load8 m2 (src + i) =? 0 then Some m2
        else set_wstring_loop fuel' m2 dst src max_dst_size_bytes
                              (sint32 (i + 1))
      else Some m
  end.

Definition efi_set_wstring_from_ascii (m : Mem.t)
    (dst src max_dst_size_bytes : Z) : option Mem.t :=
  set_wstring_loop (S (Z.to_nat max_dst_size_bytes)) m dst src
                   max_dst_size_bytes 0.

(** The [while] loop of [wchar_to_ascii]: [currIdx] is an [unsigned int]
    compared with the [size_t] [len]. *)
Fixpoint wchar_loop (fuel : nat) (m : Mem.t)
    (dst_ascii len src_wchar currIdx : Z) : option Mem.t :=
  match fuel with
  | O => None
  | S fuel' =>
      if currIdx <? len then
        let c := load8 m (src_wchar + wrap32 (currIdx * 2)) in
        if c =? 0 then Some m
        else wchar_loop fuel' (store8 m (dst_ascii + currIdx) c)
                        dst_ascii len src_wchar (wrap32 (currIdx + 1))
      else Some m
  end.

Definition wchar_to_ascii (m : Mem.t) (dst_ascii len src_wchar : Z)
  : option Mem.t :=
  wchar_loop (S (Z.to_nat len)) m dst_ascii len src_wchar 0.

(** Characters of a string: bytes other than NUL. *)
Definition text (s : list Z) : Prop := Forall (fun c => 1 <= c < 256) s.

(** Character [j] of [s], the terminating NUL included. *)
Definition char_at (s : list Z) (j : Z) : Z := nth (Z.to_nat j) s 0.

Definition len (s : list Z) : Z := Z.of_nat (length s).

(** The NUL-terminated string [s] lies at [a]. *)
Definition holds_cstring (m : Mem.t) (a : Z) (s : list Z) : Prop :=
  forall j, 0 <= j <= len s -> load8 m (a + j) = char_at s j.

(** The first [k] characters of [s] NUL (counting its terminator) lie at
    [a] as 16-bit units with a zero high byte. *)
Definition holds_wide (m : Mem.t) (a : Z) (s : list Z) (k : Z) : Prop :=
  forall j, 0 <= j < k ->
            load8 m (a + 2 * j) = char_at s j /\ load8 m (a + 2 * j + 1) = 0.

(** Number of 16-bit units [efi_set_wstring_from_ascii] writes. *)
Definition units (s : list Z) (max_dst_size_bytes : Z) : Z :=
  Z.min (len s + 1) ((max_dst_size_bytes + 1) / 2).

End WString.

(** The string ["EFI"] at [0x3000], with room for its wide form at
    [0x4000] and a narrow copy at [0x6000]. *)
Module WStringExample.

Definition s : list Z := [0x45; 0x46; 0x49].

Definition m : Mem.t := Mem.of_cells [(0x3000, 0x45); (0x3001, 0x46); (0x3002, 0x49)].

(** The same string in 16-bit units at [0x5000]. *)
Definition wide : Mem.t :=
  Mem.of_cells [(0x5000, 0x45); (0x5002, 0x46); (0x5004, 0x49)].

End WStringExample.

(* ================================================================= *)
(** ** Test data *)

(** A synthetic image and relocation chunk. *)
Module RelocExample.
Import Mem Reloc.

(** An image whose entry point [0x1001000] was placed at [0x20001000]:
    the image itself then sits at [0x20000000]. *)
Definition img : kimage :=
  {| start := 0x1001000; segment := []; raw_image := 0x20000000;
     raw_image_mem_base := 0x1000000; raw_image_start := 0x20001000 |}.

Definition chunk : Z := 0x5000.

(** One chunk for page [0x2000] with the single entry
    (type 10, offset [0x10]); the patched field holds [0x10001234]. *)
Definition m0 : Mem.t :=
  of_cells (cells_le 4 chunk 0x2000 ++ cells_le 4 (chunk + 4) 10
            ++ cells_le 2 (chunk + 8) 0xA010
            ++ cells_le 8 0x20002010 0x10001234).

(** The same chunk with page RVA [0xFFFFFFFF] and entry offset [1]. *)
Definition m_wrap : Mem.t :=
  of_cells (cells_le 4 chunk 0xFFFFFFFF ++ cells_le 4 (chunk + 4) 10
            ++ cells_le 2 (chunk + 8) 0xA001
            ++ cells_le 8 0x120000000 0x10000040).

(** The relocation segment: 32 bytes at [chunk]. *)
Definition seg : kexec_segment :=
  {| buf := chunk; bufsz := 0x20; mem := 0x1003000; memsz := 0x1000 |}.






End RelocExample.

(** Guest call sequences against the ledger. *)
Module LedgerExample.
Import Ledger.

(** [AllocatePages(AllocateAddress, EfiLoaderData, n, &a)], the re-map
    landing at [a]. *)
Definition alloc_at (a n : Z) : efi_call :=
  CallAllocatePages AllocateAddress EfiLoaderData n a (remap_at a).

(** The same page allocated twice at a fixed address. *)
Definition same_page_twice : list efi_call :=
  [alloc_at 0x100000 1; alloc_at 0x100000 1].

(** Two pages allocated and freed, then one page allocated inside the
    freed range. *)
Definition reuse_freed : list efi_call :=
  [alloc_at 0x1000 2; CallFreePages 0x1000 2; alloc_at 0x2000 1].

Definition page_at_1M : EFI_MEMORY_DESCRIPTOR :=
  {| type := EfiLoaderData; pad := 0; phys_addr := 0x100000;
     virt_addr := 0; num_pages := 1;
     attribute := EFI_DEFAULT_MEM_ATTRIBUTES; pad2 := 0 |}.

Definition freed_two_pages : EFI_MEMORY_DESCRIPTOR :=
  {| type := EfiConventionalMemory; pad := 0; phys_addr := 0x1000;
     virt_addr := 0; num_pages := 2;
     attribute := EFI_DEFAULT_MEM_ATTRIBUTES; pad2 := 0 |}.

Definition one_page : EFI_MEMORY_DESCRIPTOR :=
  {| type := EfiLoaderData; pad := 0; phys_addr := 0x2000;
     virt_addr := 0; num_pages := 1;
     attribute := EFI_DEFAULT_MEM_ATTRIBUTES; pad2 := 0 |}.

(** A ledger that already holds a freed and an active descriptor. *)
Definition used : efi_state :=
  with_mappings initial_state [freed_two_pages; one_page].

(** The pool [kmalloc] lands at [0x80000000] and the list node is there. *)
Definition pool_at_2G : host :=
  {| kmalloc_phys := Some 0x80000000; remap_phys := 0; node_ok := true |}.

(** Nothing is mapped at or below the address asked for: [find_vma]
    gives the stack, and after [do_mmap] the area [lo .. hi]. *)
Definition fresh_area (lo hi : Z) : Mapping.mm_answers :=
  {| Mapping.vma_found :=
       Some {| Mapping.vm_start := 0x7FFFFFFDE000;
               Mapping.vm_end := 0x7FFFFFFFF000;
               Mapping.pfn_remapped := false |};
     Mapping.vma_mapped :=
       Some {| Mapping.vm_start := lo; Mapping.vm_end := hi;
               Mapping.pfn_remapped := true |} |}.

(** One page at [0x100000] was mapped 1:1 by an earlier call. *)
Definition page_mapped_at_1M : Mapping.mm_answers :=
  {| Mapping.vma_found :=
       Some {| Mapping.vm_start := 0x100000; Mapping.vm_end := 0x101000;
               Mapping.pfn_remapped := true |};
     Mapping.vma_mapped := None |}.

End LedgerExample.

(** GUIDs to query the registry with. *)
Module GuidExample.
Import Guid.

(** A GUID the registry does not hold. *)
Definition unregistered : EFI_GUID :=
  {| Data1 := 0x12345678; Data2 := 0x9ABC; Data3 := 0xDEF0;
     Data4 := [0x01; 0x23; 0x45; 0x67; 0x89; 0xAB; 0xCD; 0xEF] |}.

(** The GUID of the first entry, [ResetVector]. *)
Definition reset_vector : EFI_GUID :=
  {| Data1 := 0x1BA0062E; Data2 := 0xC779; Data3 := 0x4582;
     Data4 := [0x85; 0x66; 0x33; 0x6A; 0xE8; 0xF7; 0x8F; 0x09] |}.

(** The all-zero GUID: entries 259 ([gZeroGuid]), 357 and 391 carry it. *)
Definition zero : EFI_GUID :=
  {| Data1 := 0; Data2 := 0; Data3 := 0;
     Data4 := [0; 0; 0; 0; 0; 0; 0; 0] |}.

End GuidExample.

(** A two-segment image whose first segment can be read in part only. *)
Module LoaderExample.

(** The page [0x7000 .. 0x7FFF] is not mapped. *)
Definition readable (a : Z) : bool := negb ((0x7000 <=? a) && (a <? 0x8000)).

(** 64 bytes of which the first 32 lie before the unmapped page. *)
Definition text : kexec_segment :=
  {| buf := 0x6FE0; bufsz := 0x40; mem := 0x1000000; memsz := 0x40 |}.

(** The relocation segment of [RelocExample], placed after [text]; its
    [memsz] makes the raw image reach past the field the chunk patches. *)
Definition reloc : kexec_segment :=
  {| buf := RelocExample.chunk; bufsz := 0x20; mem := 0x1000040;
     memsz := 0x3000 |}.

(** The memory of [RelocExample] with the bytes [4D 5A] at the head of
    the first segment's source. *)
Definition m0 : Mem.t :=
  Mem.store8 (Mem.store8 RelocExample.m0 0x6FE0 0x4D) 0x6FE1 0x5A.

Definition img : kimage :=
  {| start := 0x1001000; segment := [text; reloc]; raw_image := 0;
     raw_image_mem_base := 0; raw_image_start := 0 |}.

(** The image once [kimage_load_pe] has placed it at [0x20000000]. *)
Definition placed : kimage :=
  {| start := 0x1001000; segment := [text; reloc]; raw_image := 0x20000000;
     raw_image_mem_base := 0x1000000; raw_image_start := 0x20001000 |}.

End LoaderExample.

(* ================================================================= *)
(** * Properties *)

Ltac wrap_arith :=
  unfold Mem.wrap64, Mem.wrap32 in *;
  change (2 ^ 64) with 18446744073709551616 in *;
  change (2 ^ 32) with 4294967296 in *;
  Z.to_euclidean_division_equations; lia.

(** ** Memory accesses *)

Section MemFacts.
Import Mem.

Lemma wrap64_range z : 0 <= wrap64 z < 2 ^ 64.
Proof. unfold wrap64. apply Z.mod_pos_bound. lia. Qed.

Lemma wrap32_range z : 0 <= wrap32 z < 2 ^ 32.
Proof. unfold wrap32. apply Z.mod_pos_bound. lia. Qed.

Lemma wrap64_small z : 0 <= z < 2 ^ 64 -> wrap64 z = z.
Proof. intros. unfold wrap64. apply Z.mod_small. assumption. Qed.

Lemma wrap32_small z : 0 <= z < 2 ^ 32 -> wrap32 z = z.
Proof. intros. unfold wrap32. apply Z.mod_small. assumption. Qed.

Lemma wrap64_idem z : wrap64 (wrap64 z) = wrap64 z.
Proof. apply wrap64_small, wrap64_range. Qed.

Lemma wrap64_shift_neq a d : 0 < d < 2 ^ 64 -> wrap64 a <> wrap64 (a + d).
Proof. intros. wrap_arith. Qed.

Lemma load8_range m a : 0 <= load8 m a < 256.
Proof. unfold load8. apply Z.mod_pos_bound. lia. Qed.

Lemma load_le_range n : forall m a, 0 <= load_le n m a < 2 ^ (8 * Z.of_nat n).
Proof.
  induction n as [|n IH]; intros m a.
  - simpl. lia.
  - cbn [load_le].
    replace (2 ^ (8 * Z.of_nat (S n))) with (256 * 2 ^ (8 * Z.of_nat n)).
    + pose proof (load8_range m a). pose proof (IH m (a + 1)). nia.
    + rewrite Nat2Z.inj_succ.
      replace (8 * Z.succ (Z.of_nat n)) with (8 + 8 * Z.of_nat n) by lia.
      rewrite Z.pow_add_r by lia. reflexivity.
Qed.

Lemma store8_same m a v : store8 m a v (wrap64 a) = v mod 256.
Proof. unfold store8. rewrite Z.eqb_refl. reflexivity. Qed.

Lemma store8_other m a v x : x <> wrap64 a -> store8 m a v x = m x.
Proof.
  intros H. unfold store8. destruct (Z.eqb_spec x (wrap64 a)); congruence.
Qed.

(** A store leaves every address outside its window alone. *)
Lemma store_le_other n : forall m a v x,
    ~ in_window a n x -> store_le n m a v x = m x.
Proof.
  induction n as [|n IH]; intros m a v x H; [reflexivity|].
  cbn [store_le]. rewrite IH.
  - apply store8_other. intros ->. apply H. exists 0. split; [lia|].
    f_equal. lia.
  - intros (j & Hj & ->). apply H. exists (j + 1). split; [lia|].
    f_equal. lia.
Qed.

Lemma pow256_step v k :
  0 <= k ->
  v mod 256 + 256 * ((v / 256) mod 2 ^ (8 * k)) = v mod 2 ^ (8 * (k + 1)).
Proof.
  intros. replace (2 ^ (8 * (k + 1))) with (256 * 2 ^ (8 * k)).
  - rewrite Z.rem_mul_r by lia. lia.
  - rewrite Z.mul_add_distr_l, Z.pow_add_r by lia. lia.
Qed.

(** Reading back what was just stored. *)
Lemma load_store_le n : forall m a v,
    Z.of_nat n <= 2 ^ 64 ->
    load_le n (store_le n m a v) a = v mod 2 ^ (8 * Z.of_nat n).
Proof.
  induction n as [|n IH]; intros m a v Hn.
  - simpl. rewrite Z.mod_1_r. reflexivity.
  - cbn [load_le store_le]. rewrite IH by lia.
    unfold load8. rewrite store_le_other.
    + rewrite store8_same, Z.mod_mod by lia.
      rewrite Nat2Z.inj_succ. unfold Z.succ. apply pow256_step. lia.
    + intros (j & Hj & E).
      apply (wrap64_shift_neq a (1 + j)); [lia|].
      rewrite E. f_equal. lia.
Qed.

End MemFacts.

(** ** Relocation of one chunk *)


Section Relocation.
Import Mem Reloc.

Variable image : kimage.
Variable chunk : Z.

Lemma patch_entries_snoc n : forall k m,
    patch_entries image chunk (S n) k m
    = patch_entry image chunk (patch_entries image chunk n k m)
                  (k + Z.of_nat n).
Proof.
  induction n as [|n IH]; intros k m.
  - simpl. f_equal. lia.
  - change (patch_entries image chunk (S (S n)) k m)
      with (patch_entries image chunk (S n) (k + 1)
              (patch_entry image chunk m k)).
    rewrite IH. cbn [patch_entries]. f_equal.
    rewrite Nat2Z.inj_succ. lia.
Qed.

Lemma patch_entry_patched m k :
  should_patch m chunk k = true ->
  let target := raw_image_content image m chunk k in
  load_le 8 (patch_entry image chunk m k) target
  = wrap64 (load_le 8 m target - IMAGE_BASE + raw_image_vs_PE_bias image)
  /\ forall x, ~ in_window target 8 x -> patch_entry image chunk m k x = m x.
Proof.
  intros H target. unfold patch_entry. rewrite H. split.
  - rewrite load_store_le by (simpl; lia).
    unfold correct_value. fold target.
    change (2 ^ (8 * Z.of_nat 8)) with (2 ^ 64).
    apply wrap64_idem.
  - intros x Hx. apply store_le_other. exact Hx.
Qed.

Lemma patch_entry_skipped m k :
  should_patch m chunk k = false -> patch_entry image chunk m k = m.
Proof. intros H. unfold patch_entry. rewrite H. reflexivity. Qed.

End Relocation.

(** C4 (as amended).  Let [before] and [after] be memory just before and
    just after [parse_chunk_relocations] handles entry [k] of a chunk.  If
    the entry's type is 10, the 8-byte value at
    [bias + ((offset + page_rva) mod 2^32)] is replaced by
    [old - IMAGE_BASE + bias] (64-bit arithmetic) and no byte outside that
    field changes; an entry of any other type changes nothing.  The address
    is [bias + offset + page_rva] whenever [offset + page_rva < 2^32].  With
    [bias = 0x20000000], a field holding [0x10000000 + X] holds
    [0x20000000 + X] afterwards.  After the last entry, [after] is the
    result of [parse_chunk_relocations]. *)
Theorem parse_chunk_relocations_entry :
  forall (image : kimage) (chunk : Z) (m : Mem.t) (k : Z),
    0 <= k < Reloc.num_relocs m chunk ->
    let bias := Reloc.raw_image_vs_PE_bias image in
    let before := Reloc.patch_entries image chunk (Z.to_nat k) 0 m in
    let after := Reloc.patch_entries image chunk (Z.to_nat (k + 1)) 0 m in
    let e := Reloc.entry_at before chunk k in
    let rva := Reloc.va_offset before chunk in
    let target := Mem.wrap64 (bias + Mem.wrap32 (Reloc.entry_offset e + rva)) in
    (Reloc.entry_type e = Reloc.IMAGE_REL_BASED_DIR64 ->
       Mem.load_le 8 after target
       = Mem.wrap64 (Mem.load_le 8 before target - Reloc.IMAGE_BASE + bias)
       /\ (forall x, ~ Mem.in_window target 8 x -> after x = before x))
    /\ (Reloc.entry_type e <> Reloc.IMAGE_REL_BASED_DIR64 -> after = before)
    /\ (Reloc.entry_offset e + rva < 2 ^ 32 ->
        target = Mem.wrap64 (bias + Reloc.entry_offset e + rva))
    /\ (bias = 0x20000000 ->
        Reloc.entry_type e = Reloc.IMAGE_REL_BASED_DIR64 ->
        forall X, 0 <= X -> 0x20000000 + X < 2 ^ 64 ->
                  Mem.load_le 8 before target = 0x10000000 + X ->
                  Mem.load_le 8 after target = 0x20000000 + X)
    /\ (Reloc.num_relocs m chunk = k + 1 ->
        Reloc.parse_chunk_relocations chunk image m = after).
Proof.
  intros image chunk m k Hk bias before after e rva target.
  assert (Hafter : after = Reloc.patch_entry image chunk before k).
  { unfold after, before.
    replace (Z.to_nat (k + 1)) with (S (Z.to_nat k)) by lia.
    rewrite patch_entries_snoc. f_equal. lia. }
  assert (Htarget : target = Reloc.raw_image_content image before chunk k)
    by reflexivity.
  assert (Hpatched : Reloc.entry_type e = Reloc.IMAGE_REL_BASED_DIR64 ->
            Mem.load_le 8 after target
            = Mem.wrap64 (Mem.load_le 8 before target - Reloc.IMAGE_BASE + bias)
            /\ (forall x, ~ Mem.in_window target 8 x -> after x = before x)).
  { intros Ht. rewrite Hafter, Htarget.
    apply patch_entry_patched. unfold Reloc.should_patch. fold e.
    apply Z.eqb_eq. exact Ht. }
  split; [exact Hpatched|]. split; [|split; [|split]].
  - intros Ht. rewrite Hafter. apply patch_entry_skipped.
    unfold Reloc.should_patch. fold e. apply Z.eqb_neq. exact Ht.
  - intros Hsmall. unfold target. f_equal.
    assert (0 <= Reloc.entry_offset e) by (unfold Reloc.entry_offset; apply Z.land_nonneg; lia).
    assert (0 <= rva) by (unfold rva, Reloc.va_offset; apply load_le_range).
    rewrite wrap32_small by lia. lia.
  - intros Hb Ht X HX0 HX1 Hold.
    destruct (Hpatched Ht) as [Hnew _]. rewrite Hnew, Hold, Hb.
    unfold Reloc.IMAGE_BASE.
    replace (0x10000000 + X - 0x10000000 + 0x20000000) with (0x20000000 + X) by lia.
    apply wrap64_small. lia.
  - intros Hlast. unfold Reloc.parse_chunk_relocations, after.
    rewrite Hlast. reflexivity.
Qed.

(** The synthetic image of the specification: link base [0x10000000],
    image placed at [0x20000000], one absolute-64 entry whose field holds
    [0x10000000 + 0x1234]. *)
Lemma parse_chunk_relocations_entry_witness :
  Mem.load_le 8
    (Reloc.patch_entries RelocExample.img RelocExample.chunk 1 0 RelocExample.m0)
    0x20002010 = 0x20001234.
Proof.
  assert (Hk : 0 <= 0 < Reloc.num_relocs RelocExample.m0 RelocExample.chunk)
    by (vm_compute; split; [discriminate | reflexivity]).
  pose proof (parse_chunk_relocations_entry
                RelocExample.img RelocExample.chunk RelocExample.m0 0 Hk) as H.
  cbv zeta in H.
  destruct H as (_ & _ & _ & H & _).
  exact (H eq_refl eq_refl 0x1234 ltac:(lia) ltac:(vm_compute; reflexivity) eq_refl).
Defined.

(** The whole chunk of that image, run through [parse_chunk_relocations]. *)
Example parse_chunk_relocations_synthetic :
  Mem.load_le 8
    (Reloc.parse_chunk_relocations RelocExample.chunk RelocExample.img
       RelocExample.m0) 0x20002010 = 0x20001234.
Proof. vm_compute. reflexivity. Qed.

(** C4 as stated fails when [offset + page_rva] does not fit 32 bits: for
    page RVA [0xFFFFFFFF] and an absolute-64 entry at offset [1], the field
    at [bias + offset + page_rva] keeps its value. *)
Lemma parse_chunk_relocations_rva_wraps :
  let m := RelocExample.m_wrap in
  let chunk := RelocExample.chunk in
  let bias := Reloc.raw_image_vs_PE_bias RelocExample.img in
  let e := Reloc.entry_at m chunk 0 in
  let field := Mem.wrap64 (bias + Reloc.entry_offset e + Reloc.va_offset m chunk) in
  let after := Reloc.parse_chunk_relocations chunk RelocExample.img m in
  0 <= 0 < Reloc.num_relocs m chunk
  /\ Reloc.entry_type e = Reloc.IMAGE_REL_BASED_DIR64
  /\ Mem.load_le 8 after field
     <> Mem.wrap64 (Mem.load_le 8 m field - Reloc.IMAGE_BASE + bias).
Proof.
  vm_compute. split; [split; [discriminate | reflexivity]|].
  split; [reflexivity | discriminate].
Qed.

(** ** Lists *)


(** ** The chunk walk of [parse_reloc_table] *)

Section ChunkWalk.
Import Mem Reloc.

Variable send : Z.
Variable image : kimage.

Lemma total_size_range m c : 0 <= total_size m c < 2 ^ 32.
Proof. unfold total_size. apply (load_le_range 4). Qed.







Lemma walk_spec_visited c m vs c' m' :
  walk_spec send image c m vs c' m' -> 0 <= c ->
  Forall (fun v => 0 <= v < send) vs.
Proof.
  induction 1; intros Hc; constructor.
  - lia.
  - apply IHwalk_spec. apply wrap64_range.
Qed.



End ChunkWalk.




(** The walk over the synthetic relocation segment stops at a chunk of
    size zero. *)
Example parse_reloc_table_synthetic :
  match Reloc.parse_reloc_table 40 RelocExample.seg RelocExample.img
          RelocExample.m0 with
  | Some (visited, stop, m') =>
      visited = [0x5000] /\ stop = 0x500A
      /\ Mem.load_le 8 m' 0x20002010 = 0x20001234
  | None => False
  end.
Proof. vm_compute. auto. Qed.

(** ** The ledger: FreePages *)

Section FreePages.
Import Mem Ledger.

Lemma located_set_type d t a : located (set_type d t) a = located d a.
Proof. reflexivity. Qed.

Lemma unregister_twice l : forall a n l',
    efi_unregister_allocation l a n = (EFI_SUCCESS, l') ->
    efi_unregister_allocation l' a n = (EFI_SUCCESS, l')
    /\ exists before d after,
         l' = before ++ d :: after
         /\ type d = EfiConventionalMemory
         /\ num_pages d = n /\ located d a = true.
Proof.
  induction l as [|d rest IH]; intros a n l' H; cbn [efi_unregister_allocation] in H.
  - discriminate.
  - destruct (located d a) eqn:Hloc.
    + destruct (negb (offset_in_mapping d a =? 0) || negb (num_pages d =? n))
        eqn:Hexact; [discriminate|].
      inversion H; subst l'. split.
      * cbn [efi_unregister_allocation].
        rewrite located_set_type, Hloc.
        change (offset_in_mapping (set_type d EfiConventionalMemory) a)
          with (offset_in_mapping d a).
        change (num_pages (set_type d EfiConventionalMemory))
          with (num_pages d).
        rewrite Hexact. reflexivity.
      * exists [], (set_type d EfiConventionalMemory), rest.
        apply orb_false_elim in Hexact. destruct Hexact as [_ Hn].
        apply negb_false_iff, Z.eqb_eq in Hn.
        repeat split; assumption.
    + destruct (efi_unregister_allocation rest a n) as [st rest'] eqn:E.
      inversion H; subst st l'.
      destruct (IH a n rest' E) as (H1 & before & d0 & after & -> & Hd).
      split.
      * cbn [efi_unregister_allocation]. rewrite Hloc, H1. reflexivity.
      * exists (d :: before), d0, after. split; [reflexivity | exact Hd].
Qed.

Lemma located_in_range d a :
  fits d -> (located d a = true <-> in_range d a).
Proof.
  unfold fits, located, in_range, end_of_region. intros (H0 & H1 & H2).
  rewrite wrap64_small by (unfold PAGE_SIZE in *; lia).
  rewrite negb_true_iff, orb_false_iff, Z.ltb_ge, Z.leb_gt. tauto.
Qed.

Lemma exact_match d a n :
  fits d -> in_range d a ->
  (negb (offset_in_mapping d a =? 0) || negb (num_pages d =? n) = false
   <-> phys_addr d = a /\ num_pages d = n).
Proof.
  unfold fits, in_range, offset_in_mapping. intros (H0 & H1 & H2) Hin.
  rewrite wrap64_small by lia.
  rewrite orb_false_iff, !negb_false_iff, !Z.eqb_eq. lia.
Qed.

(** The scan is decided by the first descriptor whose range contains the
    address. *)
Lemma unregister_first_containing l : forall a n,
    Forall fits l ->
    (forall before d after,
        l = before ++ d :: after ->
        (forall d0, In d0 before -> ~ in_range d0 a) ->
        in_range d a ->
        (phys_addr d = a /\ num_pages d = n ->
         efi_unregister_allocation l a n
         = (EFI_SUCCESS, before ++ set_type d EfiConventionalMemory :: after))
        /\ (~ (phys_addr d = a /\ num_pages d = n) ->
            efi_unregister_allocation l a n = (EFI_INVALID_PARAMETER, l)))
    /\ ((forall d0, In d0 l -> ~ in_range d0 a) ->
        efi_unregister_allocation l a n = (EFI_INVALID_PARAMETER, l)).
Proof.
  induction l as [|d0 rest IH]; intros a n Hfits.
  - split.
    + intros [|? ?] d after H; discriminate.
    + reflexivity.
  - inversion Hfits as [|? ? Hd0 Hrest]; subst.
    destruct (IH a n Hrest) as [IH1 IH2]. split.
    + intros before d after Hl Hbefore Hin.
      destruct before as [|b before]; inversion Hl; subst.
      * cbn [efi_unregister_allocation app].
        rewrite (proj2 (located_in_range d a Hd0) Hin).
        pose proof (exact_match d a n Hd0 Hin) as Hex.
        split; intros Hm.
        -- rewrite (proj2 Hex Hm). reflexivity.
        -- destruct (negb (offset_in_mapping d a =? 0)
                     || negb (num_pages d =? n)) eqn:E; [reflexivity|].
           exfalso. apply Hm. apply Hex. reflexivity.
      * cbn [efi_unregister_allocation app].
        assert (Hb : located b a = false).
        { destruct (located b a) eqn:E; [|reflexivity]. exfalso.
          apply (Hbefore b); [left; reflexivity|].
          apply (located_in_range b a Hd0). exact E. }
        rewrite Hb.
        destruct (IH1 before d after eq_refl) as [Hs Hf]; auto.
        { intros x Hx. apply Hbefore. right. exact Hx. }
        split; intros Hm.
        -- rewrite (Hs Hm). reflexivity.
        -- rewrite (Hf Hm). reflexivity.
    + intros Hnone. cbn [efi_unregister_allocation].
      assert (Hb : located d0 a = false).
      { destruct (located d0 a) eqn:E; [|reflexivity]. exfalso.
        apply (Hnone d0); [left; reflexivity|].
        apply (located_in_range d0 a Hd0). exact E. }
      rewrite Hb, IH2; [reflexivity|].
      intros x Hx. apply Hnone. right. exact Hx.
Qed.

Lemma with_mappings_same s : with_mappings s (efi_memory_mappings s) = s.
Proof. destruct s. reflexivity. Qed.

End FreePages.

(** C2 (as amended).  In a ledger whose ranges lie inside the 64-bit
    address space, [free_pages(address, count)] is decided by the first
    descriptor, in ledger order, whose range contains [address]: if it
    starts at [address] and spans [count] pages it is re-tagged as free,
    nothing else changes and the call succeeds; if it does not, or if no
    range contains [address], the call returns [EFI_INVALID_PARAMETER] and
    the ledger is unchanged. *)
Theorem free_pages_first_containing :
  forall (s : Ledger.efi_state) (address count : Z),
    Forall Ledger.fits (Ledger.efi_memory_mappings s) ->
    (forall before d after,
        Ledger.efi_memory_mappings s = before ++ d :: after ->
        (forall d0, In d0 before -> ~ Ledger.in_range d0 address) ->
        Ledger.in_range d address ->
        (Ledger.phys_addr d = address /\ Ledger.num_pages d = count ->
         Ledger.efi_hook_FreePages s address count
         = (Ledger.EFI_SUCCESS,
            Ledger.with_mappings s
              (before ++ Ledger.set_type d Ledger.EfiConventionalMemory :: after)))
        /\ (~ (Ledger.phys_addr d = address /\ Ledger.num_pages d = count) ->
            Ledger.efi_hook_FreePages s address count
            = (Ledger.EFI_INVALID_PARAMETER, s)))
    /\ ((forall d0, In d0 (Ledger.efi_memory_mappings s) ->
                    ~ Ledger.in_range d0 address) ->
        Ledger.efi_hook_FreePages s address count
        = (Ledger.EFI_INVALID_PARAMETER, s)).
Proof.
  intros s address count Hfits.
  destruct (unregister_first_containing _ address count Hfits) as [H1 H2].
  unfold Ledger.efi_hook_FreePages. split.
  - intros before d after Hl Hb Hin.
    destruct (H1 before d after Hl Hb Hin) as [Hs Hf]. split; intros Hm.
    + rewrite (Hs Hm). reflexivity.
    + rewrite (Hf Hm), with_mappings_same. reflexivity.
  - intros Hnone. rewrite (H2 Hnone), with_mappings_same. reflexivity.
Qed.

(** C10.  A [free_pages] call that succeeded succeeds again with the same
    address and count: the ledger is left as it was, and it holds a
    descriptor tagged free, of [count] pages, in which the scan locates
    [address]. *)
Theorem free_pages_twice :
  forall (s s' : Ledger.efi_state) (address count : Z),
    Ledger.efi_hook_FreePages s address count = (Ledger.EFI_SUCCESS, s') ->
    Ledger.efi_hook_FreePages s' address count = (Ledger.EFI_SUCCESS, s')
    /\ exists before d after,
         Ledger.efi_memory_mappings s' = before ++ d :: after
         /\ Ledger.type d = Ledger.EfiConventionalMemory
         /\ Ledger.num_pages d = count
         /\ Ledger.located d address = true.
Proof.
  intros s s' address count H. unfold Ledger.efi_hook_FreePages in *.
  destruct (Ledger.efi_unregister_allocation (Ledger.efi_memory_mappings s)
              address count) as [st l'] eqn:E.
  inversion H; subst st s'. cbn [Ledger.with_mappings Ledger.efi_memory_mappings].
  destruct (unregister_twice _ _ _ _ E) as [H1 H2].
  rewrite H1. split; [reflexivity | exact H2].
Qed.

(** The ledger after allocate, free, allocate inside the freed range: the
    second free is decided by the freed two-page descriptor. *)
Lemma free_pages_first_containing_witness :
  Ledger.efi_hook_FreePages
    (Ledger.run Ledger.initial_state LedgerExample.reuse_freed) 0x1000 2
  = (Ledger.EFI_SUCCESS,
     Ledger.run Ledger.initial_state LedgerExample.reuse_freed).
Proof.
  pose (s := Ledger.run Ledger.initial_state LedgerExample.reuse_freed).
  assert (Hfits : Forall Ledger.fits (Ledger.efi_memory_mappings s)).
  { repeat constructor; vm_compute; congruence. }
  destruct (free_pages_first_containing s 0x1000 2 Hfits) as [H _].
  destruct (H [] LedgerExample.freed_two_pages [LedgerExample.one_page])
    as [Hs _].
  - reflexivity.
  - intros d0 [].
  - vm_compute. split; [discriminate | reflexivity].
  - apply Hs. split; reflexivity.
Defined.

(** C2 as stated fails in that ledger, whose active ranges are pairwise
    disjoint: the one-page descriptor spans exactly
    [[0x2000, 0x2000 + 1 * PAGE_SIZE)] and is active, yet
    [free_pages(0x2000, 1)] returns [EFI_INVALID_PARAMETER] and the
    descriptor stays active, because the freed two-page descriptor before
    it also contains [0x2000]. *)
Lemma free_pages_exact_match_rejected :
  let s := Ledger.run Ledger.initial_state LedgerExample.reuse_freed in
  let d := LedgerExample.one_page in
  In d (Ledger.efi_memory_mappings s)
  /\ Ledger.phys_addr d = 0x2000 /\ Ledger.num_pages d = 1
  /\ Ledger.active d
  /\ Ledger.active_disjoint (Ledger.efi_memory_mappings s)
  /\ Ledger.efi_hook_FreePages s 0x2000 1 = (Ledger.EFI_INVALID_PARAMETER, s).
Proof.
  cbv zeta. split; [right; left; reflexivity|].
  split; [reflexivity|]. split; [reflexivity|].
  split; [vm_compute; discriminate|]. split; [|reflexivity].
  change (Ledger.efi_memory_mappings
            (Ledger.run Ledger.initial_state LedgerExample.reuse_freed))
    with [LedgerExample.freed_two_pages; LedgerExample.one_page].
  repeat constructor. intros A. exfalso. apply A. reflexivity.
Qed.

Lemma free_pages_twice_witness :
  Ledger.efi_hook_FreePages
    (Ledger.run Ledger.initial_state LedgerExample.reuse_freed) 0x1000 2
  = (Ledger.EFI_SUCCESS,
     Ledger.run Ledger.initial_state LedgerExample.reuse_freed).
Proof.
  apply (free_pages_twice
           (Ledger.run Ledger.initial_state [LedgerExample.alloc_at 0x1000 2;
                                             LedgerExample.alloc_at 0x2000 1])).
  reflexivity.
Defined.

(** ** The ledger: disjointness of active ranges *)

Section Disjointness.
Import Mem Ledger.

Lemma ForallOrdPairs_snoc (A : Type) (R : A -> A -> Prop) l d :
  ForallOrdPairs R l -> Forall (fun x => R x d) l ->
  ForallOrdPairs R (l ++ [d]).
Proof.
  induction 1 as [|a l Ha Hl IH]; intros Hd.
  - repeat constructor.
  - inversion Hd; subst. cbn [app]. constructor.
    + apply Forall_app. split; [exact Ha | constructor; auto].
    + apply IH. assumption.
Qed.

Lemma unregister_retags l : forall a n,
    Forall2 retagged (snd (efi_unregister_allocation l a n)) l.
Proof.
  induction l as [|d rest IH]; intros a n; cbn [efi_unregister_allocation].
  - constructor.
  - assert (Hrest : Forall2 retagged rest rest).
    { clear. induction rest; constructor; [left; reflexivity | assumption]. }
    destruct (located d a).
    + destruct (negb (offset_in_mapping d a =? 0) || negb (num_pages d =? n));
        cbn [snd]; constructor; auto; [left | right]; reflexivity.
    + specialize (IH a n).
      destruct (efi_unregister_allocation rest a n) as [st rest'].
      cbn [snd] in *. constructor; [left; reflexivity | exact IH].
Qed.

Lemma retagged_pair d1' d1 d2' d2 :
  retagged d1' d1 -> retagged d2' d2 ->
  (active d1 -> active d2 -> disjoint d1 d2) ->
  active d1' -> active d2' -> disjoint d1' d2'.
Proof.
  intros [->| ->] [->| ->] H A1 A2; auto;
    exfalso; (apply A1; reflexivity) || (apply A2; reflexivity).
Qed.

Lemma active_disjoint_retagged l' l :
  Forall2 retagged l' l -> active_disjoint l -> active_disjoint l'.
Proof.
  unfold active_disjoint.
  induction 1 as [|d' d l' l Hd Hl IH]; intros H.
  - constructor.
  - inversion H as [|? ? Ha Hrest]; subst. constructor.
    + clear IH Hrest H. induction Hl as [|x' x l' l Hx Hl IHl].
      * constructor.
      * inversion Ha; subst. constructor.
        -- apply (retagged_pair d' d x' x); assumption.
        -- apply IHl. assumption.
    + apply IH. assumption.
Qed.

Lemma register_cases t n p node l :
  efi_register_mem_allocation t n p node l = l
  \/ exists d, efi_register_mem_allocation t n p node l = l ++ [d].
Proof.
  unfold efi_register_mem_allocation. destruct node; [right | left; reflexivity].
  eexists; reflexivity.
Qed.

(** A call leaves the list alone, appends one descriptor, or is a
    [FreePages]. *)
Lemma step_cases s c :
  efi_memory_mappings (step s c) = efi_memory_mappings s
  \/ (exists d, efi_memory_mappings (step s c) = efi_memory_mappings s ++ [d])
  \/ exists a n, c = CallFreePages a n.
Proof.
  destruct c as [t mt n a h|pt sz h|a n|b|sz b k]; cbn [step].
  - unfold efi_hook_AllocatePages.
    destruct (negb (mt =? EfiLoaderData) && negb (mt =? EfiConventionalMemory)
              && negb (mt =? EfiLoaderCode)); [left; reflexivity|].
    destruct (t =? AllocateAddress).
    + cbn [snd with_mappings efi_memory_mappings].
      destruct (register_cases mt n (remap_phys h) (node_ok h)
                  (efi_memory_mappings s)) as [E|[d E]]; rewrite E; eauto.
    + destruct (t =? AllocateAnyPages); [|left; reflexivity].
      unfold efi_hook_AllocatePool.
      destruct (kmalloc_phys h) as [p|]; [|left; reflexivity].
      cbn [snd with_mappings efi_memory_mappings].
      destruct (register_cases mt (NUM_PAGES (wrap64 (n * PAGE_SIZE))) p
                  (node_ok h) (efi_memory_mappings s)) as [E|[d E]];
        rewrite E; eauto.
  - unfold efi_hook_AllocatePool.
    destruct (kmalloc_phys h) as [p|]; [|left; reflexivity].
    cbn [snd with_mappings efi_memory_mappings].
    destruct (register_cases pt (NUM_PAGES sz) p (node_ok h)
                (efi_memory_mappings s)) as [E|[d E]]; rewrite E; eauto.
  - right; right; eauto.
  - left; reflexivity.
  - left; reflexivity.
Qed.

Lemma registered_snoc s c d :
  efi_memory_mappings (step s c) = efi_memory_mappings s ++ [d] ->
  registered s c = Some d.
Proof.
  intros E. unfold registered. rewrite E, length_app. cbn [length].
  replace (length (efi_memory_mappings s) <? length (efi_memory_mappings s) + 1)%nat
    with true by (symmetry; apply Nat.ltb_lt; lia).
  rewrite nth_error_app2 by lia. rewrite Nat.sub_diag. reflexivity.
Qed.

Lemma free_pages_mappings s a n :
  efi_memory_mappings (step s (CallFreePages a n))
  = snd (efi_unregister_allocation (efi_memory_mappings s) a n).
Proof.
  cbn [step]. unfold efi_hook_FreePages.
  destruct (efi_unregister_allocation (efi_memory_mappings s) a n).
  reflexivity.
Qed.

Lemma step_keeps_disjoint s c :
  active_disjoint (efi_memory_mappings s) ->
  (forall d, registered s c = Some d -> active d ->
             Forall (fun d0 => active d0 -> disjoint d0 d)
                    (efi_memory_mappings s)) ->
  active_disjoint (efi_memory_mappings (step s c)).
Proof.
  intros Hinv Hfresh.
  destruct (step_cases s c) as [E|[[d E]|(a & n & ->)]].
  - rewrite E. exact Hinv.
  - rewrite E. apply ForallOrdPairs_snoc; [exact Hinv|].
    apply Forall_forall. intros d0 Hin A0 Ad.
    specialize (Hfresh d (registered_snoc s c d E) Ad).
    rewrite Forall_forall in Hfresh. exact (Hfresh d0 Hin A0).
  - rewrite free_pages_mappings.
    apply (active_disjoint_retagged _ _ (unregister_retags _ a n) Hinv).
Qed.

Lemma run_keeps_disjoint calls : forall s,
    active_disjoint (efi_memory_mappings s) ->
    allocations_fresh s calls ->
    active_disjoint (efi_memory_mappings (run s calls))
    /\ forall n, allocations_fresh s (firstn n calls).
Proof.
  induction calls as [|c calls IH]; intros s Hinv Hfresh.
  - split; [exact Hinv|]. intros [|n]; exact I.
  - destruct Hfresh as [Hc Hrest].
    destruct (IH (step s c) (step_keeps_disjoint s c Hinv Hc) Hrest)
      as [H1 H2].
    split; [exact H1|]. intros [|n]; [exact I|].
    cbn [firstn allocations_fresh]. split; [exact Hc | apply H2].
Qed.

End Disjointness.

(** C1 (as amended).  The ledger never checks a new range against the
    ranges it holds.  Starting from a ledger whose active ranges are
    pairwise disjoint, after every prefix of a sequence of calls the active
    ranges are still pairwise disjoint, provided each allocation registers
    a range that meets no range active at that moment; [free_pages] and the
    other calls need no such condition. *)
Theorem active_ranges_disjoint :
  forall (s : Ledger.efi_state) (calls : list Ledger.efi_call),
    Ledger.active_disjoint (Ledger.efi_memory_mappings s) ->
    Ledger.allocations_fresh s calls ->
    forall n,
      Ledger.active_disjoint
        (Ledger.efi_memory_mappings (Ledger.run s (firstn n calls))).
Proof.
  intros s calls Hinv Hfresh n.
  destruct (run_keeps_disjoint calls s Hinv Hfresh) as [_ Hpre].
  exact (proj1 (run_keeps_disjoint (firstn n calls) s Hinv (Hpre n))).
Qed.

Lemma active_ranges_disjoint_witness :
  Ledger.active_disjoint
    (Ledger.efi_memory_mappings
       (Ledger.run Ledger.initial_state (firstn 3 LedgerExample.reuse_freed))).
Proof.
  apply (active_ranges_disjoint Ledger.initial_state LedgerExample.reuse_freed).
  - constructor.
  - cbn [Ledger.allocations_fresh LedgerExample.reuse_freed].
    split; [|split; [|split; [|exact I]]].
    + intros d _ _. constructor.
    + intros d H. vm_compute in H. discriminate.
    + intros d _ _. constructor; [|constructor].
      intros A. exfalso. apply A. reflexivity.
Defined.

(** C1 as stated fails: two [allocate_pages] calls at the same fixed
    address leave two active descriptors over the same page. *)
Lemma allocate_pages_same_address_overlap :
  ~ Ledger.active_disjoint
      (Ledger.efi_memory_mappings
         (Ledger.run Ledger.initial_state LedgerExample.same_page_twice)).
Proof.
  change (Ledger.efi_memory_mappings
            (Ledger.run Ledger.initial_state LedgerExample.same_page_twice))
    with [LedgerExample.page_at_1M; LedgerExample.page_at_1M].
  unfold Ledger.active_disjoint. intros H.
  inversion H as [|d l Hd _]. inversion Hd as [|d' l' Hdd _].
  assert (Ha : Ledger.active LedgerExample.page_at_1M)
    by (vm_compute; discriminate).
  apply (Hdd Ha Ha 0x100000). vm_compute. repeat split; discriminate.
Qed.

(** ** The ledger: GetMemoryMap *)

Section GetMemoryMap.
Import Mem Ledger.

Lemma le_bytes_length n : forall v, length (le_bytes n v) = n.
Proof. induction n; intros v; cbn [le_bytes length]; auto. Qed.

Lemma descriptor_bytes_length d :
  Z.of_nat (length (descriptor_bytes d)) = sizeof_descriptor.
Proof.
  unfold descriptor_bytes. rewrite !length_app, !le_bytes_length.
  reflexivity.
Qed.

Lemma flat_map_bytes_length l :
  Z.of_nat (length (flat_map descriptor_bytes l))
  = Z.of_nat (length l) * sizeof_descriptor.
Proof.
  induction l as [|d l IH]; [reflexivity|].
  cbn [flat_map]. rewrite length_app, Nat2Z.inj_add, IH, descriptor_bytes_length.
  cbn [length]. lia.
Qed.

(** [memcpy] replaces the bytes that follow the first [off]. *)
Lemma memcpy_middle (done old rest bytes : list Z) :
  length old = length bytes ->
  memcpy (done ++ old ++ rest) (Z.of_nat (length done)) bytes
  = done ++ bytes ++ rest.
Proof.
  intros Hlen. unfold memcpy. rewrite Nat2Z.id.
  rewrite firstn_app, Nat.sub_diag, firstn_all. cbn [firstn].
  rewrite app_nil_r. f_equal. f_equal.
  rewrite skipn_app, skipn_all2 by lia. cbn [app].
  replace (length done + length bytes - length done)%nat
    with (length old) by lia.
  rewrite skipn_app, skipn_all, Nat.sub_diag. reflexivity.
Qed.

(** The copy loop lays the descriptors out one after the other. *)
Lemma copy_descriptors_layout l : forall done rest,
    (Z.of_nat (length l) * sizeof_descriptor <= Z.of_nat (length rest)) ->
    copy_descriptors l (Z.of_nat (length done)) (done ++ rest)
    = (Z.of_nat (length done) + Z.of_nat (length l) * sizeof_descriptor,
       done ++ flat_map descriptor_bytes l
            ++ skipn (length (flat_map descriptor_bytes l)) rest).
Proof.
  induction l as [|d l IH]; intros done rest Hlen.
  - cbn. f_equal. lia.
  - cbn [copy_descriptors flat_map].
    pose proof (descriptor_bytes_length d) as Hd.
    cbn [length] in Hlen. unfold sizeof_descriptor in *.
    rewrite <- (firstn_skipn 48 rest) at 1.
    rewrite memcpy_middle
      by (rewrite firstn_length_le by lia; lia).
    replace (Z.of_nat (length done) + 48)
      with (Z.of_nat (length (done ++ descriptor_bytes d)))
      by (rewrite length_app; lia).
    rewrite app_assoc, IH by (rewrite length_skipn; lia).
    f_equal.
    + rewrite length_app. cbn [length]. lia.
    + rewrite <- !app_assoc. f_equal. f_equal. f_equal.
      rewrite skipn_skipn, length_app. f_equal. lia.
Qed.

Lemma mem_map_size_exact s :
  Z.of_nat (length (efi_memory_mappings s)) < 2 ^ 32 ->
  efi_get_mem_map_size s
  = Z.of_nat (length (efi_memory_mappings s)) * sizeof_descriptor.
Proof.
  intros H. unfold efi_get_mem_map_size.
  rewrite wrap32_small by lia.
  apply wrap64_small. unfold sizeof_descriptor. lia.
Qed.

Lemma step_epoch s c : efi_mem_map_epoch (step s c) = efi_mem_map_epoch s.
Proof.
  destruct c as [t mt n a h|pt sz h|a n|b|sz b k]; cbn [step].
  - unfold efi_hook_AllocatePages, efi_hook_AllocatePool.
    destruct (negb (mt =? EfiLoaderData) && negb (mt =? EfiConventionalMemory)
              && negb (mt =? EfiLoaderCode)); [reflexivity|].
    destruct (t =? AllocateAddress); [reflexivity|].
    destruct (t =? AllocateAnyPages); [|reflexivity].
    destruct (kmalloc_phys h); reflexivity.
  - unfold efi_hook_AllocatePool. destruct (kmalloc_phys h); reflexivity.
  - unfold efi_hook_FreePages.
    destruct (efi_unregister_allocation _ a n). reflexivity.
  - reflexivity.
  - reflexivity.
Qed.

(** No boot-service call writes [efi_mem_map_epoch]. *)
Lemma run_epoch calls : forall s,
    efi_mem_map_epoch (run s calls) = efi_mem_map_epoch s.
Proof.
  induction calls as [|c calls IH]; intros s; [reflexivity|].
  cbn [run fold_left]. fold (run (step s c) calls).
  rewrite IH. apply step_epoch.
Qed.

Lemma get_memory_map_key s sz b k :
  status (efi_hook_GetMemoryMap s sz b k) = EFI_SUCCESS ->
  MapKey (efi_hook_GetMemoryMap s sz b k) = efi_mem_map_epoch s.
Proof.
  unfold efi_hook_GetMemoryMap.
  destruct (sz <? efi_get_mem_map_size s); [discriminate|].
  destruct (copy_descriptors _ 0 b). reflexivity.
Qed.

End GetMemoryMap.

(** C3.  For a ledger of [n] descriptors ([n] fits the 32-bit counter of
    [efi_get_mem_map_size]): a size below [n * 48] gives
    [EFI_BUFFER_TOO_SMALL], the required size [n * 48] and an untouched
    buffer; otherwise, the buffer being as large as declared, the call
    succeeds, the buffer starts with the descriptors' bytes in ledger
    order, free and active alike, the bytes after them are untouched, and
    the size reported is [n * 48], the number of bytes written. *)
Theorem get_memory_map_two_call :
  forall (s : Ledger.efi_state) (size : Z) (buffer : list Z) (key : Z),
    let n := Z.of_nat (length (Ledger.efi_memory_mappings s)) in
    let r := Ledger.efi_hook_GetMemoryMap s size buffer key in
    let image := flat_map Ledger.descriptor_bytes (Ledger.efi_memory_mappings s) in
    n < 2 ^ 32 ->
    (size < n * Ledger.sizeof_descriptor ->
       Ledger.status r = Ledger.EFI_BUFFER_TOO_SMALL
       /\ Ledger.MemoryMapSize r = n * Ledger.sizeof_descriptor
       /\ Ledger.MemoryMap r = buffer)
    /\ (n * Ledger.sizeof_descriptor <= size ->
        size <= Z.of_nat (length buffer) ->
        Ledger.status r = Ledger.EFI_SUCCESS
        /\ Ledger.MemoryMapSize r = n * Ledger.sizeof_descriptor
        /\ Ledger.MemoryMap r = image ++ skipn (length image) buffer
        /\ Z.of_nat (length image) = n * Ledger.sizeof_descriptor
        /\ Ledger.DescriptorSize r = Ledger.sizeof_descriptor).
Proof.
  intros s size buffer key n r image Hn.
  pose proof (mem_map_size_exact s Hn) as Hsize. fold n in Hsize.
  unfold r, Ledger.efi_hook_GetMemoryMap. rewrite Hsize. split.
  - intros Hsmall.
    destruct (Z.ltb_spec size (n * Ledger.sizeof_descriptor)); [|lia].
    cbn. auto.
  - intros Hbig Hbuf.
    destruct (Z.ltb_spec size (n * Ledger.sizeof_descriptor)); [lia|].
    pose proof (copy_descriptors_layout (Ledger.efi_memory_mappings s) []
                  buffer) as Hcopy.
    cbn [length app Z.of_nat] in Hcopy. fold n in Hcopy.
    rewrite Hcopy by lia. cbn.
    split; [reflexivity|]. split.
    + apply wrap64_small. unfold Ledger.sizeof_descriptor. lia.
    + split; [reflexivity|]. split; [apply flat_map_bytes_length | reflexivity].
Qed.

(** The two-call sequence on a ledger of two descriptors: the first call
    learns the size, the second one, with a buffer of that size,
    succeeds. *)
Lemma get_memory_map_two_call_witness :
  let s := Ledger.run Ledger.initial_state LedgerExample.reuse_freed in
  let first := Ledger.efi_hook_GetMemoryMap s 0 [] 0 in
  let second := Ledger.efi_hook_GetMemoryMap s (Ledger.MemoryMapSize first)
                  (repeat 0xFF 96) 0 in
  (Ledger.status first = Ledger.EFI_BUFFER_TOO_SMALL
   /\ Ledger.MemoryMapSize first = 2 * Ledger.sizeof_descriptor
   /\ Ledger.MemoryMap first = [])
  /\ Ledger.status second = Ledger.EFI_SUCCESS
  /\ Ledger.MemoryMapSize second = 2 * Ledger.sizeof_descriptor.
Proof.
  cbv zeta.
  pose (s := Ledger.run Ledger.initial_state LedgerExample.reuse_freed).
  assert (Hn : Z.of_nat (length (Ledger.efi_memory_mappings s)) < 2 ^ 32)
    by (vm_compute; reflexivity).
  split.
  - apply (get_memory_map_two_call s 0 [] 0 Hn). vm_compute. reflexivity.
  - destruct (get_memory_map_two_call s 96 (repeat 0xFF 96) 0 Hn) as [_ H].
    destruct H as (H1 & H2 & _).
    + vm_compute. discriminate.
    + vm_compute. discriminate.
    + split; [exact H1 | exact H2].
Defined.

(** C8 (as amended).  Nothing writes [efi_mem_map_epoch]: in a session
    started from the initial state, every successful [get_memory_map]
    returns the map key [0], so the key of a later call equals the key of
    an earlier one. *)
Theorem map_key_constant :
  forall (calls1 calls2 : list Ledger.efi_call)
         (size1 : Z) (buffer1 : list Z) (key1 : Z)
         (size2 : Z) (buffer2 : list Z) (key2 : Z),
    let s1 := Ledger.run Ledger.initial_state calls1 in
    let r1 := Ledger.efi_hook_GetMemoryMap s1 size1 buffer1 key1 in
    let s2 := Ledger.run s1 calls2 in
    let r2 := Ledger.efi_hook_GetMemoryMap s2 size2 buffer2 key2 in
    Ledger.status r1 = Ledger.EFI_SUCCESS ->
    Ledger.status r2 = Ledger.EFI_SUCCESS ->
    Ledger.MapKey r2 = Ledger.MapKey r1 /\ Ledger.MapKey r1 = 0.
Proof.
  intros calls1 calls2 size1 buffer1 key1 size2 buffer2 key2 s1 r1 s2 r2 H1 H2.
  unfold r1, r2. rewrite (get_memory_map_key _ _ _ _ H1).
  rewrite (get_memory_map_key _ _ _ _ H2).
  unfold s2, s1. rewrite !run_epoch. split; reflexivity.
Qed.

Lemma map_key_constant_witness :
  let s1 := Ledger.run Ledger.initial_state [] in
  let s2 := Ledger.run s1 LedgerExample.reuse_freed in
  Ledger.MapKey (Ledger.efi_hook_GetMemoryMap s2 96 (repeat 0 96) 7)
  = Ledger.MapKey (Ledger.efi_hook_GetMemoryMap s1 0 [] 5).
Proof.
  cbv zeta.
  apply (map_key_constant [] LedgerExample.reuse_freed 0 [] 5 96 (repeat 0 96) 7);
    vm_compute; reflexivity.
Defined.

(** C8 as stated fails: a successful call before and a successful call
    after three ledger operations return the same map key. *)
Lemma map_key_not_increasing :
  let s1 := Ledger.initial_state in
  let r1 := Ledger.efi_hook_GetMemoryMap s1 0 [] 5 in
  let s2 := Ledger.run s1 LedgerExample.reuse_freed in
  let r2 := Ledger.efi_hook_GetMemoryMap s2 96 (repeat 0 96) 7 in
  Ledger.status r1 = Ledger.EFI_SUCCESS
  /\ Ledger.status r2 = Ledger.EFI_SUCCESS
  /\ ~ Ledger.MapKey r2 > Ledger.MapKey r1.
Proof.
  vm_compute. split; [reflexivity|]. split; [reflexivity|].
  intros H. discriminate H.
Qed.

(** ** The GUID registry *)

Section GuidFacts.
Import Mem Guid.

Lemma sint32_range z : - 2 ^ 31 <= sint32 z < 2 ^ 31.
Proof.
  unfold sint32. pose proof (wrap32_range z).
  destruct (Z.ltb_spec (wrap32 z) (2 ^ 31)); lia.
Qed.

Lemma sint32_inj a b :
  0 <= a < 2 ^ 32 -> 0 <= b < 2 ^ 32 -> sint32 a = sint32 b -> a = b.
Proof.
  intros Ha Hb. unfold sint32.
  rewrite !wrap32_small by assumption.
  destruct (Z.ltb_spec a (2 ^ 31)), (Z.ltb_spec b (2 ^ 31)); lia.
Qed.

Lemma sub32_zero a b :
  - 2 ^ 31 <= a < 2 ^ 31 -> - 2 ^ 31 <= b < 2 ^ 31 ->
  sub32 a b = 0 -> a = b.
Proof.
  intros Ha Hb. unfold sub32, sint32.
  destruct (Z.ltb_spec (wrap32 (a - b)) (2 ^ 31)) as [Hlt|Hge]; intros E.
  - wrap_arith.
  - pose proof (wrap32_range (a - b)). lia.
Qed.

Lemma sub32_diag a : sub32 a a = 0.
Proof. unfold sub32. rewrite Z.sub_diag. reflexivity. Qed.

Lemma word_range g i : - 2 ^ 31 <= word g i < 2 ^ 31.
Proof.
  destruct i as [|[|[|i]]]; cbn [word]; apply sint32_range.
Qed.

Lemma CompareGuid_refl g : CompareGuid g g = 0.
Proof. unfold CompareGuid. rewrite !sub32_diag. reflexivity. Qed.

Lemma CompareGuid_words g1 g2 :
  CompareGuid g1 g2 = 0 ->
  word g1 0 = word g2 0 /\ word g1 1 = word g2 1
  /\ word g1 2 = word g2 2 /\ word g1 3 = word g2 3.
Proof.
  unfold CompareGuid. intros H.
  apply Z.lor_eq_0_iff in H. destruct H as [H H3].
  apply Z.lor_eq_0_iff in H. destruct H as [H H2].
  apply Z.lor_eq_0_iff in H. destruct H as [H0 H1].
  repeat split; apply sub32_zero; auto using word_range.
Qed.

Lemma guid_ok_bytes g :
  guid_ok g ->
  exists b0 b1 b2 b3 b4 b5 b6 b7,
    Data4 g = [b0; b1; b2; b3; b4; b5; b6; b7]
    /\ Forall (fun b => 0 <= b < 256) [b0; b1; b2; b3; b4; b5; b6; b7].
Proof.
  intros (_ & _ & _ & Hlen & Hall).
  destruct (Data4 g) as [|b0 [|b1 [|b2 [|b3 [|b4 [|b5 [|b6 [|b7 [|? ?]]]]]]]]];
    try discriminate.
  exists b0, b1, b2, b3, b4, b5, b6, b7. split; [reflexivity | exact Hall].
Qed.

(** Four bytes are determined by the word they form. *)
Lemma four_bytes_inj a0 a1 a2 a3 b0 b1 b2 b3 :
  Forall (fun b => 0 <= b < 256) [a0; a1; a2; a3] ->
  Forall (fun b => 0 <= b < 256) [b0; b1; b2; b3] ->
  sint32 (a0 + 2 ^ 8 * a1 + 2 ^ 16 * a2 + 2 ^ 24 * a3)
  = sint32 (b0 + 2 ^ 8 * b1 + 2 ^ 16 * b2 + 2 ^ 24 * b3) ->
  a0 = b0 /\ a1 = b1 /\ a2 = b2 /\ a3 = b3.
Proof.
  intros Ha Hb H.
  repeat match goal with
         | F : Forall _ (_ :: _) |- _ => inversion F; clear F; subst
         end.
  apply sint32_inj in H; lia.
Qed.

(** On well-formed GUIDs a zero result means equality. *)
Lemma CompareGuid_eq g1 g2 :
  guid_ok g1 -> guid_ok g2 -> CompareGuid g1 g2 = 0 -> g1 = g2.
Proof.
  intros Hok1 Hok2 H.
  destruct (CompareGuid_words g1 g2 H) as (W0 & W1 & W2 & W3).
  destruct (guid_ok_bytes g1 Hok1) as (a0 & a1 & a2 & a3 & a4 & a5 & a6 & a7 & Ea & Ha).
  destruct (guid_ok_bytes g2 Hok2) as (b0 & b1 & b2 & b3 & b4 & b5 & b6 & b7 & Eb & Hb).
  destruct Hok1 as (R1 & R2 & R3 & _). destruct Hok2 as (S1 & S2 & S3 & _).
  cbn [word] in W0, W1, W2, W3. unfold byte4 in W2, W3.
  rewrite Ea, Eb in W2, W3. cbn [nth] in W2, W3.
  apply sint32_inj in W0; [|assumption|assumption].
  apply sint32_inj in W1; [|lia|lia].
  assert (Ha47 : Forall (fun b => 0 <= b < 256) [a4; a5; a6; a7]).
  { apply Forall_forall. intros x Hx. rewrite Forall_forall in Ha.
    apply Ha. do 4 right. exact Hx. }
  assert (Ha03 : Forall (fun b => 0 <= b < 256) [a0; a1; a2; a3]).
  { apply Forall_forall. intros x Hx. rewrite Forall_forall in Ha.
    apply Ha. cbn in Hx |- *. tauto. }
  assert (Hb47 : Forall (fun b => 0 <= b < 256) [b4; b5; b6; b7]).
  { apply Forall_forall. intros x Hx. rewrite Forall_forall in Hb.
    apply Hb. do 4 right. exact Hx. }
  assert (Hb03 : Forall (fun b => 0 <= b < 256) [b0; b1; b2; b3]).
  { apply Forall_forall. intros x Hx. rewrite Forall_forall in Hb.
    apply Hb. cbn in Hx |- *. tauto. }
  destruct (four_bytes_inj _ _ _ _ _ _ _ _ Ha03 Hb03 W2) as (? & ? & ? & ?).
  destruct (four_bytes_inj _ _ _ _ _ _ _ _ Ha47 Hb47 W3) as (? & ? & ? & ?).
  destruct g1 as [x1 x2 x3 x4], g2 as [y1 y2 y3 y4].
  cbn [Data1 Data2 Data3 Data4] in *. subst.
  f_equal; lia.
Qed.

Lemma guid_okb_ok g : guid_okb g = true -> guid_ok g.
Proof.
  unfold guid_okb, guid_ok. rewrite !andb_true_iff.
  intros [[[[[[[H1 H2] H3] H4] H5] H6] H7] H8].
  rewrite Z.leb_le in H1, H3, H5. rewrite Z.ltb_lt in H2, H4, H6.
  apply Nat.eqb_eq in H7. rewrite forallb_forall in H8.
  repeat split; try assumption.
  apply Forall_forall. intros b Hb. specialize (H8 b Hb).
  apply andb_true_iff in H8. destruct H8 as [Hlo Hhi].
  apply Z.leb_le in Hlo. apply Z.ltb_lt in Hhi. lia.
Qed.

Lemma bytes_eqb_eq l1 : forall l2, bytes_eqb l1 l2 = true -> l1 = l2.
Proof.
  induction l1 as [|a l1 IH]; intros [|b l2] H; try discriminate.
  - reflexivity.
  - cbn [bytes_eqb] in H. apply andb_true_iff in H. destruct H as [Hab H].
    apply Z.eqb_eq in Hab. subst b. f_equal. apply IH. exact H.
Qed.

Lemma guid_eqb_eq g1 g2 : guid_eqb g1 g2 = true -> g1 = g2.
Proof.
  unfold guid_eqb. rewrite !andb_true_iff. intros [[[H1 H2] H3] H4].
  apply Z.eqb_eq in H1, H2, H3. apply bytes_eqb_eq in H4.
  destruct g1, g2. cbn in *. subst. reflexivity.
Qed.

(** Facts read off the table by evaluation. *)
Lemma table_length : length GuidMappings = NUM_GUID_MAPPINGS.
Proof. reflexivity. Qed.

Lemma table_ok : forall e, In e GuidMappings -> guid_ok (Guid e).
Proof.
  assert (H : forallb (fun e => guid_okb (Guid e)) GuidMappings = true)
    by (vm_compute; reflexivity).
  rewrite forallb_forall in H. intros e He. apply guid_okb_ok, H, He.
Qed.

Lemma name_belongs_to_sound name g :
  name_belongs_to name g = true ->
  forall e, In e GuidMappings -> Name e = name -> Guid e = g.
Proof.
  unfold name_belongs_to. rewrite forallb_forall. intros H e He Hn.
  specialize (H e He). rewrite Hn, String.eqb_refl in H.
  apply guid_eqb_eq. exact H.
Qed.

Lemma loaded_image_name e :
  In e GuidMappings -> Name e = "gEfiLoadedImageProtocolGuid"%string ->
  Guid e = LoadedImageProtocolGuid.
Proof. apply name_belongs_to_sound. vm_compute. reflexivity. Qed.

Lemma device_path_name e :
  In e GuidMappings -> Name e = "gEfiDevicePathProtocolGuid"%string ->
  Guid e = DevicePathProtocolGuid.
Proof. apply name_belongs_to_sound. vm_compute. reflexivity. Qed.

(** The loop never reads outside the array and compares at most the
    entries that are left. *)
Lemma scan_total g remaining : forall i,
    (i + remaining <= length GuidMappings)%nat ->
    exists name k,
      scan g remaining i = Some (name, k) /\ (k <= i + remaining)%nat.
Proof.
  induction remaining as [|r IH]; intros i Hi; cbn [scan].
  - eexists _, _. split; [reflexivity | lia].
  - destruct (nth_error GuidMappings i) as [e|] eqn:E.
    + destruct (CompareGuid g (Guid e) =? 0).
      * eexists _, _. split; [reflexivity | lia].
      * destruct (IH (S i)) as (name & k & H & Hk); [lia|].
        exists name, k. split; [exact H | lia].
    + apply nth_error_None in E. lia.
Qed.

Lemma scan_hit g e i remaining : forall i0,
    nth_error GuidMappings i = Some e ->
    CompareGuid g (Guid e) = 0 ->
    (forall j e', (i0 <= j < i)%nat -> nth_error GuidMappings j = Some e' ->
                  CompareGuid g (Guid e') <> 0) ->
    (i0 <= i < i0 + remaining)%nat ->
    scan g remaining i0 = Some (Name e, S i).
Proof.
  induction remaining as [|r IH]; intros i0 He Hz Hbefore Hi; [lia|].
  cbn [scan]. destruct (Nat.eq_dec i0 i) as [->|Hne].
  - rewrite He, Hz. reflexivity.
  - destruct (nth_error GuidMappings i0) as [e'|] eqn:E.
    + pose proof (Hbefore i0 e' ltac:(lia) E) as Hnz.
      apply Z.eqb_neq in Hnz. rewrite Hnz.
      apply IH; auto; [|lia].
      intros j e'' Hj. apply Hbefore. lia.
    + apply nth_error_None in E.
      assert (i < length GuidMappings)%nat
        by (apply nth_error_Some; congruence).
      lia.
Qed.

Lemma scan_miss g remaining : forall i0,
    (i0 + remaining = length GuidMappings)%nat ->
    (forall j e', (i0 <= j)%nat -> nth_error GuidMappings j = Some e' ->
                  CompareGuid g (Guid e') <> 0) ->
    scan g remaining i0 = Some ("<Unknown>"%string, length GuidMappings).
Proof.
  induction remaining as [|r IH]; intros i0 Hlen Hall; cbn [scan].
  - f_equal. f_equal. lia.
  - destruct (nth_error GuidMappings i0) as [e'|] eqn:E.
    + pose proof (Hall i0 e' (le_n _) E) as Hnz.
      apply Z.eqb_neq in Hnz. rewrite Hnz.
      apply IH; [lia|]. intros j e'' Hj. apply Hall. lia.
    + apply nth_error_None in E. lia.
Qed.

(** A name other than the marker comes from an entry that compared
    equal. *)
Lemma scan_name g remaining : forall i name k,
    scan g remaining i = Some (name, k) ->
    name = "<Unknown>"%string
    \/ exists e, In e GuidMappings /\ Name e = name
                 /\ CompareGuid g (Guid e) = 0.
Proof.
  induction remaining as [|r IH]; intros i name k H; cbn [scan] in H.
  - inversion H. left. reflexivity.
  - destruct (nth_error GuidMappings i) as [e|] eqn:E; [|discriminate].
    destruct (Z.eqb_spec (CompareGuid g (Guid e)) 0) as [Hz|Hnz].
    + inversion H; subst. right. exists e.
      split; [exact (nth_error_In _ _ E) | auto].
    + exact (IH _ _ _ H).
Qed.

End GuidFacts.

(** C7.  For a well-formed GUID: if the registry holds it and [i] is the
    first position where it does, [GetGuidName] returns the name stored at
    [i], after comparing [i + 1] entries; if the registry does not hold
    it, [GetGuidName] returns ["<Unknown>"] after comparing exactly the
    [NUM_GUID_MAPPINGS] declared entries; in every case it returns without
    reading outside the array. *)
Theorem GetGuidName_first_match :
  forall g : Guid.EFI_GUID,
    Guid.guid_ok g ->
    (forall i e, Guid.first_at g i e ->
                 Guid.GetGuidName (Some g) = Some (Guid.Name e, S i))
    /\ (Guid.absent g ->
        Guid.GetGuidName (Some g)
        = Some ("<Unknown>"%string, Guid.NUM_GUID_MAPPINGS))
    /\ (exists name k,
           Guid.GetGuidName (Some g) = Some (name, k)
           /\ (k <= Guid.NUM_GUID_MAPPINGS)%nat).
Proof.
  intros g Hok. cbn [Guid.GetGuidName].
  assert (Hne : forall e', In e' Guid.GuidMappings -> Guid.Guid e' <> g ->
                           Guid.CompareGuid g (Guid.Guid e') <> 0).
  { intros e' Hin Hneq Hz. apply Hneq. symmetry.
    apply CompareGuid_eq; auto using table_ok. }
  split; [|split].
  - intros i e (Hnth & Hg & Hfirst).
    apply scan_hit with (i := i); auto.
    + rewrite Hg. apply CompareGuid_refl.
    + intros j e' Hj Hj'. apply Hne; [exact (nth_error_In _ _ Hj')|].
      apply (Hfirst j e'); [lia | exact Hj'].
    + assert (i < length Guid.GuidMappings)%nat
        by (apply nth_error_Some; congruence).
      rewrite table_length in *. lia.
  - intros Habs. rewrite <- table_length. apply scan_miss; [reflexivity|].
    intros j e' _ Hj. apply Hne; [exact (nth_error_In _ _ Hj)|].
    apply Habs. exact (nth_error_In _ _ Hj).
  - destruct (scan_total g Guid.NUM_GUID_MAPPINGS 0%nat) as (name & k & H & Hk).
    + rewrite table_length. lia.
    + exists name, k. split; [exact H | lia].
Qed.

Lemma GetGuidName_first_match_witness :
  Guid.GetGuidName (Some GuidExample.reset_vector)
  = Some ("ResetVector"%string, 1%nat).
Proof.
  assert (Hok : Guid.guid_ok GuidExample.reset_vector)
    by (apply guid_okb_ok; reflexivity).
  destruct (GetGuidName_first_match GuidExample.reset_vector Hok) as [H _].
  apply (H 0%nat (Guid.G 0x1BA0062E 0xC779 0x4582
                    [0x85; 0x66; 0x33; 0x6A; 0xE8; 0xF7; 0x8F; 0x09]
                    "ResetVector")).
  split; [reflexivity|]. split; [reflexivity|].
  intros j e' Hj. lia.
Defined.

(** The registry holds the all-zero GUID three times; the first entry
    wins.  A GUID it does not hold costs 441 comparisons. *)
Example GetGuidName_samples :
  Guid.GetGuidName (Some GuidExample.zero) = Some ("gZeroGuid"%string, 260%nat)
  /\ Guid.GetGuidName (Some GuidExample.unregistered)
     = Some ("<Unknown>"%string, 441%nat)
  /\ Guid.GetGuidName (Some Guid.LoadedImageProtocolGuid)
     = Some ("gEfiLoadedImageProtocolGuid"%string, 154%nat)
  /\ Guid.GetGuidName None = Some ("<NULL protocol pointer>"%string, 0%nat).
Proof. vm_compute. repeat split. Qed.

(** C6 (as amended).  For every well-formed GUID other than the
    LoadedImage and the DevicePath protocol GUIDs,
    [efi_hook_HandleProtocol] returns [EFI_UNSUPPORTED] and does not write
    through [interface]: the caller's slot keeps the value it had. *)
Theorem handle_protocol_unsupported :
  forall (handle : Z) (g : Guid.EFI_GUID) (interface : Guid.pointer),
    Guid.guid_ok g ->
    g <> Guid.LoadedImageProtocolGuid ->
    g <> Guid.DevicePathProtocolGuid ->
    Guid.efi_hook_HandleProtocol handle (Some g) interface
    = Some (Ledger.EFI_UNSUPPORTED, interface).
Proof.
  intros handle g interface Hok Hli Hdp.
  unfold Guid.efi_hook_HandleProtocol. cbn [Guid.GetGuidName Guid.get_GUID_str].
  destruct (scan_total g Guid.NUM_GUID_MAPPINGS 0%nat) as (name & k & H & _).
  { rewrite table_length. lia. }
  rewrite H.
  destruct (scan_name _ _ _ _ _ H) as [->|(e & Hin & Hname & Hz)].
  - reflexivity.
  - assert (Hg : Guid.Guid e = g)
      by (symmetry; apply CompareGuid_eq; auto using table_ok).
    destruct (String.eqb_spec name "gEfiLoadedImageProtocolGuid") as [E|_].
    { exfalso. apply Hli. rewrite <- Hg. apply loaded_image_name; congruence. }
    destruct (String.eqb_spec name "gEfiDevicePathProtocolGuid") as [E|_].
    { exfalso. apply Hdp. rewrite <- Hg. apply device_path_name; congruence. }
    reflexivity.
Qed.

Lemma handle_protocol_unsupported_witness :
  Guid.efi_hook_HandleProtocol 0xDEADBEEF (Some GuidExample.zero) Guid.NULL
  = Some (Ledger.EFI_UNSUPPORTED, Guid.NULL).
Proof.
  apply (handle_protocol_unsupported 0xDEADBEEF GuidExample.zero Guid.NULL).
  - apply guid_okb_ok. reflexivity.
  - discriminate.
  - discriminate.
Defined.

(** C6 as stated fails on the interface: a caller whose slot held
    [0x1234] still finds [0x1234] there, not [NULL], after querying a GUID
    that is not handled. *)
Lemma handle_protocol_interface_not_null :
  Guid.efi_hook_HandleProtocol 0xDEADBEEF (Some GuidExample.unregistered)
                               (Guid.address 0x1234)
  = Some (Ledger.EFI_UNSUPPORTED, Guid.address 0x1234)
  /\ Guid.address 0x1234 <> Guid.NULL.
Proof. split; [vm_compute; reflexivity | discriminate]. Qed.

(** With a [NULL] GUID pointer the call does not get past its log line. *)
Example handle_protocol_null_guid :
  Guid.GetGuidName None = Some ("<NULL protocol pointer>"%string, 0%nat)
  /\ Guid.efi_hook_HandleProtocol 0xDEADBEEF None Guid.NULL = None.
Proof. split; reflexivity. Qed.

(** The two handled protocols. *)
Example handle_protocol_handled :
  Guid.efi_hook_HandleProtocol 0 (Some Guid.LoadedImageProtocolGuid) Guid.NULL
  = Some (Ledger.EFI_SUCCESS, Guid.windows_loaded_image)
  /\ Guid.efi_hook_HandleProtocol Guid.BOOT_DEVICE_HANDLE
       (Some Guid.DevicePathProtocolGuid) Guid.NULL
     = Some (Ledger.EFI_SUCCESS, Guid.windows_boot_device_path).
Proof. vm_compute. split; reflexivity. Qed.

(** ** The segment loader *)

Section LoaderFacts.
Import Mem Loader.

Lemma page_offset_range maddr : 0 <= Z.land maddr (PAGE_SIZE - 1) < PAGE_SIZE.
Proof.
  change (PAGE_SIZE - 1) with (Z.ones 12). rewrite Z.land_ones by lia.
  change PAGE_SIZE with (2 ^ 12). apply Z.mod_pos_bound. lia.
Qed.

Lemma wrap64_le z : 0 <= z -> 0 <= wrap64 z <= z.
Proof.
  intros H. unfold wrap64. split.
  - apply Z.mod_pos_bound. lia.
  - apply Z.mod_le; lia.
Qed.

(** Every iteration consumes at least one byte of [mbytes], so the loop
    returns. *)
Lemma load_chunks_returns fuel : forall readable ubytes mbytes maddr b off m,
    0 <= mbytes -> (Z.to_nat mbytes < fuel)%nat ->
    exists r, load_chunks fuel readable ubytes mbytes maddr b off m = Some r.
Proof.
  induction fuel as [|fuel IH]; intros readable ubytes mbytes maddr b off m H0 Hf;
    [lia|].
  cbn [load_chunks].
  destruct (Z.eqb_spec mbytes 0) as [|Hnz]; [eexists; reflexivity|].
  set (mchunk := Z.min mbytes (PAGE_SIZE - Z.land maddr (PAGE_SIZE - 1))).
  destruct (copy_from_user readable _ m off b) as [result m'].
  destruct (negb (result =? 0)); [eexists; reflexivity|].
  pose proof (page_offset_range maddr) as Hp.
  assert (Hm : 1 <= mchunk <= mbytes) by (unfold mchunk; lia).
  pose proof (wrap64_le (mbytes - mchunk) ltac:(lia)) as Hw.
  apply IH; lia.
Qed.

Lemma DumpBuffer_spec readable buff size :
  DumpBuffer readable buff size = true
  <-> forall j, 0 <= j < Z.of_nat size -> readable (wrap64 (buff + j)) = true.
Proof.
  unfold DumpBuffer. rewrite forallb_forall. split.
  - intros H j Hj. specialize (H (Z.to_nat j)).
    rewrite Z2Nat.id in H by lia. apply H. apply in_seq. lia.
  - intros H i Hi. apply in_seq in Hi. apply H. lia.
Qed.

(** The call returns exactly when the bytes it dumps can be read. *)
Lemma kimage_load_pe_segment_returns readable image seg m :
  0 <= memsz seg ->
  DumpBuffer readable (buf seg) 32 = true ->
  exists r, kimage_load_pe_segment readable image seg m = Some r.
Proof.
  intros H Hd. unfold kimage_load_pe_segment. rewrite Hd.
  apply load_chunks_returns; lia.
Qed.

Lemma kimage_load_pe_segment_faults readable image seg m j :
  0 <= j < 32 -> readable (wrap64 (buf seg + j)) = false ->
  kimage_load_pe_segment readable image seg m = None.
Proof.
  intros Hj Hr. unfold kimage_load_pe_segment.
  destruct (DumpBuffer readable (buf seg) 32) eqn:E; [|reflexivity].
  rewrite DumpBuffer_spec in E. rewrite (E j Hj) in Hr. discriminate.
Qed.

(** Whatever a segment's load returns, the next segments are loaded. *)
Lemma load_segments_ignores_result readable image seg rest m ret m' :
  kimage_load_pe_segment readable image seg m = Some (ret, m') ->
  load_segments readable image (seg :: rest) m
  = load_segments readable image rest m'.
Proof. intros H. cbn [load_segments]. rewrite H. reflexivity. Qed.

End LoaderFacts.

(** C5 is not what the loader does.  The first segment's source can be
    read for 32 bytes and no further: its copy fails and
    [kimage_load_pe_segment] returns [-EFAULT] at once, with the bytes it
    could copy left in the raw image.  [kimage_load_pe] drops that value:
    the second segment is still copied, the relocations are still
    applied, and [kimage_load_pe] returns to [do_kexec_load] with the
    image in that state. *)
Lemma kimage_load_pe_ignores_fault :
  Loader.DumpBuffer LoaderExample.readable (buf LoaderExample.text) 32 = true
  /\ option_map fst
       (Loader.kimage_load_pe_segment LoaderExample.readable
          LoaderExample.placed LoaderExample.text LoaderExample.m0)
     = Some (- Loader.EFAULT)
  /\ match Loader.kimage_load_pe LoaderExample.readable 0x20000000 40
             LoaderExample.img LoaderExample.m0 with
     | Some l =>
         Loader.image l = LoaderExample.placed
         /\ Loader.relocated l = [RelocExample.chunk]
         /\ Mem.load_le 2 (Loader.memory l) 0x20000000 = 0x5A4D
         /\ Mem.load_le 4 (Loader.memory l) 0x20000044 = 10
         /\ Mem.load_le 8 (Loader.memory l) 0x20002010 = 0x20001234
     | None => False
     end.
Proof. vm_compute. repeat split. Qed.

(** Inside one segment the loop does stop at the first failing chunk: a
    segment of two pages whose source cannot be read past its first 32
    bytes returns [-EFAULT] and leaves the second page of the destination
    untouched. *)
Example kimage_load_pe_segment_stops :
  let seg := {| buf := 0x6FE0; bufsz := 0x2000; mem := 0x1000000;
                memsz := 0x2000 |} in
  match Loader.kimage_load_pe_segment LoaderExample.readable
          LoaderExample.placed seg (Mem.of_cells [(0x20001000, 0x55)]) with
  | Some (ret, m') => ret = - Loader.EFAULT /\ m' 0x20001000 = 0x55
  | None => False
  end.
Proof. vm_compute. split; reflexivity. Qed.


(* ================================================================= *)
(** * Further properties *)

(** ** Relocation of a whole chunk *)

Section WholeChunk.
Import Mem Reloc RelocSpec.

Lemma load_le_same n : forall m1 m2 a,
    (forall x, in_window a n x -> m1 x = m2 x) ->
    load_le n m1 a = load_le n m2 a.
Proof.
  induction n as [|n IH]; intros m1 m2 a H; [reflexivity|].
  cbn [load_le]. f_equal.
  - unfold load8. rewrite (H (wrap64 a)); [reflexivity|].
    exists 0. split; [lia|]. f_equal. lia.
  - f_equal. apply IH. intros x (j & Hj & ->). apply H.
    exists (j + 1). split; [lia|]. f_equal. lia.
Qed.

Lemma in_window_weaken a n n' x :
  (n <= n')%nat -> in_window a n x -> in_window a n' x.
Proof. intros Hn (j & Hj & ->). exists j. split; [lia | reflexivity]. Qed.

Variable image : kimage.
Variable chunk : Z.
Variable m : Mem.t.
Hypothesis Hsep : well_separated image m chunk.

(** Memory after [j] iterations still shows the chunk as it was, leaves
    everything outside the fields handled so far alone, and holds the
    relocated value in each of them. *)
Lemma patch_entries_invariant (j : nat) :
  Z.of_nat j <= num_relocs m chunk ->
  let mj := patch_entries image chunk j 0 m in
  (forall x, (forall k, 0 <= k < Z.of_nat j -> patched m chunk k ->
                        ~ in_window (raw_image_content image m chunk k) 8 x) ->
             mj x = m x)
  /\ (forall k, 0 <= k < Z.of_nat j -> patched m chunk k ->
                load_le 8 mj (raw_image_content image m chunk k)
                = wrap64 (load_le 8 m (raw_image_content image m chunk k)
                          - IMAGE_BASE + raw_image_vs_PE_bias image)).
Proof.
  destruct Hsep as [Htable Hpair].
  induction j as [|j IH]; intros Hj mj.
  - split; [reflexivity|]. intros k Hk. lia.
  - destruct (IH ltac:(lia)) as [I1 I2]. clear IH.
    set (mp := patch_entries image chunk j 0 m) in *.
    assert (Hmj : mj = patch_entry image chunk mp (Z.of_nat j)).
    { unfold mj. rewrite patch_entries_snoc. reflexivity. }
    assert (Hkeep : forall x, table_byte m chunk x -> mp x = m x).
    { intros x Hx. apply I1. intros k Hk Hp Hw.
      exact (Htable k x Hp Hw Hx). }
    assert (Hentry : entry_at mp chunk (Z.of_nat j) = entry_at m chunk (Z.of_nat j)).
    { unfold entry_at. apply load_le_same. intros x Hx. apply Hkeep.
      right. exists (Z.of_nat j). split; [lia | exact Hx]. }
    assert (Hrva : va_offset mp chunk = va_offset m chunk).
    { unfold va_offset. apply load_le_same. intros x Hx. apply Hkeep.
      left. apply (in_window_weaken chunk 4 8); [lia | exact Hx]. }
    assert (Hfield : raw_image_content image mp chunk (Z.of_nat j)
                     = raw_image_content image m chunk (Z.of_nat j)).
    { unfold raw_image_content, address_in_image. rewrite Hentry, Hrva.
      reflexivity. }
    destruct (Z.eq_dec (entry_type (entry_at m chunk (Z.of_nat j)))
                       IMAGE_REL_BASED_DIR64) as [Ht|Ht].
    + assert (Hpj : patched m chunk (Z.of_nat j)) by (split; [lia | exact Ht]).
      assert (Hpatch : should_patch mp chunk (Z.of_nat j) = true).
      { unfold should_patch. rewrite Hentry. apply Z.eqb_eq. exact Ht. }
      destruct (patch_entry_patched image chunk mp (Z.of_nat j) Hpatch)
        as [Hnew Hframe].
      cbv zeta in Hnew, Hframe. rewrite Hfield in Hnew, Hframe.
      rewrite <- Hmj in Hnew, Hframe.
      split.
      * intros x Hx. rewrite Hframe.
        -- apply I1. intros k Hk. apply Hx. lia.
        -- apply Hx; [lia | exact Hpj].
      * intros k Hk Hp.
        destruct (Z.eq_dec k (Z.of_nat j)) as [->|Hne].
        -- rewrite Hnew. f_equal. f_equal. f_equal.
           apply load_le_same. intros x Hx. apply I1.
           intros k' Hk' Hp' Hw.
           apply (Hpair (Z.of_nat j) k' x); auto. lia.
        -- rewrite <- (I2 k ltac:(lia) Hp).
           apply load_le_same. intros x Hx. apply Hframe.
           intros Hw. apply (Hpair k (Z.of_nat j) x); auto.
    + assert (Hskip : should_patch mp chunk (Z.of_nat j) = false).
      { unfold should_patch. rewrite Hentry. apply Z.eqb_neq. exact Ht. }
      rewrite (patch_entry_skipped image chunk mp (Z.of_nat j) Hskip) in Hmj.
      rewrite Hmj. split.
      * intros x Hx. apply I1. intros k Hk. apply Hx. lia.
      * intros k Hk Hp.
        destruct (Z.eq_dec k (Z.of_nat j)) as [->|Hne].
        -- destruct Hp as [_ Hp]. contradiction.
        -- apply I2; [lia | exact Hp].
Qed.

End WholeChunk.

(** X1.  For a chunk whose absolute-64 fields lie outside the chunk and do
    not overlap one another, [parse_chunk_relocations] leaves in every such
    field its initial value minus [IMAGE_BASE] plus the bias, and leaves
    every byte outside those fields as it was. *)
Theorem parse_chunk_relocations_whole :
  forall (image : kimage) (chunk : Z) (m : Mem.t),
    RelocSpec.well_separated image m chunk ->
    let final := Reloc.parse_chunk_relocations chunk image m in
    (forall k, RelocSpec.patched m chunk k ->
               Mem.load_le 8 final (Reloc.raw_image_content image m chunk k)
               = Mem.wrap64
                   (Mem.load_le 8 m (Reloc.raw_image_content image m chunk k)
                    - Reloc.IMAGE_BASE + Reloc.raw_image_vs_PE_bias image))
    /\ (forall x,
           (forall k, RelocSpec.patched m chunk k ->
                      ~ Mem.in_window (Reloc.raw_image_content image m chunk k) 8 x) ->
           final x = m x).
Proof.
  intros image chunk m Hsep final.
  assert (Hn : 0 <= Reloc.num_relocs m chunk)
    by (unfold Reloc.num_relocs; apply wrap32_range).
  destruct (patch_entries_invariant image chunk m Hsep
              (Z.to_nat (Reloc.num_relocs m chunk)) ltac:(lia)) as [I1 I2].
  cbv zeta in I1, I2. rewrite Z2Nat.id in I1, I2 by lia.
  fold (Reloc.parse_chunk_relocations chunk image m) in I1, I2.
  split.
  - intros k Hp. apply I2; [exact (proj1 Hp) | exact Hp].
  - intros x Hx. apply I1. intros k _ Hp. exact (Hx k Hp).
Qed.

Lemma parse_chunk_relocations_whole_witness :
  Mem.load_le 8
    (Reloc.parse_chunk_relocations RelocExample.chunk RelocExample.img
       RelocExample.m0) 0x20002010 = 0x20001234.
Proof.
  assert (Hn : Reloc.num_relocs RelocExample.m0 RelocExample.chunk = 1)
    by (vm_compute; reflexivity).
  assert (Hf : Reloc.raw_image_content RelocExample.img RelocExample.m0
                 RelocExample.chunk 0 = 0x20002010)
    by (vm_compute; reflexivity).
  assert (Hp : RelocSpec.patched RelocExample.m0 RelocExample.chunk 0)
    by (split; [rewrite Hn; lia | vm_compute; reflexivity]).
  assert (Hsep : RelocSpec.well_separated RelocExample.img RelocExample.m0
                   RelocExample.chunk).
  { split.
    - intros k x [Hk _] Hw Ht. rewrite Hn in Hk.
      assert (k = 0) by lia. subst k. rewrite Hf in Hw.
      destruct Hw as (j & Hj & ->).
      destruct Ht as [(j' & Hj' & E)|(k' & Hk' & j' & Hj' & E)].
      + unfold RelocExample.chunk in E. wrap_arith.
      + rewrite Hn in Hk'. assert (k' = 0) by lia. subst k'.
        change (Reloc.entry_addr RelocExample.chunk 0) with 0x5008 in E.
        wrap_arith.
    - intros k k' x Hne [Hk _] [Hk' _]. rewrite Hn in Hk, Hk'. lia. }
  destruct (parse_chunk_relocations_whole _ _ _ Hsep) as [H _].
  specialize (H 0 Hp). rewrite Hf in H. rewrite H.
  vm_compute. reflexivity.
Defined.

(** X2.  The entry count of a chunk is [(total_size - 8) / 2] when
    [total_size] is at least the header size; a [total_size] below 8 makes
    the unsigned subtraction wrap, and the loop then runs
    [2^32 - 4 + total_size / 2] times. *)
Theorem num_relocs_count :
  forall (m : Mem.t) (chunk : Z),
    let size := Reloc.total_size m chunk in
    (8 <= size ->
       Reloc.num_relocs m chunk = (size - 8) / 2
       /\ Reloc.num_relocs m chunk < 2 ^ 31)
    /\ (size < 8 -> Reloc.num_relocs m chunk = 2 ^ 32 - 4 + size / 2).
Proof.
  intros m chunk size.
  pose proof (total_size_range m chunk) as Hr. fold size in Hr.
  unfold Reloc.num_relocs, Reloc.sizeof_header, Reloc.sizeof_entry.
  fold size. split; intros H.
  - rewrite (wrap64_small (size - 8)) by lia.
    rewrite wrap32_small by (split; [apply Z.div_pos; lia | apply Z.div_lt_upper_bound; lia]).
    split; [reflexivity | apply Z.div_lt_upper_bound; lia].
  - wrap_arith.
Qed.

(** ** The segment copy *)

Section SegmentCopy.
Import Mem Loader.

Lemma wrap64_add_l a b : wrap64 (wrap64 a + b) = wrap64 (a + b).
Proof. unfold wrap64. apply Zplus_mod_idemp_l. Qed.

Lemma load8_wrap m a j : load8 m (wrap64 a + j) = load8 m (a + j).
Proof. unfold load8. rewrite wrap64_add_l. reflexivity. Qed.

Lemma in_window_shift a u n x :
  0 <= u ->
  in_window (wrap64 (a + u)) n x -> in_window a (Z.to_nat u + n) x.
Proof.
  intros Hu (j & Hj & ->). exists (u + j). split; [lia|].
  rewrite wrap64_add_l. f_equal. lia.
Qed.

Lemma in_window_prefix a n n' x :
  (n <= n')%nat -> in_window a n x -> in_window a n' x.
Proof. intros Hn (j & Hj & ->). exists j. split; [lia | reflexivity]. Qed.

Lemma window_distinct a j j' :
  0 <= j < j' -> j' < 2 ^ 64 -> wrap64 (a + j) <> wrap64 (a + j').
Proof.
  intros Hj Hj'. replace (a + j') with (a + j + (j' - j)) by lia.
  apply wrap64_shift_neq. lia.
Qed.

Lemma zero_fill_frame n : forall m to x,
    ~ in_window to n x -> zero_fill n m to x = m x.
Proof.
  induction n as [|n IH]; intros m to x H; [reflexivity|].
  cbn [zero_fill]. rewrite IH.
  - apply store8_other. intros ->. apply H. exists 0. split; [lia|].
    f_equal. lia.
  - intros (j & Hj & ->). apply H. exists (j + 1). split; [lia|].
    f_equal. lia.
Qed.

(** [copy_from_user] writes only into its destination. *)
Lemma copy_from_user_frame readable n : forall m to from x,
    ~ in_window to n x -> snd (copy_from_user readable n m to from) x = m x.
Proof.
  induction n as [|n IH]; intros m to from x H; [reflexivity|].
  cbn [copy_from_user]. destruct (readable (wrap64 from)).
  - rewrite IH.
    + apply store8_other. intros ->. apply H. exists 0. split; [lia|].
      f_equal. lia.
    + intros (j & Hj & ->). apply H. exists (j + 1). split; [lia|].
      f_equal. lia.
  - cbn [snd]. apply zero_fill_frame. exact H.
Qed.

(** It returns [0] exactly when every source byte can be read. *)
Lemma copy_from_user_result readable n : forall m to from,
    0 <= fst (copy_from_user readable n m to from)
    /\ (fst (copy_from_user readable n m to from) = 0
        <-> forall j, 0 <= j < Z.of_nat n -> readable (wrap64 (from + j)) = true).
Proof.
  induction n as [|n IH]; intros m to from.
  - cbn. split; [lia|]. split; [intros _ j Hj; lia | reflexivity].
  - cbn [copy_from_user]. destruct (readable (wrap64 from)) eqn:E.
    + destruct (IH (store8 m to (load8 m from)) (to + 1) (from + 1)) as [H0 H].
      split; [exact H0|]. rewrite H. split.
      * intros Hall j Hj. destruct (Z.eq_dec j 0) as [->|Hne].
        -- rewrite Z.add_0_r. exact E.
        -- replace (from + j) with (from + 1 + (j - 1)) by lia.
           apply Hall. lia.
      * intros Hall j Hj. replace (from + 1 + j) with (from + (j + 1)) by lia.
        apply Hall. lia.
    + cbn [fst]. split; [lia|]. split; [lia|].
      intros Hall. specialize (Hall 0 ltac:(lia)).
      rewrite Z.add_0_r in Hall. congruence.
Qed.

(** A successful copy between separate regions reproduces the source. *)
Lemma copy_from_user_content readable n : forall m to from,
    Z.of_nat n <= 2 ^ 64 ->
    fst (copy_from_user readable n m to from) = 0 ->
    (forall x, in_window to n x -> ~ in_window from n x) ->
    forall j, 0 <= j < Z.of_nat n ->
              load8 (snd (copy_from_user readable n m to from)) (to + j)
              = load8 m (from + j).
Proof.
  induction n as [|n IH]; intros m to from Hn Hret Hsep j Hj; [lia|].
  cbn [copy_from_user] in *. destruct (readable (wrap64 from)) eqn:E.
  2:{ cbn [fst] in Hret. lia. }
  set (m1 := store8 m to (load8 m from)) in *.
  assert (Hsrc : forall i, 0 <= i < Z.of_nat (S n) ->
                           load8 m1 (from + i) = load8 m (from + i)).
  { intros i Hi. unfold load8, m1. rewrite store8_other; [reflexivity|].
    intros Eq. apply (Hsep (wrap64 to)).
    - exists 0. split; [lia|]. f_equal. lia.
    - exists i. split; [lia | symmetry; exact Eq]. }
  destruct (Z.eq_dec j 0) as [->|Hne].
  - rewrite !Z.add_0_r. unfold load8 at 1.
    rewrite copy_from_user_frame.
    + unfold m1. rewrite store8_same.
      rewrite Z.mod_mod by lia. apply Z.mod_small. apply load8_range.
    + intros (i & Hi & Eq). replace (to + 1 + i) with (to + (1 + i)) in Eq by lia.
      apply (window_distinct to 0 (1 + i)); [lia | lia|].
      rewrite Z.add_0_r. exact Eq.
  - replace (to + j) with (to + 1 + (j - 1)) by lia.
    rewrite IH; try lia; try assumption.
    + replace (from + 1 + (j - 1)) with (from + j) by lia. apply Hsrc. lia.
    + intros x (i & Hi & ->) (i' & Hi' & Eq).
      apply (Hsep (wrap64 (to + 1 + i))).
      * exists (i + 1). split; [lia|]. f_equal. lia.
      * exists (i' + 1). split; [lia|]. rewrite Eq. f_equal. lia.
Qed.

(** The [while (mbytes)] loop as a whole: it returns, writes only the
    first [min ubytes mbytes] bytes of the destination, fails exactly when
    one of the first [min ubytes mbytes] source bytes cannot be read, and
    on success has copied them. *)
Lemma load_chunks_spec readable fuel : forall ubytes mbytes maddr b off m,
    0 <= ubytes < 2 ^ 64 -> 0 <= mbytes < 2 ^ 64 ->
    (Z.to_nat mbytes < fuel)%nat ->
    let n := Z.to_nat (Z.min ubytes mbytes) in
    exists ret m',
      load_chunks fuel readable ubytes mbytes maddr b off m = Some (ret, m')
      /\ (forall x, ~ in_window off n x -> m' x = m x)
      /\ (ret = 0 \/ ret = - EFAULT)
      /\ (ret = 0 <-> forall j, 0 <= j < Z.of_nat n ->
                                readable (wrap64 (b + j)) = true)
      /\ (ret = 0 ->
          (forall x, in_window off n x -> ~ in_window b n x) ->
          forall j, 0 <= j < Z.of_nat n -> load8 m' (off + j) = load8 m (b + j)).
Proof.
  induction fuel as [|fuel IH]; intros ubytes mbytes maddr b off m Hu Hm Hf n;
    [lia|].
  cbn [load_chunks].
  destruct (Z.eqb_spec mbytes 0) as [Hz|Hnz].
  { exists 0, m. assert (n = 0%nat) by (unfold n; lia).
    split; [reflexivity|]. split; [reflexivity|]. split; [left; reflexivity|].
    split; [|intros _ _ j Hj; lia].
    split; [intros _ j Hj; lia | reflexivity]. }
  pose proof (page_offset_range maddr) as Hp.
  set (mchunk := Z.min mbytes (PAGE_SIZE - Z.land maddr (PAGE_SIZE - 1))).
  set (u := Z.min ubytes mchunk).
  assert (Hmc : 1 <= mchunk <= mbytes) by (unfold mchunk; lia).
  assert (Hu0 : 0 <= u <= Z.of_nat n) by (unfold u, n; lia).
  pose proof (copy_from_user_frame readable (Z.to_nat u) m off b) as Cframe.
  pose proof (copy_from_user_result readable (Z.to_nat u) m off b) as [C0 Cres].
  pose proof (copy_from_user_content readable (Z.to_nat u) m off b) as Ccont.
  destruct (copy_from_user readable (Z.to_nat u) m off b) as [result m1].
  cbn [fst snd] in *. rewrite Z2Nat.id in Cres, Ccont by lia.
  destruct (Z.eqb_spec result 0) as [Hr|Hr]; cbn [negb].
  - (* the chunk was copied *)
    rewrite (wrap64_small (ubytes - u)) by (unfold u; lia).
    rewrite (wrap64_small (mbytes - mchunk)) by lia.
    destruct (IH (ubytes - u) (mbytes - mchunk) (wrap64 (maddr + mchunk))
                 (wrap64 (b + mchunk)) (wrap64 (off + u)) m1)
      as (ret & m' & E & Iframe & Iret & Iread & Icont);
      [unfold u; lia | lia | lia |].
    set (n' := Z.to_nat (Z.min (ubytes - u) (mbytes - mchunk))) in *.
    assert (Hn : Z.of_nat n = u + Z.of_nat n') by (unfold n, n', u; lia).
    assert (Hb : (0 < n')%nat -> mchunk = u) by (unfold n', u; lia).
    assert (Hread1 : forall j, 0 <= j < u -> readable (wrap64 (b + j)) = true)
      by (apply Cres; exact Hr).
    exists ret, m'. split; [exact E|]. split; [|split; [exact Iret|split]].
    + intros x Hx. rewrite Iframe.
      * apply Cframe. intros Hw. apply Hx.
        apply (in_window_prefix off (Z.to_nat u)); [lia | exact Hw].
      * intros Hw. apply Hx. apply in_window_shift in Hw; [|lia].
        apply (in_window_prefix off (Z.to_nat u + n')); [lia | exact Hw].
    + rewrite Iread. split.
      * intros Hall j Hj. destruct (Z.lt_ge_cases j u) as [Hlt|Hge];
          [apply Hread1; lia|].
        specialize (Hall (j - u) ltac:(lia)).
        rewrite <- (Hb ltac:(lia)) in Hall at 1.
        rewrite (Hb ltac:(lia)), wrap64_add_l in Hall.
        replace (b + u + (j - u)) with (b + j) in Hall by lia. exact Hall.
      * intros Hall j Hj. rewrite (Hb ltac:(lia)), wrap64_add_l.
        replace (b + u + j) with (b + (u + j)) by lia. apply Hall. lia.
    + intros Hret Hsep j Hj.
      assert (Hkeep : forall i, 0 <= i < Z.of_nat n ->
                                load8 m1 (b + i) = load8 m (b + i)).
      { intros i Hi. unfold load8. rewrite Cframe; [reflexivity|].
        intros Hw. apply (Hsep (wrap64 (b + i))).
        - apply (in_window_prefix off (Z.to_nat u)); [lia | exact Hw].
        - exists i. split; [lia | reflexivity]. }
      destruct (Z.lt_ge_cases j u) as [Hlt|Hge].
      * transitivity (load8 m1 (off + j)).
        -- unfold load8. rewrite Iframe; [reflexivity|].
           intros (i & Hi & Eq). rewrite wrap64_add_l in Eq.
           replace (off + u + i) with (off + (u + i)) in Eq by lia.
           apply (window_distinct off j (u + i)); [lia | lia | exact Eq].
        -- apply Ccont; [lia | exact Hr | | lia].
           intros x Hw Hw'. apply (Hsep x).
           ++ apply (in_window_prefix off (Z.to_nat u)); [lia | exact Hw].
           ++ apply (in_window_prefix b (Z.to_nat u)); [lia | exact Hw'].
      * assert (Hpos : (0 < n')%nat) by lia.
        specialize (Icont Hret).
        rewrite (Hb Hpos) in Icont.
        assert (Hsep' : forall x, in_window (wrap64 (off + u)) n' x ->
                                  ~ in_window (wrap64 (b + u)) n' x).
        { intros x Hw Hw'. apply in_window_shift in Hw, Hw'; try lia.
          apply (Hsep x).
          - apply (in_window_prefix off (Z.to_nat u + n')); [lia | exact Hw].
          - apply (in_window_prefix b (Z.to_nat u + n')); [lia | exact Hw']. }
        specialize (Icont Hsep' (j - u) ltac:(lia)).
        rewrite !load8_wrap in Icont.
        replace (off + u + (j - u)) with (off + j) in Icont by lia.
        replace (b + u + (j - u)) with (b + j) in Icont by lia.
        rewrite Icont. apply Hkeep. lia.
  - (* the chunk could not be copied *)
    exists (- EFAULT), m1. split; [reflexivity|].
    split; [|split; [right; reflexivity|split]].
    + intros x Hx. apply Cframe. intros Hw. apply Hx.
      apply (in_window_prefix off (Z.to_nat u)); [lia | exact Hw].
    + split; [unfold EFAULT; lia|].
      intros Hall. exfalso. apply Hr. apply Cres.
      intros j Hj. apply Hall. lia.
    + unfold EFAULT. intros Hret. lia.
Qed.

Lemma segment_place a b c :
  wrap64 (a + wrap64 (b - c)) = wrap64 (a + (b - c)).
Proof. rewrite Z.add_comm, wrap64_add_l. f_equal. lia. Qed.

End SegmentCopy.

(** X3.  [kimage_load_pe_segment] returns exactly when the 32 bytes at
    [buf] that it dumps to the log can be read; with one of them
    unreadable the call does not return.  When it returns, it returns [0]
    or [-EFAULT] and has written nothing outside the first
    [min(bufsz, memsz)] bytes of the segment's place in the raw image: the
    rest of the segment's [memsz] bytes is left as it was. *)
Theorem kimage_load_pe_segment_frame :
  forall (readable : Z -> bool) (image : kimage) (seg : kexec_segment)
         (m : Mem.t),
    0 <= bufsz seg < 2 ^ 64 ->
    0 <= memsz seg < 2 ^ 64 ->
    let place := raw_image image + (mem seg - raw_image_mem_base image) in
    let n := Z.to_nat (Z.min (bufsz seg) (memsz seg)) in
    ((forall j, 0 <= j < 32 -> readable (Mem.wrap64 (buf seg + j)) = true) ->
     exists ret m',
       Loader.kimage_load_pe_segment readable image seg m = Some (ret, m')
       /\ (ret = 0 \/ ret = - Loader.EFAULT)
       /\ forall x, ~ Mem.in_window place n x -> m' x = m x)
    /\ ((exists j, 0 <= j < 32
                   /\ readable (Mem.wrap64 (buf seg + j)) = false) ->
        Loader.kimage_load_pe_segment readable image seg m = None).
Proof.
  intros readable image seg m Hb Hm place n.
  split; [|intros (j & Hj & Hr);
            exact (kimage_load_pe_segment_faults _ _ _ _ j Hj Hr)].
  intros Hdump. apply (DumpBuffer_spec readable (buf seg) 32) in Hdump.
  unfold Loader.kimage_load_pe_segment. rewrite Hdump.
  set (off := Mem.wrap64 (raw_image image
                          + Mem.wrap64 (mem seg - raw_image_mem_base image))).
  assert (Hoff : off = Mem.wrap64 place) by apply segment_place.
  destruct (load_chunks_spec readable (S (Z.to_nat (memsz seg)))
              (bufsz seg) (memsz seg) (mem seg) (buf seg) off m
              Hb Hm ltac:(lia))
    as (ret & m' & E & Hframe & Hret & _).
  exists ret, m'. split; [exact E|]. split; [exact Hret|].
  intros x Hx. apply Hframe. intros (j & Hj & ->). apply Hx.
  exists j. split; [exact Hj|]. rewrite Hoff. apply wrap64_add_l.
Qed.

(** X4.  When the 32 bytes at [buf] that [kimage_load_pe_segment] dumps
    to the log can be read, it returns [0] exactly when each of the first
    [min(bufsz, memsz)] bytes at [buf] can be read, and [-EFAULT]
    otherwise; when it returns [0] and source and destination do not
    overlap, the destination holds those source bytes in order. *)
Theorem kimage_load_pe_segment_copies :
  forall (readable : Z -> bool) (image : kimage) (seg : kexec_segment)
         (m : Mem.t),
    0 <= bufsz seg < 2 ^ 64 ->
    0 <= memsz seg < 2 ^ 64 ->
    (forall j, 0 <= j < 32 -> readable (Mem.wrap64 (buf seg + j)) = true) ->
    let place := raw_image image + (mem seg - raw_image_mem_base image) in
    let n := Z.to_nat (Z.min (bufsz seg) (memsz seg)) in
    exists ret m',
      Loader.kimage_load_pe_segment readable image seg m = Some (ret, m')
      /\ (ret = 0 <-> forall j, 0 <= j < Z.of_nat n ->
                                readable (Mem.wrap64 (buf seg + j)) = true)
      /\ (ret <> 0 -> ret = - Loader.EFAULT)
      /\ (ret = 0 ->
          (forall x, Mem.in_window place n x -> ~ Mem.in_window (buf seg) n x) ->
          forall j, 0 <= j < Z.of_nat n ->
                    Mem.load8 m' (place + j) = Mem.load8 m (buf seg + j)).
Proof.
  intros readable image seg m Hb Hm Hdump place n.
  apply (DumpBuffer_spec readable (buf seg) 32) in Hdump.
  unfold Loader.kimage_load_pe_segment. rewrite Hdump.
  set (off := Mem.wrap64 (raw_image image
                          + Mem.wrap64 (mem seg - raw_image_mem_base image))).
  assert (Hoff : off = Mem.wrap64 place) by apply segment_place.
  destruct (load_chunks_spec readable (S (Z.to_nat (memsz seg)))
              (bufsz seg) (memsz seg) (mem seg) (buf seg) off m
              Hb Hm ltac:(lia))
    as (ret & m' & E & _ & Hret & Hread & Hcont).
  exists ret, m'. split; [exact E|]. split; [exact Hread|].
  split; [intros Hne; destruct Hret; [contradiction | assumption]|].
  intros H0 Hsep j Hj.
  rewrite <- (load8_wrap m' place j), <- Hoff.
  apply Hcont; [exact H0 | | exact Hj].
  intros x (i & Hi & ->) Hw. apply (Hsep (Mem.wrap64 (off + i))); [|exact Hw].
  exists i. split; [exact Hi|]. rewrite Hoff, wrap64_add_l. reflexivity.
Qed.

Lemma readable_below_page j :
  0 <= j < 32 ->
  LoaderExample.readable (Mem.wrap64 (0x6FE0 + j)) = true
  /\ LoaderExample.readable (Mem.wrap64 (0x5000 + j)) = true.
Proof.
  intros Hj. unfold LoaderExample.readable.
  rewrite !negb_true_iff, !andb_false_iff, !Z.leb_gt.
  split; left; wrap_arith.
Qed.

(** The first segment of the example: the copy fails after 32 bytes, and
    the byte after the segment's 64 is as it was. *)
Lemma kimage_load_pe_segment_frame_witness :
  exists ret m',
    Loader.kimage_load_pe_segment LoaderExample.readable LoaderExample.placed
      LoaderExample.text LoaderExample.m0 = Some (ret, m')
    /\ (ret = 0 \/ ret = - Loader.EFAULT)
    /\ m' 0x20000040 = LoaderExample.m0 0x20000040.
Proof.
  destruct (kimage_load_pe_segment_frame LoaderExample.readable
              LoaderExample.placed LoaderExample.text LoaderExample.m0)
    as [H _].
  - cbn [bufsz LoaderExample.text]. lia.
  - cbn [memsz LoaderExample.text]. lia.
  - destruct H as (ret & m' & E & Hret & Hframe).
    + intros j Hj. change (buf LoaderExample.text) with 0x6FE0.
      apply readable_below_page. exact Hj.
    + exists ret, m'. split; [exact E|]. split; [exact Hret|].
      apply Hframe. intros (j & Hj & Eq).
      change (Z.of_nat (Z.to_nat (Z.min (bufsz LoaderExample.text)
                                        (memsz LoaderExample.text))))
        with 64 in Hj.
      change (raw_image LoaderExample.placed
              + (mem LoaderExample.text
                 - raw_image_mem_base LoaderExample.placed))
        with 0x20000000 in Eq.
      wrap_arith.
Defined.

(** The second segment of the example: every source byte can be read, the
    call returns [0] and the chunk's [total_size] field has arrived in the
    raw image. *)
Lemma kimage_load_pe_segment_copies_witness :
  exists ret m',
    Loader.kimage_load_pe_segment LoaderExample.readable LoaderExample.placed
      LoaderExample.reloc LoaderExample.m0 = Some (ret, m')
    /\ ret = 0
    /\ Mem.load8 m' 0x20000044 = 10.
Proof.
  destruct (kimage_load_pe_segment_copies LoaderExample.readable
              LoaderExample.placed LoaderExample.reloc LoaderExample.m0)
    as (ret & m' & E & Hret & _ & Hcopy).
  - cbn [bufsz LoaderExample.reloc]. lia.
  - cbn [memsz LoaderExample.reloc]. lia.
  - intros j Hj. change (buf LoaderExample.reloc) with 0x5000.
    apply readable_below_page. exact Hj.
  - assert (H0 : ret = 0).
    { apply Hret. intros j Hj.
      change (Z.of_nat (Z.to_nat (Z.min (bufsz LoaderExample.reloc)
                                        (memsz LoaderExample.reloc))))
        with 32 in Hj.
      change (buf LoaderExample.reloc) with 0x5000.
      apply readable_below_page. exact Hj. }
    exists ret, m'. split; [exact E|]. split; [exact H0|].
    change 0x20000044
      with (raw_image LoaderExample.placed
            + (mem LoaderExample.reloc
               - raw_image_mem_base LoaderExample.placed) + 4).
    rewrite (Hcopy H0).
    + vm_compute. reflexivity.
    + intros x (i & Hi & ->) (i' & Hi' & Eq).
      change (Z.of_nat (Z.to_nat (Z.min (bufsz LoaderExample.reloc)
                                        (memsz LoaderExample.reloc))))
        with 32 in Hi, Hi'.
      change (raw_image LoaderExample.placed
              + (mem LoaderExample.reloc
                 - raw_image_mem_base LoaderExample.placed))
        with 0x20000040 in Eq.
      change (buf LoaderExample.reloc) with 0x5000 in Eq.
      wrap_arith.
    + change (Z.of_nat (Z.to_nat (Z.min (bufsz LoaderExample.reloc)
                                        (memsz LoaderExample.reloc))))
        with 32. lia.
Defined.

(** X5.  After [kimage_load_pe] the bias used by the relocation pass is the
    address of the raw image minus the first segment's memory address plus
    [SEGMENTS_OFFSET_FROM_ZERO], in 64 bits: the entry address cancels
    out.  The image size recorded is the sum of the segments' [memsz]. *)
Theorem kimage_load_pe_bias :
  forall (readable : Z -> bool) (vmalloc_exec : Z) (fuel : nat)
         (img : kimage) (m : Mem.t) (l : Loader.loaded),
    Loader.kimage_load_pe readable vmalloc_exec fuel img m = Some l ->
    exists first rest,
      segment img = first :: rest
      /\ Reloc.raw_image_vs_PE_bias (Loader.image l)
         = Mem.wrap64 (vmalloc_exec - mem first + Reloc.SEGMENTS_OFFSET_FROM_ZERO)
      /\ Loader.ImageBase l = vmalloc_exec
      /\ Loader.ImageSize l
         = fold_left (fun acc seg => Mem.wrap64 (acc + memsz seg)) (segment img) 0.
Proof.
  intros readable v fuel img m l H. unfold Loader.kimage_load_pe in H.
  destruct (segment img) as [|first rest] eqn:Hs.
  { destruct (Loader.load_segments _ _ _ _); [|discriminate].
    cbn in H. discriminate. }
  exists first, rest. split; [reflexivity|].
  destruct (Loader.load_segments _ _ _ _) as [m1|]; [|discriminate].
  destruct (nth_error _ _) as [last_segment|]; [|discriminate].
  destruct (Reloc.parse_reloc_table _ _ _ _) as [[[vs c] m2]|]; [|discriminate].
  inversion H; subst l. cbn [Loader.image Loader.ImageBase Loader.ImageSize].
  split; [|split; reflexivity].
  unfold Reloc.raw_image_vs_PE_bias, Reloc.absolute_image_start.
  cbn [raw_image_start start nth]. unfold Reloc.SEGMENTS_OFFSET_FROM_ZERO.
  wrap_arith.
Qed.

Lemma kimage_load_pe_bias_witness :
  exists l,
    Loader.kimage_load_pe LoaderExample.readable 0x20000000 40
      LoaderExample.img RelocExample.m0 = Some l
    /\ Reloc.raw_image_vs_PE_bias (Loader.image l) = 0x20000000.
Proof.
  destruct (Loader.kimage_load_pe LoaderExample.readable 0x20000000 40
              LoaderExample.img RelocExample.m0) as [l|] eqn:E.
  - exists l. split; [reflexivity|].
    destruct (kimage_load_pe_bias _ _ _ _ _ _ E) as (first & rest & Hs & Hb & _).
    rewrite Hb. inversion Hs. reflexivity.
  - exfalso.
    assert (H : option_map (fun _ => tt)
                  (Loader.kimage_load_pe LoaderExample.readable 0x20000000 40
                     LoaderExample.img RelocExample.m0) = Some tt)
      by (vm_compute; reflexivity).
    rewrite E in H. discriminate.
Defined.

(** ** The ledger: allocation *)

Section Allocation.
Import Mem Ledger LedgerSpec.

Lemma accepted_gate mt :
  accepted mt ->
  negb (mt =? EfiLoaderData) && negb (mt =? EfiConventionalMemory)
  && negb (mt =? EfiLoaderCode) = false.
Proof. intros [->|[->| ->]]; reflexivity. Qed.

Lemma accepted_wrap32 mt : accepted mt -> wrap32 mt = mt.
Proof. intros [->|[->| ->]]; reflexivity. Qed.

Lemma NUM_PAGES_of_pages n :
  1 <= n < 2 ^ 52 -> NUM_PAGES (wrap64 (n * PAGE_SIZE)) = n.
Proof. intros H. unfold NUM_PAGES, PAGE_SIZE. wrap_arith. Qed.

End Allocation.

(** X6.  [NUM_PAGES(size)] is the number of pages needed for [size] bytes
    when [size] is at least 1; for [size = 0] the unsigned [size - 1]
    wraps and the macro yields [2^52] pages. *)
Theorem NUM_PAGES_ceiling :
  forall size : Z,
    0 <= size < 2 ^ 64 ->
    (1 <= size ->
       (Ledger.NUM_PAGES size - 1) * Ledger.PAGE_SIZE < size
       /\ size <= Ledger.NUM_PAGES size * Ledger.PAGE_SIZE)
    /\ (size = 0 -> Ledger.NUM_PAGES size = 2 ^ 52).
Proof.
  intros size H. unfold Ledger.NUM_PAGES, Ledger.PAGE_SIZE. split.
  - intros H1. wrap_arith.
  - intros ->. reflexivity.
Qed.

Lemma NUM_PAGES_ceiling_witness :
  (Ledger.NUM_PAGES 4097 - 1) * Ledger.PAGE_SIZE < 4097
  /\ 4097 <= Ledger.NUM_PAGES 4097 * Ledger.PAGE_SIZE.
Proof. apply (NUM_PAGES_ceiling 4097); lia. Defined.

(** ** The ledger: what calls do to the descriptors *)

Section History.
Import Mem Ledger LedgerSpec.

Lemma retagged_refl l : Forall2 retagged l l.
Proof. induction l; constructor; [left; reflexivity | assumption]. Qed.

Lemma retagged_trans d2 d1 d0 :
  retagged d2 d1 -> retagged d1 d0 -> retagged d2 d0.
Proof.
  intros [->| ->] [->| ->]; [left | right | right | right]; reflexivity.
Qed.

Lemma retagged_list_trans l2 : forall l1 l0,
    Forall2 retagged l2 l1 -> Forall2 retagged l1 l0 -> Forall2 retagged l2 l0.
Proof.
  induction l2 as [|d2 l2 IH]; intros l1 l0 H21 H10.
  - inversion H21; subst. inversion H10; subst. constructor.
  - inversion H21; subst. inversion H10; subst. constructor.
    + eapply retagged_trans; eassumption.
    + eapply IH; eassumption.
Qed.

(** Over any sequence of calls the list keeps its old descriptors, each
    possibly re-tagged as free, and grows at the tail. *)
Lemma run_history calls : forall s,
    exists kept added,
      efi_memory_mappings (run s calls) = kept ++ added
      /\ Forall2 retagged kept (efi_memory_mappings s).
Proof.
  induction calls as [|c calls IH]; intros s.
  - exists (efi_memory_mappings s), []. split; [symmetry; apply app_nil_r|].
    apply retagged_refl.
  - cbn [run fold_left]. fold (run (step s c) calls).
    destruct (IH (step s c)) as (kept & added & E & Hk).
    destruct (step_cases s c) as [Es|[[d Es]|(a & n & ->)]].
    + rewrite Es in Hk. exists kept, added. split; assumption.
    + rewrite Es in Hk. apply Forall2_app_inv_r in Hk.
      destruct Hk as (k1 & k2 & H1 & H2 & ->).
      exists k1, (k2 ++ added). split; [|exact H1].
      rewrite E. symmetry. apply app_assoc.
    + rewrite free_pages_mappings in Hk.
      exists kept, added. split; [exact E|].
      eapply retagged_list_trans; [exact Hk | apply unregister_retags].
Qed.

Lemma retagged_nth kept : forall l i d,
    Forall2 retagged kept l -> nth_error l i = Some d ->
    exists d', nth_error kept i = Some d' /\ retagged d' d.
Proof.
  induction kept as [|k kept IH]; intros l i d H Hi; inversion H; subst.
  - destruct i; discriminate.
  - destruct i as [|i].
    + inversion Hi; subst. exists k. split; [reflexivity | assumption].
    + cbn [nth_error] in *. eapply IH; eassumption.
Qed.

(** The outcome of one scan. *)
Lemma unregister_outcome l : forall a n,
    let r := efi_unregister_allocation l a n in
    (fst r = EFI_INVALID_PARAMETER /\ snd r = l)
    \/ (fst r = EFI_SUCCESS
        /\ exists before d after,
             l = before ++ d :: after
             /\ snd r = before ++ set_type d EfiConventionalMemory :: after
             /\ Forall (fun d0 => located d0 a = false) before
             /\ located d a = true
             /\ offset_in_mapping d a = 0 /\ num_pages d = n).
Proof.
  induction l as [|d rest IH]; intros a n; cbn [efi_unregister_allocation].
  - left. split; reflexivity.
  - destruct (located d a) eqn:Hloc.
    + destruct (Z.eqb_spec (offset_in_mapping d a) 0) as [Ho|Ho]; cbn [negb orb].
      * destruct (Z.eqb_spec (num_pages d) n) as [Hn|Hn]; cbn [negb].
        -- right. split; [reflexivity|]. exists [], d, rest.
           repeat split; auto.
        -- left. split; reflexivity.
      * left. split; reflexivity.
    + specialize (IH a n). cbv zeta in IH.
      destruct (efi_unregister_allocation rest a n) as [st rest'].
      cbn [fst snd] in *.
      destruct IH as [[-> ->]|[-> (before & d0 & after & -> & -> & Hb & Hd)]].
      * left. split; reflexivity.
      * right. split; [reflexivity|]. exists (d :: before), d0, after.
        split; [reflexivity|]. split; [reflexivity|].
        split; [constructor; assumption | exact Hd].
Qed.

End History.

(** X8.  [FreePages] returns [EFI_SUCCESS] or [EFI_INVALID_PARAMETER] and
    never touches [efi_mem_map_epoch].  When it returns
    [EFI_INVALID_PARAMETER] the ledger is exactly as before.  When it
    returns [EFI_SUCCESS] exactly one descriptor changed, and only in its
    type, now free: the first one in which the scan locates the address;
    it starts at the address and has the requested page count. *)
Theorem free_pages_outcome :
  forall (s : Ledger.efi_state) (address count : Z),
    let r := Ledger.efi_hook_FreePages s address count in
    Ledger.efi_mem_map_epoch (snd r) = Ledger.efi_mem_map_epoch s
    /\ ((fst r = Ledger.EFI_INVALID_PARAMETER /\ snd r = s)
        \/ (fst r = Ledger.EFI_SUCCESS
            /\ exists before d after,
                 Ledger.efi_memory_mappings s = before ++ d :: after
                 /\ Ledger.efi_memory_mappings (snd r)
                    = before
                      ++ Ledger.set_type d Ledger.EfiConventionalMemory :: after
                 /\ Forall (fun d0 => Ledger.located d0 address = false) before
                 /\ Ledger.located d address = true
                 /\ Ledger.offset_in_mapping d address = 0
                 /\ Ledger.num_pages d = count)).
Proof.
  intros s address count r. unfold r, Ledger.efi_hook_FreePages.
  pose proof (unregister_outcome (Ledger.efi_memory_mappings s) address count)
    as H. cbv zeta in H.
  destruct (Ledger.efi_unregister_allocation (Ledger.efi_memory_mappings s)
              address count) as [st l'].
  cbn [fst snd] in *. split; [reflexivity|].
  destruct H as [[-> ->]|[-> H]].
  - left. split; [reflexivity | apply with_mappings_same].
  - right. split; [reflexivity | exact H].
Qed.

(** X9.  Over any sequence of boot-service calls, a descriptor is never
    removed or moved: it stays at its position in the list with the same
    physical address and page count, and its type is either unchanged or
    has become [EfiConventionalMemory]; a free descriptor stays free. *)
Theorem descriptors_persist :
  forall (s : Ledger.efi_state) (calls : list Ledger.efi_call)
         (i : nat) (d : Ledger.EFI_MEMORY_DESCRIPTOR),
    nth_error (Ledger.efi_memory_mappings s) i = Some d ->
    exists d',
      nth_error (Ledger.efi_memory_mappings (Ledger.run s calls)) i = Some d'
      /\ Ledger.phys_addr d' = Ledger.phys_addr d
      /\ Ledger.num_pages d' = Ledger.num_pages d
      /\ (Ledger.type d' = Ledger.type d
          \/ Ledger.type d' = Ledger.EfiConventionalMemory)
      /\ (length (Ledger.efi_memory_mappings s)
          <= length (Ledger.efi_memory_mappings (Ledger.run s calls)))%nat.
Proof.
  intros s calls i d Hi.
  destruct (run_history calls s) as (kept & added & E & Hk).
  destruct (retagged_nth kept _ i d Hk Hi) as (d' & Hd' & Hr).
  exists d'. rewrite E. split.
  - rewrite nth_error_app1; [exact Hd'|].
    apply nth_error_Some. congruence.
  - assert (Hlen : length kept = length (Ledger.efi_memory_mappings s))
      by (eapply Forall2_length; exact Hk).
    rewrite length_app.
    destruct Hr as [->| ->]; cbn [Ledger.set_type Ledger.phys_addr
                                  Ledger.num_pages Ledger.type];
      repeat split; auto; lia.
Qed.

Lemma descriptors_persist_witness :
  exists d',
    nth_error (Ledger.efi_memory_mappings
                 (Ledger.run (Ledger.run Ledger.initial_state
                                [LedgerExample.alloc_at 0x1000 2])
                    [Ledger.CallFreePages 0x1000 2;
                     LedgerExample.alloc_at 0x2000 1])) 0 = Some d'
    /\ Ledger.phys_addr d' = 0x1000 /\ Ledger.num_pages d' = 2.
Proof.
  destruct (descriptors_persist
              (Ledger.run Ledger.initial_state [LedgerExample.alloc_at 0x1000 2])
              [Ledger.CallFreePages 0x1000 2; LedgerExample.alloc_at 0x2000 1]
              0%nat (LedgerSpec.descriptor Ledger.EfiLoaderData 0x1000 2))
    as (d' & H1 & H2 & H3 & _).
  - reflexivity.
  - exists d'. split; [exact H1|]. split; [exact H2 | exact H3].
Defined.

(** ** The memory map as the guest reads it *)

Section MapLayout.
Import Mem Ledger LedgerSpec.

Lemma le_value_bytes n : forall v,
    le_value (le_bytes n v) = v mod 2 ^ (8 * Z.of_nat n).
Proof.
  induction n as [|n IH]; intros v.
  - cbn. rewrite Z.mod_1_r. reflexivity.
  - cbn [le_bytes le_value]. rewrite IH, Nat2Z.inj_succ. unfold Z.succ.
    apply pow256_step. lia.
Qed.

Lemma le_bytes_inj n v w :
  0 <= v < 2 ^ (8 * Z.of_nat n) -> 0 <= w < 2 ^ (8 * Z.of_nat n) ->
  le_bytes n v = le_bytes n w -> v = w.
Proof.
  intros Hv Hw E. apply (f_equal le_value) in E.
  rewrite !le_value_bytes, !Z.mod_small in E; assumption.
Qed.

Lemma app_inj_length (A : Type) (a1 : list A) : forall a2 b1 b2,
    length a1 = length a2 -> a1 ++ b1 = a2 ++ b2 -> a1 = a2 /\ b1 = b2.
Proof.
  induction a1 as [|x a1 IH]; intros [|y a2] b1 b2 Hl E; try discriminate.
  - split; [reflexivity | exact E].
  - cbn in Hl, E. inversion E; subst.
    destruct (IH a2 b1 b2 ltac:(lia) H1) as [-> ->]. split; reflexivity.
Qed.

Lemma skipn_block (bytes rest : list Z) :
  skipn (length bytes) (bytes ++ rest) = rest.
Proof. rewrite skipn_app, skipn_all, Nat.sub_diag. reflexivity. Qed.

Lemma firstn_block (bytes rest : list Z) :
  firstn (length bytes) (bytes ++ rest) = bytes.
Proof.
  rewrite firstn_app, Nat.sub_diag, firstn_all. cbn [firstn].
  apply app_nil_r.
Qed.

Lemma descriptor_bytes_length_nat d : length (descriptor_bytes d) = 48%nat.
Proof.
  unfold descriptor_bytes. rewrite !length_app, !le_bytes_length. reflexivity.
Qed.

(** The [i]-th block of 48 bytes holds the [i]-th descriptor. *)
Lemma flat_map_block l : forall i d rest,
    nth_error l i = Some d ->
    firstn 48 (skipn (48 * i) (flat_map descriptor_bytes l ++ rest))
    = descriptor_bytes d.
Proof.
  induction l as [|d0 l IH]; intros i d rest Hi; [destruct i; discriminate|].
  cbn [flat_map]. rewrite <- app_assoc. destruct i as [|i].
  - inversion Hi; subst d0. cbn [Nat.mul skipn].
    rewrite <- (descriptor_bytes_length_nat d). apply firstn_block.
  - cbn [nth_error] in Hi.
    replace (48 * S i)%nat with (48 * i + 48)%nat by lia.
    rewrite <- skipn_skipn.
    replace (skipn 48 (descriptor_bytes d0
                       ++ flat_map descriptor_bytes l ++ rest))
      with (flat_map descriptor_bytes l ++ rest)
      by (rewrite <- (descriptor_bytes_length_nat d0);
          symmetry; apply skipn_block).
    apply IH. exact Hi.
Qed.

End MapLayout.

(** X11.  The 48 bytes written for a descriptor determine it: two
    descriptors whose fields hold values of their C types and whose byte
    images are equal are equal. *)
Theorem descriptor_bytes_injective :
  forall d1 d2 : Ledger.EFI_MEMORY_DESCRIPTOR,
    LedgerSpec.descriptor_ok d1 -> LedgerSpec.descriptor_ok d2 ->
    Ledger.descriptor_bytes d1 = Ledger.descriptor_bytes d2 ->
    d1 = d2.
Proof.
  intros d1 d2 (T1 & P1 & A1 & V1 & N1 & B1 & Q1) (T2 & P2 & A2 & V2 & N2 & B2 & Q2) E.
  unfold Ledger.descriptor_bytes in E.
  repeat match type of E with
         | _ ++ _ = _ ++ _ =>
             apply app_inj_length in E;
             [|rewrite !le_bytes_length; reflexivity];
             let H := fresh "F" in destruct E as [H E]
         end.
  apply le_bytes_inj in F, F0, F1, F2, F3, F4, E; try assumption.
  destruct d1, d2. cbn in *. subst. reflexivity.
Qed.

Lemma descriptor_bytes_injective_witness :
  LedgerExample.one_page = LedgerSpec.descriptor Ledger.EfiLoaderData 0x2000 1.
Proof.
  apply descriptor_bytes_injective.
  - unfold LedgerSpec.descriptor_ok.
    repeat split; vm_compute; (discriminate || reflexivity).
  - unfold LedgerSpec.descriptor_ok.
    repeat split; vm_compute; (discriminate || reflexivity).
  - reflexivity.
Defined.

(** X12.  After a successful [GetMemoryMap] the guest finds descriptor
    number [i] of the ledger in the 48 bytes at offset [48 * i] of its
    buffer, for every [i] below the number of descriptors. *)
Theorem memory_map_block :
  forall (s : Ledger.efi_state) (size : Z) (buffer : list Z) (key : Z)
         (i : nat) (d : Ledger.EFI_MEMORY_DESCRIPTOR),
    Z.of_nat (length (Ledger.efi_memory_mappings s)) < 2 ^ 32 ->
    Z.of_nat (length (Ledger.efi_memory_mappings s)) * Ledger.sizeof_descriptor
    <= size ->
    size <= Z.of_nat (length buffer) ->
    nth_error (Ledger.efi_memory_mappings s) i = Some d ->
    let r := Ledger.efi_hook_GetMemoryMap s size buffer key in
    Ledger.status r = Ledger.EFI_SUCCESS
    /\ Ledger.DescriptorSize r = 48
    /\ firstn 48 (skipn (48 * i) (Ledger.MemoryMap r))
       = Ledger.descriptor_bytes d.
Proof.
  intros s size buffer key i d Hn Hsize Hbuf Hi r.
  unfold r, Ledger.efi_hook_GetMemoryMap.
  rewrite (mem_map_size_exact s Hn).
  destruct (Z.ltb_spec size
              (Z.of_nat (length (Ledger.efi_memory_mappings s))
               * Ledger.sizeof_descriptor)); [lia|].
  pose proof (copy_descriptors_layout (Ledger.efi_memory_mappings s) []
                buffer) as Hcopy.
  cbn [length app Z.of_nat] in Hcopy. rewrite Hcopy by lia.
  cbn [Ledger.status Ledger.DescriptorSize Ledger.MemoryMap].
  split; [reflexivity|]. split; [reflexivity|].
  apply flat_map_block. exact Hi.
Qed.

Lemma memory_map_block_witness :
  firstn 48
    (skipn (48 * 1)
       (Ledger.MemoryMap
          (Ledger.efi_hook_GetMemoryMap
             (Ledger.run Ledger.initial_state LedgerExample.reuse_freed)
             96 (repeat 0xFF 100) 0)))
  = Ledger.descriptor_bytes LedgerExample.one_page.
Proof.
  apply (memory_map_block
           (Ledger.run Ledger.initial_state LedgerExample.reuse_freed)
           96 (repeat 0xFF 100) 0 1%nat LedgerExample.one_page).
  - vm_compute. reflexivity.
  - vm_compute. discriminate.
  - vm_compute. discriminate.
  - reflexivity.
Defined.

(** ** Protocol queries *)

(** X13.  On GUIDs whose fields hold values of their C types,
    [CompareGuid] returns [0] exactly when the two GUIDs are equal. *)
Theorem CompareGuid_zero_iff :
  forall g1 g2 : Guid.EFI_GUID,
    Guid.guid_ok g1 -> Guid.guid_ok g2 ->
    (Guid.CompareGuid g1 g2 = 0 <-> g1 = g2).
Proof.
  intros g1 g2 H1 H2. split.
  - apply CompareGuid_eq; assumption.
  - intros ->. apply CompareGuid_refl.
Qed.

Lemma CompareGuid_zero_iff_witness :
  Guid.CompareGuid GuidExample.zero GuidExample.reset_vector <> 0.
Proof.
  intros H.
  apply (CompareGuid_zero_iff GuidExample.zero GuidExample.reset_vector) in H.
  - discriminate H.
  - apply guid_okb_ok. reflexivity.
  - apply guid_okb_ok. reflexivity.
Defined.


(** X15.  [efi_hook_OpenProtocol] serves one protocol.  For the
    SimpleTextInputEx GUID it returns [EFI_SUCCESS] and [&con_in] when the
    handle is [CON_IN_HANDLE], and [EFI_UNSUPPORTED] with [*Interface]
    untouched for any other handle; for every other well-formed GUID it
    returns [EFI_UNSUPPORTED] with [*Interface] untouched. *)
Theorem open_protocol_console_only :
  forall (con_in UserHandle : Z) (g : Guid.EFI_GUID) (Interface : Guid.pointer)
         (ImageHandle ControllerHandle Attributes : Z),
    Guid.guid_ok g ->
    let r := Console.efi_hook_OpenProtocol con_in UserHandle (Some g) Interface
               ImageHandle ControllerHandle Attributes in
    (g <> Console.SimpleTextInputExProtocolGuid ->
       r = Some (Ledger.EFI_UNSUPPORTED, Interface))
    /\ (g = Console.SimpleTextInputExProtocolGuid ->
        UserHandle = Console.CON_IN_HANDLE ->
        r = Some (Ledger.EFI_SUCCESS, Guid.address con_in))
    /\ (g = Console.SimpleTextInputExProtocolGuid ->
        UserHandle <> Console.CON_IN_HANDLE ->
        r = Some (Ledger.EFI_UNSUPPORTED, Interface)).
Proof.
  intros con_in handle g iface ih ch attrs Hok r.
  unfold r, Console.efi_hook_OpenProtocol. cbn [Guid.get_GUID_str].
  assert (Hname : Guid.GetGuidName (Some Console.SimpleTextInputExProtocolGuid)
                  = Some ("gEfiSimpleTextInputExProtocolGuid"%string, 300%nat))
    by (vm_compute; reflexivity).
  split; [|split].
  - intros Hne. cbn [Guid.GetGuidName].
    destruct (scan_total g Guid.NUM_GUID_MAPPINGS 0%nat) as (name & k & H & _).
    { rewrite table_length. lia. }
    rewrite H.
    destruct (scan_name _ _ _ _ _ H) as [->|(e & Hin & Hn & Hz)];
      [reflexivity|].
    assert (Hg : Guid.Guid e = g)
      by (symmetry; apply CompareGuid_eq; auto using table_ok).
    destruct (String.eqb_spec name "gEfiSimpleTextInputExProtocolGuid")
      as [E|_]; [|reflexivity].
    exfalso. apply Hne. rewrite <- Hg.
    apply (name_belongs_to_sound "gEfiSimpleTextInputExProtocolGuid");
      [vm_compute; reflexivity | exact Hin | congruence].
  - intros -> ->. rewrite Hname. reflexivity.
  - intros -> Hne. rewrite Hname.
    change (String.eqb "gEfiSimpleTextInputExProtocolGuid"
                       "gEfiSimpleTextInputExProtocolGuid") with true.
    cbv iota. unfold Console.efi_handle_protocol_SimpleTextInputExProtocol.
    apply Z.eqb_neq in Hne. rewrite Hne. reflexivity.
Qed.

Lemma open_protocol_console_only_witness :
  Console.efi_hook_OpenProtocol 0x1000 Console.CON_IN_HANDLE
    (Some Console.SimpleTextInputExProtocolGuid) Guid.NULL 0 0 0
  = Some (Ledger.EFI_SUCCESS, Guid.address 0x1000).
Proof.
  apply (open_protocol_console_only 0x1000 Console.CON_IN_HANDLE
           Console.SimpleTextInputExProtocolGuid Guid.NULL 0 0 0).
  - apply guid_okb_ok. reflexivity.
  - reflexivity.
  - reflexivity.
Defined.

(** ** Wide strings *)

Section WideStrings.
Import Mem WString.

Lemma sint32_small z : 0 <= z < 2 ^ 31 -> sint32 z = z.
Proof.
  intros H. unfold sint32. rewrite wrap32_small by lia.
  destruct (Z.ltb_spec z (2 ^ 31)); lia.
Qed.

Lemma char_at_text s j : text s -> 0 <= j < len s -> 1 <= char_at s j < 256.
Proof.
  unfold text, char_at, len. intros Ht Hj. rewrite Forall_forall in Ht.
  apply Ht. apply nth_In. lia.
Qed.

Lemma char_at_end s : char_at s (len s) = 0.
Proof.
  unfold char_at, len. rewrite Nat2Z.id. apply nth_overflow. lia.
Qed.

Lemma store8_load8 m a v x :
  load8 (store8 m a v) x
  = if wrap64 x =? wrap64 a then v mod 256 else load8 m x.
Proof.
  unfold load8, store8. destruct (wrap64 x =? wrap64 a); [|reflexivity].
  apply Z.mod_mod. lia.
Qed.

Lemma not_in_later_window a p q n :
  0 <= p < q -> q + Z.of_nat n <= 2 ^ 64 ->
  ~ in_window (a + q) n (wrap64 (a + p)).
Proof.
  intros Hp Hq (t & Ht & Eq).
  apply (window_distinct a p (q + t)); [lia | lia|].
  rewrite Eq. f_equal. lia.
Qed.

Variable dst src max : Z.
Variable s : list Z.
Hypothesis Htext : text s.
Hypothesis Hmax : 0 <= max < 2 ^ 31 - 1.

(** The loop from index [i] on, in a memory that still holds the source
    and where destination and source do not meet. *)
Lemma set_wstring_loop_spec (r : nat) : forall fuel i m,
    (r < fuel)%nat -> 0 <= i -> i + Z.of_nat r = units s max ->
    (0 < r)%nat \/ max <= 2 * i ->
    (forall j, i <= j < units s max -> load8 m (src + j) = char_at s j) ->
    (forall x, in_window dst (Z.to_nat (2 * units s max)) x ->
               ~ in_window src (Z.to_nat (units s max)) x) ->
    exists m',
      set_wstring_loop fuel m dst src max i = Some m'
      /\ (forall j, i <= j < units s max ->
                    load8 m' (dst + 2 * j) = char_at s j
                    /\ load8 m' (dst + 2 * j + 1) = 0)
      /\ (forall x, ~ in_window (dst + 2 * i) (2 * r) x -> m' x = m x).
Proof.
  assert (Hk : units s max <= len s + 1 /\ 2 * units s max <= max + 1)
    by (unfold units; split; [lia | Z.to_euclidean_division_equations; lia]).
  induction r as [|r IH]; intros fuel i m Hf Hi Hr Hgo Hsrc Hsep;
    (destruct fuel as [|fuel]; [lia|]); cbn [set_wstring_loop].
  - destruct Hgo as [Hgo|Hgo]; [lia|].
    rewrite sint32_small, wrap64_small by lia.
    destruct (Z.ltb_spec (i * 2) max); [lia|].
    exists m. split; [reflexivity|]. split; [intros j Hj; lia | reflexivity].
  - assert (Hik : i < units s max) by lia.
    assert (H2i : 2 * i + 1 < 2 ^ 31) by lia.
    rewrite (sint32_small (i * 2)), (sint32_small (i * 2 + 1)) by lia.
    rewrite (wrap64_small (i * 2)) by lia.
    destruct (Z.ltb_spec (i * 2) max) as [_|Hge]; [|lia].
    set (m1 := store8 m (dst + i * 2) (load8 m (src + i))).
    set (m2 := store8 m1 (dst + (i * 2 + 1)) 0).
    assert (Hout : forall j, 0 <= j < units s max ->
                             wrap64 (src + j) <> wrap64 (dst + i * 2)
                             /\ wrap64 (src + j) <> wrap64 (dst + (i * 2 + 1))).
    { intros j Hj. split; intros E.
      - apply (Hsep (wrap64 (dst + i * 2))).
        + exists (i * 2). split; [lia | reflexivity].
        + exists j. split; [lia | symmetry; exact E].
      - apply (Hsep (wrap64 (dst + (i * 2 + 1)))).
        + exists (i * 2 + 1). split; [lia | reflexivity].
        + exists j. split; [lia | symmetry; exact E]. }
    assert (Hsrc2 : forall j, i <= j < units s max ->
                              load8 m2 (src + j) = char_at s j).
    { intros j Hj. unfold m2, m1. rewrite !store8_load8.
      destruct (Hout j ltac:(lia)) as [H1 H2].
      apply Z.eqb_neq in H1, H2. rewrite H1, H2. apply Hsrc. exact Hj. }
    assert (Hhere : load8 m2 (dst + 2 * i) = char_at s i
                    /\ load8 m2 (dst + 2 * i + 1) = 0).
    { unfold m2, m1. rewrite !store8_load8. split.
      - replace (dst + 2 * i) with (dst + i * 2) by lia.
        assert (Hd : wrap64 (dst + i * 2) <> wrap64 (dst + (i * 2 + 1))).
        { replace (dst + (i * 2 + 1)) with (dst + i * 2 + 1) by lia.
          apply wrap64_shift_neq. lia. }
        apply Z.eqb_neq in Hd. rewrite Hd, Z.eqb_refl, Hsrc by lia.
        apply Z.mod_small.
        destruct (Z.eq_dec i (len s)) as [->|Hne];
          [rewrite char_at_end; lia|].
        pose proof (char_at_text s i Htext ltac:(lia)). lia.
      - replace (dst + 2 * i + 1) with (dst + (i * 2 + 1)) by lia.
        rewrite Z.eqb_refl. reflexivity. }
    assert (Hframe2 : forall x, ~ in_window (dst + 2 * i) 2 x -> m2 x = m x).
    { intros x Hx. unfold m2, m1. rewrite !store8_other; [reflexivity| |].
      - intros ->. apply Hx. exists 0. split; [lia|]. f_equal. lia.
      - intros ->. apply Hx. exists 1. split; [lia|]. f_equal. lia. }
    rewrite (Hsrc2 i) by lia.
    destruct (Z.eqb_spec (char_at s i) 0) as [Hz|Hnz].
    + (* the terminator was copied *)
      assert (Hlast : i = len s).
      { destruct (Z.eq_dec i (len s)); [assumption|].
        pose proof (char_at_text s i Htext ltac:(lia)). lia. }
      exists m2. split; [reflexivity|]. split.
      * intros j Hj. assert (j = i) by lia. subst j. exact Hhere.
      * intros x Hx. apply Hframe2. intros Hw. apply Hx.
        apply (in_window_prefix (dst + 2 * i) 2); [lia | exact Hw].
    + rewrite sint32_small by lia.
      destruct (IH fuel (i + 1) m2) as (m' & E & Hcont & Hframe); try lia;
        try assumption.
      { destruct r as [|r]; [right | left; lia].
        assert (i <> len s)
          by (intros ->; rewrite char_at_end in Hnz; lia).
        unfold units in *. Z.to_euclidean_division_equations. lia. }
      { intros j Hj. apply Hsrc2. lia. }
      exists m'. split; [exact E|]. split.
      * intros j Hj. destruct (Z.eq_dec j i) as [->|Hne].
        -- destruct Hhere as [H1 H2].
           assert (F1 : m' (wrap64 (dst + 2 * i)) = m2 (wrap64 (dst + 2 * i))).
           { apply Hframe.
             replace (dst + 2 * (i + 1)) with (dst + (2 * i + 2)) by lia.
             apply not_in_later_window; lia. }
           assert (F2 : m' (wrap64 (dst + 2 * i + 1))
                        = m2 (wrap64 (dst + 2 * i + 1))).
           { apply Hframe.
             replace (dst + 2 * i + 1) with (dst + (2 * i + 1)) by lia.
             replace (dst + 2 * (i + 1)) with (dst + (2 * i + 2)) by lia.
             apply not_in_later_window; lia. }
           unfold load8 in *. rewrite F1, F2. split; assumption.
        -- apply Hcont. lia.
      * intros x Hx. rewrite Hframe.
        -- apply Hframe2. intros Hw. apply Hx.
           apply (in_window_prefix (dst + 2 * i) 2); [lia | exact Hw].
        -- intros (t & Ht & ->). apply Hx. exists (2 + t). split; [lia|].
           f_equal. lia.
Qed.

End WideStrings.

Section WcharLoop.
Import Mem WString.

Variable out cap w : Z.
Variable s : list Z.
Hypothesis Htext : text s.
Hypothesis Hcap : 0 <= cap < 2 ^ 31.

Lemma wchar_loop_spec (r : nat) : forall fuel i m,
    (r < fuel)%nat -> 0 <= i -> i + Z.of_nat r = Z.min (len s) cap ->
    (forall j, 0 <= j <= len s -> load8 m (w + 2 * j) = char_at s j) ->
    (forall x, in_window out (Z.to_nat (Z.min (len s) cap)) x ->
               ~ in_window w (Z.to_nat (2 * len s + 1)) x) ->
    exists m',
      wchar_loop fuel m out cap w i = Some m'
      /\ (forall j, i <= j < Z.min (len s) cap ->
                    load8 m' (out + j) = char_at s j)
      /\ (forall x, ~ in_window (out + i) r x -> m' x = m x).
Proof.
  assert (Hlen : 0 <= len s) by (unfold len; lia).
  induction r as [|r IH]; intros fuel i m Hf Hi Hr Hsrc Hsep;
    (destruct fuel as [|fuel]; [lia|]); cbn [wchar_loop].
  - destruct (Z.ltb_spec i cap) as [Hlt|Hge].
    + assert (i = len s) by lia. subst i.
      rewrite wrap32_small by lia.
      replace (len s * 2) with (2 * len s) by lia.
      rewrite Hsrc, char_at_end by lia. cbn [Z.eqb].
      exists m. split; [reflexivity|]. split; [intros j Hj; lia | reflexivity].
    + exists m. split; [reflexivity|]. split; [intros j Hj; lia | reflexivity].
  - destruct (Z.ltb_spec i cap) as [_|Hge]; [|lia].
    rewrite wrap32_small by lia.
    replace (i * 2) with (2 * i) by lia. rewrite Hsrc by lia.
    pose proof (char_at_text s i Htext ltac:(lia)) as Hc.
    destruct (Z.eqb_spec (char_at s i) 0) as [Hz|_]; [lia|].
    rewrite (wrap32_small (i + 1)) by lia.
    set (m1 := store8 m (out + i) (char_at s i)).
    destruct (IH fuel (i + 1) m1) as (m' & E & Hcont & Hframe); try lia.
    { intros j Hj. unfold m1. rewrite store8_load8.
      destruct (Z.eqb_spec (wrap64 (w + 2 * j)) (wrap64 (out + i))) as [Eq|_];
        [|apply Hsrc; exact Hj].
      exfalso. apply (Hsep (wrap64 (out + i))).
      - exists i. split; [lia | reflexivity].
      - exists (2 * j). split; [lia | symmetry; exact Eq]. }
    { exact Hsep. }
    exists m'. split; [exact E|]. split.
    + intros j Hj. destruct (Z.eq_dec j i) as [->|Hne]; [|apply Hcont; lia].
      unfold load8. rewrite Hframe.
      * unfold m1. rewrite store8_same, Z.mod_mod by lia.
        apply Z.mod_small. lia.
      * apply not_in_later_window; lia.
    + intros x Hx. rewrite Hframe.
      * unfold m1. apply store8_other. intros ->. apply Hx.
        exists 0. split; [lia|]. f_equal. lia.
      * intros (t & Ht & ->). apply Hx. exists (1 + t). split; [lia|].
        f_equal. lia.
Qed.

End WcharLoop.

(** X16.  [efi_set_wstring_from_ascii] for a destination size below
    [2^31 - 1] and a source that does not meet the destination: it writes
    [k = min(length + 1, (size + 1) / 2)] 16-bit units, the characters of
    the string with a zero high byte, and nothing outside those [2k]
    bytes.  The terminating NUL is among them only when
    [length + 1 <= (size + 1) / 2]: a longer string is cut without a
    terminator, and for an odd size the last unit ends one byte past the
    size given. *)
Theorem efi_set_wstring_from_ascii_units :
  forall (m : Mem.t) (dst src max : Z) (s : list Z),
    WString.text s ->
    0 <= max < 2 ^ 31 - 1 ->
    WString.holds_cstring m src s ->
    let k := WString.units s max in
    (forall x, Mem.in_window dst (Z.to_nat (2 * k)) x ->
               ~ Mem.in_window src (Z.to_nat k) x) ->
    exists m',
      WString.efi_set_wstring_from_ascii m dst src max = Some m'
      /\ WString.holds_wide m' dst s k
      /\ (forall x, ~ Mem.in_window dst (Z.to_nat (2 * k)) x -> m' x = m x).
Proof.
  intros m dst src max s Htext Hmax Hsrc k Hsep.
  assert (Hlen : 0 <= WString.len s) by (unfold WString.len; lia).
  assert (Hk : 0 <= k /\ k <= WString.len s + 1 /\ 2 * k <= max + 1
               /\ (k = 0 -> max = 0))
    by (unfold k, WString.units; Z.to_euclidean_division_equations; lia).
  destruct (set_wstring_loop_spec dst src max s Htext Hmax (Z.to_nat k)
              (S (Z.to_nat max)) 0 m) as (m' & E & Hcont & Hframe);
    try lia.
  - intros j Hj. apply Hsrc. fold k in Hj. lia.
  - exact Hsep.
  - exists m'. split; [exact E|]. split.
    + intros j Hj. apply Hcont. fold k. lia.
    + intros x Hx. apply Hframe. rewrite Z.add_0_r.
      replace (2 * Z.to_nat k)%nat with (Z.to_nat (2 * k)) by lia. exact Hx.
Qed.

(** X17.  [wchar_to_ascii] on a wide string of non-NUL characters whose
    low bytes do not meet the destination, with [len < 2^31]: it writes
    the first [min(length, len)] characters, one byte each, and nothing
    else; in particular it writes no terminating NUL. *)
Theorem wchar_to_ascii_prefix :
  forall (m : Mem.t) (dst_ascii len src_wchar : Z) (s : list Z),
    WString.text s ->
    0 <= len < 2 ^ 31 ->
    (forall j, 0 <= j <= WString.len s ->
               Mem.load8 m (src_wchar + 2 * j) = WString.char_at s j) ->
    let k := Z.min (WString.len s) len in
    (forall x, Mem.in_window dst_ascii (Z.to_nat k) x ->
               ~ Mem.in_window src_wchar (Z.to_nat (2 * WString.len s + 1)) x) ->
    exists m',
      WString.wchar_to_ascii m dst_ascii len src_wchar = Some m'
      /\ (forall j, 0 <= j < k ->
                    Mem.load8 m' (dst_ascii + j) = WString.char_at s j)
      /\ (forall x, ~ Mem.in_window dst_ascii (Z.to_nat k) x -> m' x = m x).
Proof.
  intros m out cap w s Htext Hcap Hsrc k Hsep.
  assert (Hlen : 0 <= WString.len s) by (unfold WString.len; lia).
  destruct (wchar_loop_spec out cap w s Htext Hcap (Z.to_nat k)
              (S (Z.to_nat cap)) 0 m) as (m' & E & Hcont & Hframe);
    try lia; try assumption.
  exists m'. split; [exact E|]. split.
  - intros j Hj. apply Hcont. exact Hj.
  - intros x Hx. apply Hframe. rewrite Z.add_0_r. exact Hx.
Qed.

(** X18.  Round trip: a string of non-NUL characters that fits its
    destination with its terminator, widened by
    [efi_set_wstring_from_ascii] and narrowed again by [wchar_to_ascii]
    into a separate buffer that can take it, comes back byte for byte;
    outside the wide buffer and the narrow buffer memory is unchanged. *)
Theorem wide_string_round_trip :
  forall (m : Mem.t) (wide src max : Z) (narrow len : Z) (s : list Z),
    WString.text s ->
    2 * (WString.len s + 1) <= max < 2 ^ 31 - 1 ->
    WString.len s <= len < 2 ^ 31 ->
    WString.holds_cstring m src s ->
    (forall x, Mem.in_window wide (Z.to_nat (2 * (WString.len s + 1))) x ->
               ~ Mem.in_window src (Z.to_nat (WString.len s + 1)) x) ->
    (forall x, Mem.in_window narrow (Z.to_nat (WString.len s)) x ->
               ~ Mem.in_window wide (Z.to_nat (2 * (WString.len s + 1))) x) ->
    exists m1 m2,
      WString.efi_set_wstring_from_ascii m wide src max = Some m1
      /\ WString.wchar_to_ascii m1 narrow len wide = Some m2
      /\ (forall j, 0 <= j < WString.len s ->
                    Mem.load8 m2 (narrow + j) = Mem.load8 m (src + j))
      /\ (forall x,
             ~ Mem.in_window wide (Z.to_nat (2 * (WString.len s + 1))) x ->
             ~ Mem.in_window narrow (Z.to_nat (WString.len s)) x ->
             m2 x = m x).
Proof.
  intros m wide src max narrow cap s Htext Hmax Hcap Hsrc Hsep1 Hsep2.
  assert (Hlen : 0 <= WString.len s) by (unfold WString.len; lia).
  assert (Hk : WString.units s max = WString.len s + 1)
    by (unfold WString.units; Z.to_euclidean_division_equations; lia).
  destruct (set_wstring_loop_spec wide src max s Htext ltac:(lia)
              (Z.to_nat (WString.len s + 1)) (S (Z.to_nat max)) 0 m)
    as (m1 & E1 & Hwide & Hframe1); try lia.
  - intros j Hj. apply Hsrc. lia.
  - rewrite Hk. exact Hsep1.
  - rewrite Hk in Hwide.
    assert (Hmin : Z.min (WString.len s) cap = WString.len s) by lia.
    destruct (wchar_loop_spec narrow cap wide s Htext ltac:(lia)
                (Z.to_nat (WString.len s)) (S (Z.to_nat cap)) 0 m1)
      as (m2 & E2 & Hnarrow & Hframe2); try lia.
    + intros j Hj. apply Hwide. lia.
    + rewrite Hmin. intros x Hx Hw. apply (Hsep2 x Hx).
      apply (in_window_prefix wide (Z.to_nat (2 * WString.len s + 1)));
        [lia | exact Hw].
    + exists m1, m2. split; [exact E1|]. split; [exact E2|]. split.
      * intros j Hj. rewrite Hnarrow by lia. symmetry. apply Hsrc. lia.
      * intros x Hx1 Hx2. rewrite Hframe2.
        -- apply Hframe1. rewrite Z.add_0_r.
           replace (2 * Z.to_nat (WString.len s + 1))%nat
             with (Z.to_nat (2 * (WString.len s + 1))) by lia.
           exact Hx1.
        -- rewrite Z.add_0_r. exact Hx2.
Qed.

Section WideStringExample.
Import Mem WString.

Lemma example_text : text WStringExample.s.
Proof. repeat constructor; lia. Qed.

Lemma example_source : holds_cstring WStringExample.m 0x3000 WStringExample.s.
Proof.
  intros j Hj. change (len WStringExample.s) with 3 in Hj.
  assert (Hc : j = 0 \/ j = 1 \/ j = 2 \/ j = 3) by lia.
  destruct Hc as [->|[->|[->| ->]]]; reflexivity.
Qed.

Lemma example_apart a b (p q : nat) :
  0 <= a -> 0 <= b -> a + Z.of_nat p <= b -> b + Z.of_nat q <= 2 ^ 64 ->
  forall x, in_window b q x -> ~ in_window a p x.
Proof.
  intros Ha Hb Hab Hq x (j & Hj & ->) (i & Hi & E).
  rewrite !wrap64_small in E by lia. lia.
Qed.

End WideStringExample.

Lemma efi_set_wstring_from_ascii_units_witness :
  exists m',
    WString.efi_set_wstring_from_ascii WStringExample.m 0x4000 0x3000 98
    = Some m'
    /\ Mem.load8 m' (0x4000 + 2 * 1) = 0x46
    /\ Mem.load8 m' (0x4000 + 2 * 1 + 1) = 0.
Proof.
  destruct (efi_set_wstring_from_ascii_units WStringExample.m 0x4000 0x3000 98
              WStringExample.s example_text ltac:(lia) example_source)
    as (m' & E & Hw & _).
  - change (WString.units WStringExample.s 98) with 4.
    apply example_apart; simpl; lia.
  - exists m'. split; [exact E|].
    change (WString.units WStringExample.s 98) with 4 in Hw.
    exact (Hw 1 ltac:(lia)).
Defined.

(** The wide string of the example narrowed into a buffer of two bytes:
    the first two characters arrive, the third byte of the destination is
    not written. *)
Lemma wchar_to_ascii_prefix_witness :
  exists m',
    WString.wchar_to_ascii WStringExample.wide 0x6000 2 0x5000 = Some m'
    /\ Mem.load8 m' (0x6000 + 0) = 0x45
    /\ Mem.load8 m' (0x6000 + 1) = 0x46
    /\ m' 0x6002 = WStringExample.wide 0x6002.
Proof.
  destruct (wchar_to_ascii_prefix WStringExample.wide 0x6000 2 0x5000
              WStringExample.s example_text)
    as (m' & E & Hcopy & Hframe).
  - lia.
  - intros j Hj. change (WString.len WStringExample.s) with 3 in Hj.
    assert (Hc : j = 0 \/ j = 1 \/ j = 2 \/ j = 3) by lia.
    destruct Hc as [-> | [-> | [-> | ->]]]; reflexivity.
  - change (WString.len WStringExample.s) with 3.
    apply example_apart; simpl; lia.
  - exists m'. split; [exact E|].
    change (Z.min (WString.len WStringExample.s) 2) with 2 in Hcopy, Hframe.
    split; [exact (Hcopy 0 ltac:(lia))|].
    split; [exact (Hcopy 1 ltac:(lia))|].
    apply Hframe. intros (j & Hj & Eq). simpl in Hj.
    unfold Mem.wrap64 in Eq.
    change (2 ^ 64) with 18446744073709551616 in Eq.
    rewrite Z.mod_small in Eq by lia. lia.
Defined.

Lemma wide_string_round_trip_witness :
  exists m1 m2,
    WString.efi_set_wstring_from_ascii WStringExample.m 0x4000 0x3000 98
    = Some m1
    /\ WString.wchar_to_ascii m1 0x6000 1024 0x4000 = Some m2
    /\ Mem.load8 m2 (0x6000 + 1) = Mem.load8 WStringExample.m (0x3000 + 1).
Proof.
  destruct (wide_string_round_trip WStringExample.m 0x4000 0x3000 98
              0x6000 1024 WStringExample.s example_text)
    as (m1 & m2 & E1 & E2 & H & _).
  - change (WString.len WStringExample.s) with 3. lia.
  - change (WString.len WStringExample.s) with 3. lia.
  - exact example_source.
  - change (WString.len WStringExample.s) with 3.
    apply example_apart; simpl; lia.
  - change (WString.len WStringExample.s) with 3.
    apply example_apart; simpl; lia.
  - exists m1, m2. split; [exact E1|]. split; [exact E2|].
    apply H. change (WString.len WStringExample.s) with 3. lia.
Defined.

(** ** The ledger: allocation calls with the mapping step *)

Section AllocateStatus.
Import Mem Ledger LedgerSpec.

Lemma accepted_iff mt :
  accepted mt
  <-> negb (mt =? EfiLoaderData) && negb (mt =? EfiConventionalMemory)
      && negb (mt =? EfiLoaderCode) = false.
Proof.
  unfold accepted. rewrite !andb_false_iff, !negb_false_iff, !Z.eqb_eq.
  tauto.
Qed.

(** A call that returns gives what the hooks of [Ledger] give. *)
Lemma allocate_pool_returns s pt size b h k r :
  Mapping.efi_hook_AllocatePool s pt size b h k = Some r ->
  r = efi_hook_AllocatePool s pt size b h.
Proof.
  unfold Mapping.efi_hook_AllocatePool, efi_hook_AllocatePool.
  destruct (kmalloc_phys h) as [p|]; [|congruence].
  destruct (Mapping.efi_setup_11_mapping k p size); congruence.
Qed.

Lemma allocate_pages_returns s t mt n a h k r :
  Mapping.efi_hook_AllocatePages s t mt n a h k = Some r ->
  r = efi_hook_AllocatePages s t mt n a h.
Proof.
  unfold Mapping.efi_hook_AllocatePages, efi_hook_AllocatePages.
  destruct (negb (mt =? EfiLoaderData) && negb (mt =? EfiConventionalMemory)
            && negb (mt =? EfiLoaderCode)); [congruence|].
  destruct (t =? AllocateAddress).
  { destruct (Mapping.efi_setup_11_mapping k (remap_phys h) _); congruence. }
  destruct (t =? AllocateAnyPages); [|congruence].
  destruct (Mapping.efi_hook_AllocatePool s mt _ 0 h k) as [[[st p] s']|] eqn:E;
    [|discriminate].
  apply allocate_pool_returns in E. rewrite <- E. congruence.
Qed.

(** The outcome of an allocation call that returns, by cases. *)
Lemma allocate_pages_outcome s t mt n a h :
  let r := efi_hook_AllocatePages s t mt n a h in
  let st := fst (fst r) in
  (st = EFI_SUCCESS
   <-> accepted mt
       /\ (t = AllocateAddress
           \/ (t = AllocateAnyPages /\ kmalloc_phys h <> None)))
  /\ (st = EFI_OUT_OF_RESOURCES
      <-> accepted mt /\ t = AllocateAnyPages /\ kmalloc_phys h = None)
  /\ (st = EFI_SUCCESS
      \/ (st = EFI_OUT_OF_RESOURCES /\ snd (fst r) = 0)
      \/ (st = EFI_UNSUPPORTED /\ snd (fst r) = a))
  /\ (st <> EFI_SUCCESS -> snd r = s)
  /\ (node_ok h = false -> snd r = s)
  /\ (length (efi_memory_mappings s)
      <= length (efi_memory_mappings (snd r))
      <= length (efi_memory_mappings s) + 1)%nat.
Proof.
  intros r st. unfold st, r, efi_hook_AllocatePages.
  pose proof (accepted_iff mt) as Hacc.
  destruct (negb (mt =? EfiLoaderData)
            && negb (mt =? EfiConventionalMemory)
            && negb (mt =? EfiLoaderCode)).
  { assert (Hno : ~ accepted mt)
      by (intros Hc; apply Hacc in Hc; discriminate).
    cbn [fst snd]. repeat split; try tauto; try discriminate; try lia. }
  assert (Hyes : accepted mt) by (apply Hacc; reflexivity).
  destruct (Z.eqb_spec t AllocateAddress) as [Ht|Ht].
  { cbn [fst snd with_mappings efi_memory_mappings].
    unfold efi_register_mem_allocation.
    split; [tauto|]. split.
    { split; [discriminate|]. intros (_ & Hany & _).
      unfold AllocateAddress, AllocateAnyPages in *. lia. }
    split; [left; reflexivity|]. split; [congruence|]. split.
    - intros ->. destruct s. reflexivity.
    - destruct (node_ok h); [rewrite length_app; cbn [length]|]; lia. }
  destruct (Z.eqb_spec t AllocateAnyPages) as [Ha|Ha].
  { unfold efi_hook_AllocatePool.
    destruct (kmalloc_phys h) as [p|].
    - cbn [fst snd with_mappings efi_memory_mappings].
      unfold efi_register_mem_allocation.
      split; [split; [intros _; split; [exact Hyes|right; split; [exact Ha|discriminate]] | reflexivity]|].
      split; [split; [discriminate | intros (_ & _ & Hc); discriminate]|].
      split; [left; reflexivity|]. split; [congruence|]. split.
      + intros ->. destruct s. reflexivity.
      + destruct (node_ok h); [rewrite length_app; cbn [length]|]; lia.
    - cbn [fst snd].
      split; [split; [discriminate | intros (_ & [Hc|(_ & Hc)]); [contradiction | congruence]]|].
      split; [split; [intros _; repeat split; assumption | reflexivity]|].
      split; [right; left; split; reflexivity|].
      repeat split; try reflexivity; lia. }
  cbn [fst snd].
  split; [split; [discriminate | intros (_ & [Hc|(Hc & _)]); contradiction]|].
  split; [split; [discriminate | intros (_ & Hc & _); contradiction]|].
  split; [right; right; split; reflexivity|].
  repeat split; try reflexivity; lia.
Qed.

End AllocateStatus.

(** X7.  [AllocatePages] in the any-address mode, for an accepted memory
    type and a page count below [2^52].  When the pool [kmalloc] fails the
    call returns [EFI_OUT_OF_RESOURCES], stores [0] in [*Memory] and
    leaves the ledger alone.  When it succeeds at physical address [p],
    the call returns exactly when [efi_setup_11_mapping] does; it then
    returns [EFI_SUCCESS] with [p] in [*Memory], and the ledger has one
    more descriptor, at [p] with the requested number of pages (a request
    for [0] pages is recorded as [2^52] pages), unless the list node could
    not be allocated: then the ledger is unchanged. *)
Theorem allocate_any_pages :
  forall (s : Ledger.efi_state) (MemoryType NumberOfPages Memory : Z)
         (h : Ledger.host) (k : Mapping.mm_answers),
    LedgerSpec.accepted MemoryType ->
    0 <= NumberOfPages < 2 ^ 52 ->
    let r := Mapping.efi_hook_AllocatePages s Ledger.AllocateAnyPages
               MemoryType NumberOfPages Memory h k in
    match Ledger.kmalloc_phys h with
    | None => r = Some (Ledger.EFI_OUT_OF_RESOURCES, 0, s)
    | Some p =>
        0 <= p < 2 ^ 64 ->
        if Mapping.efi_setup_11_mapping k p (NumberOfPages * Ledger.PAGE_SIZE)
        then
          r = Some
                (Ledger.EFI_SUCCESS, p,
                 Ledger.with_mappings s
                   (if Ledger.node_ok h then
                      Ledger.efi_memory_mappings s
                      ++ [LedgerSpec.descriptor MemoryType p
                            (if NumberOfPages =? 0 then 2 ^ 52
                             else NumberOfPages)]
                    else Ledger.efi_memory_mappings s))
        else r = None
    end.
Proof.
  intros s mt n Memory h k Hmt Hn r.
  unfold r, Mapping.efi_hook_AllocatePages.
  rewrite (accepted_gate mt Hmt).
  change (Ledger.AllocateAnyPages =? Ledger.AllocateAddress) with false.
  change (Ledger.AllocateAnyPages =? Ledger.AllocateAnyPages) with true.
  cbv iota. unfold Mapping.efi_hook_AllocatePool.
  destruct (Ledger.kmalloc_phys h) as [p|]; [|reflexivity].
  intros Hp.
  assert (Hsz : Mem.wrap64 (n * Ledger.PAGE_SIZE) = n * Ledger.PAGE_SIZE)
    by (apply wrap64_small; unfold Ledger.PAGE_SIZE; lia).
  rewrite Hsz.
  destruct (Mapping.efi_setup_11_mapping k p _); [|reflexivity].
  unfold Ledger.efi_register_mem_allocation.
  rewrite (accepted_wrap32 mt Hmt), (wrap64_small p Hp).
  unfold LedgerSpec.descriptor.
  destruct (Ledger.node_ok h); [|reflexivity].
  destruct (Z.eqb_spec n 0) as [->|Hne].
  - reflexivity.
  - rewrite <- Hsz, NUM_PAGES_of_pages by lia.
    rewrite (wrap64_small n) by lia. reflexivity.
Qed.

(** The pool of 200 pages that [launch_efi_app] asks for, against a
    ledger that already holds two descriptors. *)
Lemma allocate_any_pages_witness :
  Mapping.efi_hook_AllocatePages LedgerExample.used Ledger.AllocateAnyPages
    Ledger.EfiConventionalMemory 200 0x100000 LedgerExample.pool_at_2G
    (LedgerExample.fresh_area 0x80000000 0x800C8000)
  = Some (Ledger.EFI_SUCCESS, 0x80000000,
          Ledger.with_mappings LedgerExample.used
            [LedgerExample.freed_two_pages; LedgerExample.one_page;
             LedgerSpec.descriptor Ledger.EfiConventionalMemory
               0x80000000 200]).
Proof.
  apply (allocate_any_pages LedgerExample.used Ledger.EfiConventionalMemory
           200 0x100000 LedgerExample.pool_at_2G
           (LedgerExample.fresh_area 0x80000000 0x800C8000)).
  - right; left; reflexivity.
  - lia.
  - lia.
Defined.

(** X19.  [AllocatePages] fails to return in two cases only, both for an
    accepted memory type: in the fixed-address mode, and in the
    any-address mode after a successful pool [kmalloc], when
    [efi_setup_11_mapping] does not return.  When the call returns, it
    returns [EFI_SUCCESS] exactly for an accepted memory type with either
    the fixed-address mode or the any-address mode and a successful pool
    [kmalloc]; [EFI_OUT_OF_RESOURCES] exactly for an accepted type in the
    any-address mode when that [kmalloc] fails, and then [*Memory] is
    overwritten with 0; [EFI_UNSUPPORTED], with [*Memory] untouched, in
    every other case, among them the max-address mode.  Without
    [EFI_SUCCESS] the ledger is unchanged; it is also unchanged under
    [EFI_SUCCESS] when the list node could not be allocated.  The ledger
    never grows by more than one descriptor. *)
Theorem allocate_pages_status :
  forall (s : Ledger.efi_state) (Type_ MemoryType NumberOfPages Memory : Z)
         (h : Ledger.host) (k : Mapping.mm_answers),
    let size := Mem.wrap64 (NumberOfPages * Ledger.PAGE_SIZE) in
    let r := Mapping.efi_hook_AllocatePages s Type_ MemoryType NumberOfPages
               Memory h k in
    (r = None
     <-> LedgerSpec.accepted MemoryType
         /\ ((Type_ = Ledger.AllocateAddress
              /\ Mapping.efi_setup_11_mapping k (Ledger.remap_phys h) size
                 = false)
             \/ (Type_ = Ledger.AllocateAnyPages
                 /\ exists p, Ledger.kmalloc_phys h = Some p
                              /\ Mapping.efi_setup_11_mapping k p size
                                 = false)))
    /\ forall st memory s',
        r = Some (st, memory, s') ->
        (st = Ledger.EFI_SUCCESS
         <-> LedgerSpec.accepted MemoryType
             /\ (Type_ = Ledger.AllocateAddress
                 \/ (Type_ = Ledger.AllocateAnyPages
                     /\ Ledger.kmalloc_phys h <> None)))
        /\ (st = Ledger.EFI_OUT_OF_RESOURCES
            <-> LedgerSpec.accepted MemoryType
                /\ Type_ = Ledger.AllocateAnyPages
                /\ Ledger.kmalloc_phys h = None)
        /\ (st = Ledger.EFI_SUCCESS
            \/ (st = Ledger.EFI_OUT_OF_RESOURCES /\ memory = 0)
            \/ (st = Ledger.EFI_UNSUPPORTED /\ memory = Memory))
        /\ (st <> Ledger.EFI_SUCCESS -> s' = s)
        /\ (Ledger.node_ok h = false -> s' = s)
        /\ (length (Ledger.efi_memory_mappings s)
            <= length (Ledger.efi_memory_mappings s')
            <= length (Ledger.efi_memory_mappings s) + 1)%nat.
Proof.
  intros s t mt n a h k size r. split.
  - unfold r, Mapping.efi_hook_AllocatePages. fold size.
    pose proof (accepted_iff mt) as Hacc.
    destruct (negb (mt =? Ledger.EfiLoaderData)
              && negb (mt =? Ledger.EfiConventionalMemory)
              && negb (mt =? Ledger.EfiLoaderCode)).
    { split; [discriminate|]. intros [Hc _]. apply Hacc in Hc. discriminate. }
    assert (Hyes : LedgerSpec.accepted mt) by (apply Hacc; reflexivity).
    destruct (Z.eqb_spec t Ledger.AllocateAddress) as [Ht|Ht].
    { destruct (Mapping.efi_setup_11_mapping k (Ledger.remap_phys h) size)
        eqn:E.
      - split; [discriminate|].
        intros (_ & [(_ & Hc)|(Hc & _)]); [discriminate|].
        unfold Ledger.AllocateAddress, Ledger.AllocateAnyPages in *. lia.
      - split; [|reflexivity]. intros _. split; [exact Hyes|].
        left. split; [exact Ht | reflexivity]. }
    destruct (Z.eqb_spec t Ledger.AllocateAnyPages) as [Hy|Hy].
    { unfold Mapping.efi_hook_AllocatePool.
      destruct (Ledger.kmalloc_phys h) as [p|].
      - destruct (Mapping.efi_setup_11_mapping k p size) eqn:E.
        + split; [discriminate|].
          intros (_ & [(Hc & _)|(_ & q & Hq & Hf)]); [contradiction|].
          inversion Hq; subst q. congruence.
        + split; [|reflexivity]. intros _. split; [exact Hyes|].
          right. split; [exact Hy|]. exists p. split; [reflexivity|exact E].
      - split; [discriminate|].
        intros (_ & [(Hc & _)|(_ & q & Hq & _)]);
          [contradiction | discriminate]. }
    split; [discriminate|].
    intros (_ & [(Hc & _)|(Hc & _)]); contradiction.
  - intros st memory s' E. apply allocate_pages_returns in E.
    pose proof (allocate_pages_outcome s t mt n a h) as H.
    rewrite <- E in H. exact H.
Qed.

(** A second request of two pages at an address where one page is mapped
    1:1 stops in [BUG_ON( vma->vm_end < end )]; the same request for one
    page returns. *)
Example allocate_pages_window_too_short :
  Mapping.efi_hook_AllocatePages Ledger.initial_state Ledger.AllocateAddress
    Ledger.EfiLoaderData 2 0x100000 (Ledger.remap_at 0x100000)
    LedgerExample.page_mapped_at_1M = None
  /\ option_map (fun r => fst (fst r))
       (Mapping.efi_hook_AllocatePages Ledger.initial_state
          Ledger.AllocateAddress Ledger.EfiLoaderData 1 0x100000
          (Ledger.remap_at 0x100000) LedgerExample.page_mapped_at_1M)
     = Some Ledger.EFI_SUCCESS.
Proof. vm_compute. split; reflexivity. Qed.

(** X10.  Take a ledger whose descriptors do not wrap the address space
    and none of which contains [address], an accepted memory type, a
    count of at least one page and a range that ends below [2^64].  If
    the re-map of the fixed-address mode lands at [address], the list
    node can be allocated and [efi_setup_11_mapping] returns, then
    allocating [count] pages at [address] returns [EFI_SUCCESS], and
    freeing the same address and count afterwards returns [EFI_SUCCESS]
    and leaves the ledger with one more descriptor than at the start: at
    that address, of that page count, tagged free. *)
Theorem allocate_then_free :
  forall (s : Ledger.efi_state) (MemoryType count address : Z)
         (h : Ledger.host) (k : Mapping.mm_answers),
    LedgerSpec.accepted MemoryType ->
    Forall Ledger.fits (Ledger.efi_memory_mappings s) ->
    (forall d0, In d0 (Ledger.efi_memory_mappings s) ->
                ~ Ledger.in_range d0 address) ->
    0 <= address -> 1 <= count ->
    address + count * Ledger.PAGE_SIZE < 2 ^ 64 ->
    Ledger.remap_phys h = address -> Ledger.node_ok h = true ->
    Mapping.efi_setup_11_mapping k address (count * Ledger.PAGE_SIZE) = true ->
    exists allocated,
      Mapping.efi_hook_AllocatePages s Ledger.AllocateAddress MemoryType
        count address h k
      = Some (Ledger.EFI_SUCCESS, address, allocated)
      /\ Ledger.efi_hook_FreePages allocated address count
         = (Ledger.EFI_SUCCESS,
            Ledger.with_mappings s
              (Ledger.efi_memory_mappings s
               ++ [LedgerSpec.descriptor Ledger.EfiConventionalMemory
                     address count])).
Proof.
  intros s mt n a h k Hmt Hfits Hnone Ha Hn Hend Hremap Hnode Hmap.
  unfold Mapping.efi_hook_AllocatePages.
  rewrite (accepted_gate mt Hmt).
  change (Ledger.AllocateAddress =? Ledger.AllocateAddress) with true.
  cbv iota.
  rewrite (wrap64_small (n * Ledger.PAGE_SIZE))
    by (unfold Ledger.PAGE_SIZE in *; lia).
  rewrite Hremap, Hmap. eexists. split; [reflexivity|].
  unfold Ledger.efi_register_mem_allocation.
  rewrite Hnode, (accepted_wrap32 mt Hmt).
  assert (Hn64 : 0 <= n < 2 ^ 64) by (unfold Ledger.PAGE_SIZE in Hend; lia).
  rewrite (wrap64_small a) by (unfold Ledger.PAGE_SIZE in Hend; lia).
  rewrite (wrap64_small n) by exact Hn64.
  fold (LedgerSpec.descriptor mt a n).
  set (d := LedgerSpec.descriptor mt a n).
  assert (Hd : Ledger.fits d) by (unfold Ledger.fits, d; cbn; lia).
  assert (Hin : Ledger.in_range d a)
    by (unfold Ledger.in_range, d, Ledger.PAGE_SIZE; cbn; lia).
  unfold Ledger.efi_hook_FreePages.
  cbn [Ledger.with_mappings Ledger.efi_memory_mappings].
  destruct (unregister_first_containing
              (Ledger.efi_memory_mappings s ++ [d]) a n) as [H _].
  { apply Forall_app. split; [exact Hfits | constructor; [exact Hd | constructor]]. }
  destruct (H (Ledger.efi_memory_mappings s) d [] eq_refl Hnone Hin) as [Hs _].
  rewrite Hs by (split; reflexivity).
  reflexivity.
Qed.

(** Three pages at [0x100000], allocated and freed again in a ledger that
    holds a freed and an active descriptor elsewhere. *)
Lemma allocate_then_free_witness :
  exists allocated,
    Mapping.efi_hook_AllocatePages LedgerExample.used Ledger.AllocateAddress
      Ledger.EfiLoaderData 3 0x100000 (Ledger.remap_at 0x100000)
      (LedgerExample.fresh_area 0x100000 0x103000)
    = Some (Ledger.EFI_SUCCESS, 0x100000, allocated)
    /\ Ledger.efi_hook_FreePages allocated 0x100000 3
       = (Ledger.EFI_SUCCESS,
          Ledger.with_mappings LedgerExample.used
            [LedgerExample.freed_two_pages; LedgerExample.one_page;
             LedgerSpec.descriptor Ledger.EfiConventionalMemory 0x100000 3]).
Proof.
  apply (allocate_then_free LedgerExample.used Ledger.EfiLoaderData 3 0x100000
           (Ledger.remap_at 0x100000)
           (LedgerExample.fresh_area 0x100000 0x103000)).
  - left. reflexivity.
  - repeat constructor; vm_compute; congruence.
  - intros d0 [<-|[<-|[]]]; unfold Ledger.in_range; cbn; lia.
  - lia.
  - lia.
  - unfold Ledger.PAGE_SIZE. lia.
  - reflexivity.
  - reflexivity.
  - reflexivity.
Defined.
